(** * Relationship-graph engine of the family tree builder

    A shallow embedding of the core of [tree-core-canvas.js]
    (class [TreeCoreCanvas]): the person store, the derivation of the
    drawn connections, the clean-up pass, the undo history and the
    cache persistence, followed by the properties of the specification
    that were checked against it.

    Conventions of the embedding.
    - A JavaScript string is a [string]; [<] on strings is the
      lexicographic order [String.ltb].
    - A property that may be absent ([undefined]) is an [option];
      truthiness is written out ([JS.truthy]).
    - A [Map] is an association list in insertion order with unique
      keys, a [Set] a duplicate-free list in insertion order.
    - Person records are JavaScript objects: the store maps an id to a
      location of the object heap, so that two maps can share a record.
    - Numbers are integers ([Z]); coordinates of the canvas are taken
      at integer positions.
    - Console output, DOM access and timers are left out. *)

From Stdlib Require Import ZArith NArith List Lia Bool Ascii String.
From Stdlib Require QArith.
From stdpp Require Import base option list strings gmap infinite fin_sets sorting.

Open Scope string_scope.
Open Scope list_scope.

(** ** JavaScript primitives used by the controller *)

Module JS.

(** [a < b] on strings. *)
Definition lt (a b : string) : bool := String.ltb a b.

(** Truthiness of a possibly absent string: absent and [''] are falsy. *)
Definition truthy (o : option string) : bool :=
  match o with
  | Some s => negb (String.eqb s "")
  | None => false
  end.

(** Truthiness of a possibly absent number: absent and [0] are falsy. *)
Definition truthyZ (o : option Z) : bool :=
  match o with
  | Some z => negb (Z.eqb z 0)
  | None => false
  end.

(** [a || b]. *)
Definition or (a b : option string) : option string :=
  if truthy a then a else b.

Definition orZ (a b : option Z) : option Z :=
  if truthyZ a then a else b.

(** [a || 'literal'] and [a || 0], where the literal closes the chain. *)
Definition or_str (a : option string) (d : string) : string :=
  match a with
  | Some s => if String.eqb s "" then d else s
  | None => d
  end.

Definition or_num (a : option Z) (d : Z) : Z :=
  match a with
  | Some z => if Z.eqb z 0 then d else z
  | None => d
  end.

(** [a ?? d]. *)
Definition nullish {A} (a : option A) (d : A) : A :=
  match a with
  | Some x => x
  | None => d
  end.

(** [if (o) k(o) else d] for a possibly absent string. *)
Definition if_truthy {A} (o : option string) (k : string -> A) (d : A) : A :=
  match o with
  | Some s => if String.eqb s "" then d else k s
  | None => d
  end.

(** [s.split(sep)] for a one-character separator. *)
Fixpoint split (sep : ascii) (s : string) : list string :=
  match s with
  | EmptyString => [EmptyString]
  | String c rest =>
      if Ascii.eqb c sep then EmptyString :: split sep rest
      else match split sep rest with
           | piece :: more => String c piece :: more
           | [] => [String c EmptyString]
           end
  end.

(** [s.replace(c, '')]: the first occurrence of [c] is removed. *)
Fixpoint remove_first (c : ascii) (s : string) : string :=
  match s with
  | EmptyString => EmptyString
  | String d rest =>
      if Ascii.eqb c d then rest else String d (remove_first c rest)
  end.

(** *** [Map]: association list, insertion order, unique keys *)

Section MapOps.
Context {V : Type}.

Fixpoint Map_get (m : list (string * V)) (k : string) : option V :=
  match m with
  | [] => None
  | (k', v) :: rest => if decide (k = k') then Some v else Map_get rest k
  end.

Definition Map_has (m : list (string * V)) (k : string) : bool :=
  match Map_get m k with
  | Some _ => true
  | None => false
  end.

(** [m.set(k, v)]: an existing key keeps its place. *)
Fixpoint Map_set (m : list (string * V)) (k : string) (v : V)
  : list (string * V) :=
  match m with
  | [] => [(k, v)]
  | (k', v') :: rest =>
      if decide (k = k') then (k, v) :: rest
      else (k', v') :: Map_set rest k v
  end.

Definition Map_keys (m : list (string * V)) : list string := m.*1.
End MapOps.

(** *** [Set]: duplicate-free list, insertion order *)

Definition Set_has (s : list string) (k : string) : bool :=
  bool_decide (k ∈ s).

Definition Set_add (s : list string) (k : string) : list string :=
  if Set_has s k then s else s ++ [k].

(** [new Set(array)]. *)
Definition Set_from (l : list string) : list string :=
  fold_left Set_add l [].

End JS.

(** ** Data model *)

(** A location of the object heap. *)
Definition loc := nat.

(** A person record of [personData]: every property may be absent
    (records made by [createConnection] start as [{}]). *)
Record PersonRecord := {
  pd_id : option string;
  pd_name : option string;
  pd_fatherName : option string;
  pd_surname : option string;
  pd_maidenName : option string;
  pd_dob : option string;
  pd_gender : option string;
  motherId : option string;
  fatherId : option string;
  spouseId : option string
}.

(** The object literal [{}]. *)
Definition emptyObject : PersonRecord :=
  {| pd_id := None; pd_name := None; pd_fatherName := None;
     pd_surname := None; pd_maidenName := None; pd_dob := None;
     pd_gender := None; motherId := None; fatherId := None;
     spouseId := None |}.

Definition set_motherId (v : string) (p : PersonRecord) : PersonRecord :=
  {| pd_id := pd_id p; pd_name := pd_name p; pd_fatherName := pd_fatherName p;
     pd_surname := pd_surname p; pd_maidenName := pd_maidenName p;
     pd_dob := pd_dob p; pd_gender := pd_gender p;
     motherId := Some v; fatherId := fatherId p; spouseId := spouseId p |}.

Definition set_fatherId (v : string) (p : PersonRecord) : PersonRecord :=
  {| pd_id := pd_id p; pd_name := pd_name p; pd_fatherName := pd_fatherName p;
     pd_surname := pd_surname p; pd_maidenName := pd_maidenName p;
     pd_dob := pd_dob p; pd_gender := pd_gender p;
     motherId := motherId p; fatherId := Some v; spouseId := spouseId p |}.

Definition set_spouseId (v : string) (p : PersonRecord) : PersonRecord :=
  {| pd_id := pd_id p; pd_name := pd_name p; pd_fatherName := pd_fatherName p;
     pd_surname := pd_surname p; pd_maidenName := pd_maidenName p;
     pd_dob := pd_dob p; pd_gender := pd_gender p;
     motherId := motherId p; fatherId := fatherId p; spouseId := Some v |}.

(** A node of the render surface. *)
Record Node := {
  node_x : Z;
  node_y : Z;
  node_name : string;
  node_fatherName : string;
  node_surname : string;
  node_maidenName : string;
  node_dob : string;
  node_gender : string;
  node_color : string;
  node_radius : Z
}.

Inductive ConnectionType := parent | spouse | line_only.

(** An edge of the render surface, [{from, to, type}]. *)
Record Connection := {
  conn_from : string;
  conn_to : string;
  conn_type : ConnectionType
}.

Record Camera := { cam_x : Z; cam_y : Z; cam_scale : Z }.

Record DisplayPreferences := {
  showMaidenName : bool;
  showDateOfBirth : bool;
  showFatherName : bool
}.

(** [renderer.settings], the outline and line style knobs. *)
Record RendererSettings := {
  showNodeOutline : bool;
  outlineColor : string;
  outlineThickness : Z;
  familyLineStyle : string;
  familyLineThickness : Z;
  familyLineColor : string;
  spouseLineStyle : string;
  spouseLineThickness : Z;
  spouseLineColor : string;
  lineOnlyStyle : string;
  lineOnlyThickness : Z;
  lineOnlyColor : string
}.

(** The style fields of the controller itself. *)
Record CoreSettings := {
  nodeRadius : Z;
  defaultColor : string;
  fontFamily : string;
  fontSize : Z;
  nameColor : string;
  dateColor : string
}.

(** The [settings] object written by [getCurrentState] and
    [pushUndoState]. *)
Record Settings := {
  s_core : CoreSettings;
  s_lines : RendererSettings
}.

#[global] Instance ConnectionType_eq_dec : EqDecision ConnectionType.
Proof. solve_decision. Defined.
#[global] Instance Connection_eq_dec : EqDecision Connection.
Proof. solve_decision. Defined.
#[global] Instance PersonRecord_eq_dec : EqDecision PersonRecord.
Proof. solve_decision. Defined.

(** A history snapshot as [pushUndoState] builds it.  [snap_personData]
    is [new Map(this.personData)]: a new map over the same record
    objects, hence a list of locations.  The nodes are copied one by one
    ([{ ...node }]), hence held by value. *)
Record Snapshot := {
  snap_nodes : list (string * Node);
  snap_personData : list (string * loc);
  snap_camera : Camera;
  snap_hiddenConnections : list string;
  snap_lineOnlyConnections : list string;
  snap_displayPreferences : DisplayPreferences;
  snap_nodeStyle : string;
  snap_settings : Settings
}.

(** An element of [persons] in the state written by [getCurrentState]. *)
Record PersonState := {
  ps_id : string;
  ps_x : Z;
  ps_y : Z;
  ps_name : string;
  ps_fatherName : string;
  ps_surname : string;
  ps_maidenName : string;
  ps_dob : string;
  ps_gender : string;
  ps_color : string;
  ps_radius : Z;
  ps_motherId : string;
  ps_fatherId : string;
  ps_spouseId : string
}.

(** The object returned by [getCurrentState], as JSON sees it: the
    records of [personDataBackup] are held by value. *)
Record PersistedState := {
  st_version : string;
  st_timestamp : N;
  st_cacheFormat : string;
  st_settings : Settings;
  st_displayPreferences : DisplayPreferences;
  st_nodeStyle : string;
  st_camera : Camera;
  st_hiddenConnections : list string;
  st_lineOnlyConnections : list string;
  st_persons : list PersonState;
  st_personDataBackup : list (string * PersonRecord);
  st_currentConnections : list Connection;
  st_nextId : Z
}.

(** An element of [getPersonsArray()]:
    [{id, x, y, color, radius, ...personData}]. *)
Record CompressedPerson := {
  cp_id : string;
  cp_x : Z;
  cp_y : Z;
  cp_color : string;
  cp_radius : Z;
  cp_data : PersonRecord
}.

(** The object returned by [getCompressedState]. *)
Record CompressedState := {
  cs_version : string;
  cs_timestamp : N;
  cs_cacheFormat : string;
  cs_persons : list CompressedPerson;
  cs_personData : list (string * PersonRecord);
  cs_nextId : Z;
  cs_hiddenConnections : list string;
  cs_lineOnlyConnections : list string
}.

(** A person of a parsed snapshot: the current property names and the
    older ones [processLoadedData] also probes. *)
Record LoadedPerson := {
  lp_id : string;
  lp_x : option Z;  lp_cx : option Z;
  lp_y : option Z;  lp_cy : option Z;
  lp_name : option string;
  lp_fatherName : option string;  lp_father_name : option string;
  lp_surname : option string;
  lp_maidenName : option string;  lp_birthName : option string;
  lp_birth_name : option string;
  lp_dob : option string;
  lp_gender : option string;
  lp_color : option string;  lp_nodeColor : option string;
  lp_fill : option string;
  lp_radius : option Z;  lp_nodeSize : option Z;  lp_r : option Z;
  lp_motherId : option string;  lp_mother_id : option string;
  lp_fatherId : option string;  lp_father_id : option string;
  lp_spouseId : option string;  lp_spouse_id : option string
}.

(** [data.settings] of a parsed snapshot. *)
Record LoadedSettings := {
  ls_nodeRadius : option Z;
  ls_defaultColor : option string;
  ls_fontFamily : option string;
  ls_fontSize : option Z;
  ls_nameColor : option string;
  ls_dateColor : option string;
  ls_showNodeOutline : option bool;
  ls_outlineColor : option string;
  ls_outlineThickness : option Z;
  ls_familyLineStyle : option string;
  ls_familyLineThickness : option Z;
  ls_familyLineColor : option string;
  ls_spouseLineStyle : option string;
  ls_spouseLineThickness : option Z;
  ls_spouseLineColor : option string;
  ls_lineOnlyStyle : option string;
  ls_lineOnlyThickness : option Z;
  ls_lineOnlyColor : option string
}.

(** A parsed snapshot, the argument of [processLoadedData]: any
    property may be missing.  [ld_people] is the property [people] of an
    unsupported format; only its presence is looked at. *)
Record LoadedData := {
  ld_version : option string;
  ld_cacheFormat : option string;
  ld_settings : option LoadedSettings;
  ld_displayPreferences : option DisplayPreferences;
  ld_nodeStyle : option string;
  ld_camera : option Camera;
  ld_hiddenConnections : option (list string);
  ld_lineOnlyConnections : option (list string);
  ld_nextId : option Z;
  ld_persons : option (list LoadedPerson);
  ld_personDataBackup : option (list (string * PersonRecord));
  ld_people : option (list string)
}.

(** *** Browser storage *)

(** The keys the controller uses: [this.cacheKey], the backups
    [`${this.cacheKey}_backup_${timestamp}`], and any other key of the
    origin. *)
Inductive StorageKey :=
  | CacheKey
  | BackupKey (timestamp : N)
  | OtherKey (name : string).

#[global] Instance StorageKey_eq_dec : EqDecision StorageKey.
Proof. solve_decision. Defined.

(** A stored string, by what it holds: the JSON text of a full state,
    of a compressed state, text that parses to some other object, the
    text [null], text that does not parse, or the empty string. *)
Inductive Stored :=
  | EnhancedJSON (s : PersistedState)
  | CompressedJSON (c : CompressedState)
  | ForeignJSON (d : LoadedData)
  | NullJSON
  | CorruptText
  | EmptyText.

(** [localStorage]: the items in key order, and the number of bytes the
    browser grants the origin ([None]: no limit is ever hit). *)
Record LocalStorage := {
  items : list (StorageKey * Stored);
  quota : option N
}.

(** *** The render surface and the controller *)

Record Renderer := {
  nodes : list (string * Node);
  connections : list Connection;
  camera : Camera;
  settings : RendererSettings;
  needsRedraw : bool
}.

(** The fields of [TreeCoreCanvas] the engine works on.  [heap] holds
    the record objects [personData] and the snapshots point to.  A
    [personData] that was never assigned is the empty map: every
    function below treats the two alike. *)
Record TreeCore := {
  renderer : Renderer;
  heap : gmap loc PersonRecord;
  personData : list (string * loc);
  hiddenConnections : list string;
  lineOnlyConnections : list string;
  core : CoreSettings;
  displayPreferences : DisplayPreferences;
  nodeStyle : string;
  nextId : Z;
  undoStack : list Snapshot;
  redoStack : list Snapshot;
  maxUndoSize : nat;
  connectionPersonA : option string;
  connectionPersonB : option string;
  cacheVersion : string;
  localStorage : LocalStorage
}.

(** Field updates. *)

Definition with_connections (c : list Connection) (r : Renderer) : Renderer :=
  {| nodes := nodes r; connections := c; camera := camera r;
     settings := settings r; needsRedraw := needsRedraw r |}.

Definition with_nodes (n : list (string * Node)) (r : Renderer) : Renderer :=
  {| nodes := n; connections := connections r; camera := camera r;
     settings := settings r; needsRedraw := needsRedraw r |}.

Definition with_needsRedraw (b : bool) (r : Renderer) : Renderer :=
  {| nodes := nodes r; connections := connections r; camera := camera r;
     settings := settings r; needsRedraw := b |}.

Definition with_settings (s : RendererSettings) (r : Renderer) : Renderer :=
  {| nodes := nodes r; connections := connections r; camera := camera r;
     settings := s; needsRedraw := needsRedraw r |}.

Definition with_renderer (r : Renderer) (t : TreeCore) : TreeCore :=
  {| renderer := r; heap := heap t; personData := personData t;
     hiddenConnections := hiddenConnections t;
     lineOnlyConnections := lineOnlyConnections t; core := core t;
     displayPreferences := displayPreferences t; nodeStyle := nodeStyle t;
     nextId := nextId t; undoStack := undoStack t; redoStack := redoStack t;
     maxUndoSize := maxUndoSize t;
     connectionPersonA := connectionPersonA t;
     connectionPersonB := connectionPersonB t;
     cacheVersion := cacheVersion t; localStorage := localStorage t |}.

Definition with_heap (h : gmap loc PersonRecord) (t : TreeCore) : TreeCore :=
  {| renderer := renderer t; heap := h; personData := personData t;
     hiddenConnections := hiddenConnections t;
     lineOnlyConnections := lineOnlyConnections t; core := core t;
     displayPreferences := displayPreferences t; nodeStyle := nodeStyle t;
     nextId := nextId t; undoStack := undoStack t; redoStack := redoStack t;
     maxUndoSize := maxUndoSize t;
     connectionPersonA := connectionPersonA t;
     connectionPersonB := connectionPersonB t;
     cacheVersion := cacheVersion t; localStorage := localStorage t |}.

Definition with_personData (p : list (string * loc)) (t : TreeCore) : TreeCore :=
  {| renderer := renderer t; heap := heap t; personData := p;
     hiddenConnections := hiddenConnections t;
     lineOnlyConnections := lineOnlyConnections t; core := core t;
     displayPreferences := displayPreferences t; nodeStyle := nodeStyle t;
     nextId := nextId t; undoStack := undoStack t; redoStack := redoStack t;
     maxUndoSize := maxUndoSize t;
     connectionPersonA := connectionPersonA t;
     connectionPersonB := connectionPersonB t;
     cacheVersion := cacheVersion t; localStorage := localStorage t |}.

Definition with_suppression (hid lo : list string) (t : TreeCore) : TreeCore :=
  {| renderer := renderer t; heap := heap t; personData := personData t;
     hiddenConnections := hid; lineOnlyConnections := lo; core := core t;
     displayPreferences := displayPreferences t; nodeStyle := nodeStyle t;
     nextId := nextId t; undoStack := undoStack t; redoStack := redoStack t;
     maxUndoSize := maxUndoSize t;
     connectionPersonA := connectionPersonA t;
     connectionPersonB := connectionPersonB t;
     cacheVersion := cacheVersion t; localStorage := localStorage t |}.

Definition with_style (c : CoreSettings) (d : DisplayPreferences) (n : string)
    (t : TreeCore) : TreeCore :=
  {| renderer := renderer t; heap := heap t; personData := personData t;
     hiddenConnections := hiddenConnections t;
     lineOnlyConnections := lineOnlyConnections t; core := c;
     displayPreferences := d; nodeStyle := n;
     nextId := nextId t; undoStack := undoStack t; redoStack := redoStack t;
     maxUndoSize := maxUndoSize t;
     connectionPersonA := connectionPersonA t;
     connectionPersonB := connectionPersonB t;
     cacheVersion := cacheVersion t; localStorage := localStorage t |}.

Definition with_nextId (n : Z) (t : TreeCore) : TreeCore :=
  {| renderer := renderer t; heap := heap t; personData := personData t;
     hiddenConnections := hiddenConnections t;
     lineOnlyConnections := lineOnlyConnections t; core := core t;
     displayPreferences := displayPreferences t; nodeStyle := nodeStyle t;
     nextId := n; undoStack := undoStack t; redoStack := redoStack t;
     maxUndoSize := maxUndoSize t;
     connectionPersonA := connectionPersonA t;
     connectionPersonB := connectionPersonB t;
     cacheVersion := cacheVersion t; localStorage := localStorage t |}.

Definition with_history (u r : list Snapshot) (t : TreeCore) : TreeCore :=
  {| renderer := renderer t; heap := heap t; personData := personData t;
     hiddenConnections := hiddenConnections t;
     lineOnlyConnections := lineOnlyConnections t; core := core t;
     displayPreferences := displayPreferences t; nodeStyle := nodeStyle t;
     nextId := nextId t; undoStack := u; redoStack := r;
     maxUndoSize := maxUndoSize t;
     connectionPersonA := connectionPersonA t;
     connectionPersonB := connectionPersonB t;
     cacheVersion := cacheVersion t; localStorage := localStorage t |}.

Definition with_connectionPersons (a b : option string) (t : TreeCore)
  : TreeCore :=
  {| renderer := renderer t; heap := heap t; personData := personData t;
     hiddenConnections := hiddenConnections t;
     lineOnlyConnections := lineOnlyConnections t; core := core t;
     displayPreferences := displayPreferences t; nodeStyle := nodeStyle t;
     nextId := nextId t; undoStack := undoStack t; redoStack := redoStack t;
     maxUndoSize := maxUndoSize t;
     connectionPersonA := a; connectionPersonB := b;
     cacheVersion := cacheVersion t; localStorage := localStorage t |}.

Definition with_localStorage (s : LocalStorage) (t : TreeCore) : TreeCore :=
  {| renderer := renderer t; heap := heap t; personData := personData t;
     hiddenConnections := hiddenConnections t;
     lineOnlyConnections := lineOnlyConnections t; core := core t;
     displayPreferences := displayPreferences t; nodeStyle := nodeStyle t;
     nextId := nextId t; undoStack := undoStack t; redoStack := redoStack t;
     maxUndoSize := maxUndoSize t;
     connectionPersonA := connectionPersonA t;
     connectionPersonB := connectionPersonB t;
     cacheVersion := cacheVersion t; localStorage := s |}.

(** ** The render surface *)

(** Modelled from the spec: [canvas-renderer.js] is not among the
    sources.  The render surface keeps an ordered edge list with
    [addConnection(from, to, type)] and [clearConnections()], a node
    collection keyed by id with the upsert [setNode(id, data)], and the
    camera with [getCamera()] and [setCamera(x, y, scale)]. *)
Definition clearConnections (r : Renderer) : Renderer :=
  with_connections [] r.

Definition addConnection (from to : string) (type : ConnectionType)
    (r : Renderer) : Renderer :=
  with_connections
    (connections r ++ [{| conn_from := from; conn_to := to; conn_type := type |}])
    r.

Definition setNode (id : string) (data : Node) (r : Renderer) : Renderer :=
  with_nodes (JS.Map_set (nodes r) id data) r.

Definition getCamera (r : Renderer) : Camera := camera r.

Definition setCamera (x y scale : Z) (r : Renderer) : Renderer :=
  {| nodes := nodes r; connections := connections r;
     camera := {| cam_x := x; cam_y := y; cam_scale := scale |};
     settings := settings r; needsRedraw := needsRedraw r |}.

(** ** Connection derivation *)

(** The record a location holds.  A location of [personData] always
    holds an object; [{}] stands for a location never written. *)
Definition deref (h : gmap loc PersonRecord) (l : loc) : PersonRecord :=
  default emptyObject (h !! l).

(** [getConnectionKey(id1, id2)]. *)
Definition getConnectionKey (id1 id2 : string) : string :=
  if JS.lt id1 id2 then id1 +:+ "-" +:+ id2 else id2 +:+ "-" +:+ id1.

(** The block [regenerateConnections] repeats for mother, father and
    spouse: unless the pair is hidden, and if both nodes exist, add the
    connection. *)
Definition connectUnlessHidden (childId other : string)
    (type : ConnectionType) (t : TreeCore) : TreeCore :=
  let connectionKey := getConnectionKey childId other in
  if JS.Set_has (hiddenConnections t) connectionKey then t
  else if JS.Map_has (nodes (renderer t)) childId
          && JS.Map_has (nodes (renderer t)) other
       then with_renderer (addConnection childId other type (renderer t)) t
       else t.

(** One turn of [for (const [childId, childData] of this.personData)]. *)
Definition visitPerson (t : TreeCore) (entry : string * loc) : TreeCore :=
  let childId := entry.1 in
  let childData := deref (heap t) entry.2 in
  let t1 := JS.if_truthy (motherId childData)
              (fun m => connectUnlessHidden childId m parent t) t in
  let t2 := JS.if_truthy (fatherId childData)
              (fun f => connectUnlessHidden childId f parent t1) t1 in
  let t3 := JS.if_truthy (spouseId childData)
              (fun s => if negb (bool_decide (s = childId)) && JS.lt childId s
                        then connectUnlessHidden childId s spouse t2
                        else t2) t2 in
  if bool_decide (spouseId childData = Some childId)
  then with_heap (<[entry.2 := set_spouseId "" childData]> (heap t3)) t3
  else t3.

(** One turn of [for (const connectionKey of this.lineOnlyConnections)].
    A key without [-] leaves [id2] undefined, which is no node. *)
Definition visitLineOnly (t : TreeCore) (connectionKey : string) : TreeCore :=
  if JS.Set_has (hiddenConnections t) connectionKey then t
  else match JS.split "-" connectionKey with
       | id1 :: id2 :: _ =>
           if JS.Map_has (nodes (renderer t)) id1
              && JS.Map_has (nodes (renderer t)) id2
           then with_renderer (addConnection id1 id2 line_only (renderer t)) t
           else t
       | _ => t
       end.

(** [regenerateConnections()]. *)
Definition regenerateConnections (t : TreeCore) : TreeCore :=
  let t0 := with_renderer (clearConnections (renderer t)) t in
  match personData t0 with
  | [] => t0
  | _ :: _ =>
      let t1 := fold_left visitPerson (personData t0) t0 in
      let t2 := fold_left visitLineOnly (lineOnlyConnections t1) t1 in
      with_renderer (with_needsRedraw true (renderer t2)) t2
  end.

(** ** Clean-up pass *)

(** One turn of the loop of [cleanupInvalidRelationships], on the heap
    and the counter [cleaned].  The three assignments act on the one
    record object, in the order of the source. *)
Definition cleanPerson (acc : gmap loc PersonRecord * nat)
    (entry : string * loc) : gmap loc PersonRecord * nat :=
  let personId := entry.1 in
  let p0 := deref acc.1 entry.2 in
  let selfSpouse := bool_decide (spouseId p0 = Some personId) in
  let p1 := if selfSpouse then set_spouseId "" p0 else p0 in
  let selfMother := bool_decide (motherId p1 = Some personId) in
  let p2 := if selfMother then set_motherId "" p1 else p1 in
  let selfFather := bool_decide (fatherId p2 = Some personId) in
  let p3 := if selfFather then set_fatherId "" p2 else p2 in
  let hasChanges := selfSpouse || selfMother || selfFather in
  (if hasChanges then <[entry.2 := p3]> acc.1 else acc.1,
   acc.2 + Nat.b2n selfSpouse + Nat.b2n selfMother + Nat.b2n selfFather)%nat.

(** [cleanupInvalidRelationships()]: the number of corrections and the
    state it leaves. *)
Definition cleanupInvalidRelationships (t : TreeCore) : nat * TreeCore :=
  let '(h, cleaned) := fold_left cleanPerson (personData t) (heap t, 0) in
  let t1 := with_heap h t in
  if bool_decide (0 < cleaned)
  then
    let t2 := regenerateConnections t1 in
    (cleaned, with_renderer (with_needsRedraw true (renderer t2)) t2)
  else (cleaned, t1).


(** ** Undo history *)

(** The [settings] object [pushUndoState] and [getCurrentState] build:
    the style fields of the controller and those of the renderer (the
    [??] defaults only apply without a renderer). *)
Definition currentSettings (t : TreeCore) : Settings :=
  {| s_core := core t; s_lines := settings (renderer t) |}.

(** The object [state] that [pushUndoState] builds. *)
Definition snapshotOf (t : TreeCore) : Snapshot :=
  {| snap_nodes := nodes (renderer t);
     snap_personData := personData t;
     snap_camera := getCamera (renderer t);
     snap_hiddenConnections := hiddenConnections t;
     snap_lineOnlyConnections := lineOnlyConnections t;
     snap_displayPreferences := displayPreferences t;
     snap_nodeStyle := nodeStyle t;
     snap_settings := currentSettings t |}.

(** [pushUndoState()].  The delayed [autoSave] it schedules runs later,
    as a call of [saveToCache] of its own. *)
Definition pushUndoState (t : TreeCore) : TreeCore :=
  let state := snapshotOf t in
  let pushed := undoStack t ++ [state] in
  let capped :=
    if bool_decide (maxUndoSize t < length pushed) then tail pushed
    else pushed in
  with_history capped [] t.

(** ** Creating a connection *)

(** [handleConnectSelected()], on the selection the renderer reports:
    with exactly two persons selected they become [connectionPersonA]
    and [connectionPersonB], in the order of selection, and the modal
    opens, whose buttons call [createConnection]. *)
Definition handleConnectSelected (selectedNodes : list string) (t : TreeCore)
  : TreeCore :=
  match selectedNodes with
  | [personA; personB] =>
      {| renderer := renderer t; heap := heap t; personData := personData t;
         hiddenConnections := hiddenConnections t;
         lineOnlyConnections := lineOnlyConnections t; core := core t;
         displayPreferences := displayPreferences t; nodeStyle := nodeStyle t;
         nextId := nextId t; undoStack := undoStack t; redoStack := redoStack t;
         maxUndoSize := maxUndoSize t;
         connectionPersonA := Some personA; connectionPersonB := Some personB;
         cacheVersion := cacheVersion t; localStorage := localStorage t |}
  | _ => t
  end.

(** [this.personData.get(id) || {}]: the record object of [id], or a new
    empty object. *)
Definition getOrNewRecord (id : string) (t : TreeCore) : loc * TreeCore :=
  match JS.Map_get (personData t) id with
  | Some l => (l, t)
  | None =>
      let l := fresh (dom (heap t)) in
      (l, with_heap (<[l := emptyObject]> (heap t)) t)
  end.

(** An assignment to a property of the object at [l]. *)
Definition assign (l : loc) (f : PersonRecord -> PersonRecord) (t : TreeCore)
  : TreeCore :=
  with_heap (<[l := f (deref (heap t) l)]> (heap t)) t.

Definition addLineOnly (personA personB : string) (t : TreeCore) : TreeCore :=
  with_renderer (addConnection personA personB line_only (renderer t))
    (with_suppression (hiddenConnections t)
       (JS.Set_add (lineOnlyConnections t) (personA +:+ "-" +:+ personB)) t).

(** Modelled from the spec: [core-undoRedo.js] is not among the
    sources.  [undoRedoManager.pushUndoState()] is the [pushState] of
    the history manager: it snapshots the mutable state, appends it to
    the undo stack, clears the redo stack and caps the undo stack, which
    is what [pushUndoState] of the controller does. *)
Definition undoRedoManager_pushUndoState (t : TreeCore) : TreeCore :=
  pushUndoState t.

(** [createConnection(connectionType)], the method of the connection
    modal (the later of the two methods of that name, which is the one
    the class keeps). *)
Definition createConnection (connectionType : string) (t : TreeCore) : TreeCore :=
  match connectionPersonA t, connectionPersonB t with
  | Some personA, Some personB =>
      if negb (JS.truthy (Some personA)) || negb (JS.truthy (Some personB))
      then t
      else
        let '(lA, t) := getOrNewRecord personA t in
        let '(lB, t) := getOrNewRecord personB t in
        let addParent t :=
          with_renderer (addConnection personB personA parent (renderer t)) t in
        let t :=
          if String.eqb connectionType "mother" then
            addParent (assign lB (set_motherId personA) t)
          else if String.eqb connectionType "father" then
            addParent (assign lB (set_fatherId personA) t)
          else if String.eqb connectionType "child" then
            if negb (JS.truthy (motherId (deref (heap t) lB))) then
              addParent (assign lB (set_motherId personA) t)
            else if negb (JS.truthy (fatherId (deref (heap t) lB))) then
              addParent (assign lB (set_fatherId personA) t)
            else addLineOnly personA personB t
          else if String.eqb connectionType "spouse" then
            let t := assign lA (set_spouseId personB) t in
            let t := assign lB (set_spouseId personA) t in
            with_renderer (addConnection personA personB spouse (renderer t)) t
          else if String.eqb connectionType "line-only" then
            addLineOnly personA personB t
          else t in
        let t := with_personData (JS.Map_set (personData t) personA lA) t in
        let t := with_personData (JS.Map_set (personData t) personB lB) t in
        let t := with_renderer (with_needsRedraw true (renderer t)) t in
        let t := with_connectionPersons None None t in
        undoRedoManager_pushUndoState t
  | _, _ => t
  end.

(** ** Persistence *)

(** [parseInt(s)]: leading blanks, a sign, then the longest run of
    digits, in base 16 after [0x]; [None] is [NaN]. *)
Definition digitValue (radix : Z) (c : ascii) : option Z :=
  let n := Z.of_N (N_of_ascii c) in
  let v :=
    if (48 <=? n)%Z && (n <=? 57)%Z then Some (n - 48)%Z
    else if (97 <=? n)%Z && (n <=? 122)%Z then Some (n - 87)%Z
    else if (65 <=? n)%Z && (n <=? 90)%Z then Some (n - 55)%Z
    else None in
  match v with
  | Some d => if (d <? radix)%Z then Some d else None
  | None => None
  end.

Fixpoint parseDigits (radix : Z) (acc : option Z) (s : string) : option Z :=
  match s with
  | EmptyString => acc
  | String c rest =>
      match digitValue radix c with
      | Some d => parseDigits radix (Some (default 0 acc * radix + d)%Z) rest
      | None => acc
      end
  end.

Fixpoint skipBlanks (s : string) : string :=
  match s with
  | String c rest =>
      let n := N_of_ascii c in
      if (N.eqb n 32 || ((9 <=? n) && (n <=? 13)))%N then skipBlanks rest
      else s
  | EmptyString => s
  end.

Definition parseInt (s : string) : option Z :=
  let s := skipBlanks s in
  let '(negative, s) :=
    match s with
    | String "-" rest => (true, rest)
    | String "+" rest => (false, rest)
    | _ => (false, s)
    end in
  let magnitude :=
    match s with
    | String "0" (String "x" rest) => parseDigits 16 None rest
    | String "0" (String "X" rest) => parseDigits 16 None rest
    | _ => parseDigits 10 None s
    end in
  match magnitude with
  | Some m => Some (if negative : bool then (- m)%Z else m)
  | None => None
  end.

(** The record of a node's id: [this.personData?.get(id) || {}]. *)
Definition recordOf (t : TreeCore) (id : string) : PersonRecord :=
  match JS.Map_get (personData t) id with
  | Some l => deref (heap t) l
  | None => emptyObject
  end.

(** One element of [persons] in [getCurrentState]. *)
Definition personState (t : TreeCore) (entry : string * Node) : PersonState :=
  let id := entry.1 in
  let node := entry.2 in
  let personData := recordOf t id in
  {| ps_id := id;
     ps_x := node_x node;
     ps_y := node_y node;
     ps_name := JS.or_str (JS.or (Some (node_name node)) (pd_name personData)) "";
     ps_fatherName :=
       JS.or_str (JS.or (Some (node_fatherName node)) (pd_fatherName personData)) "";
     ps_surname :=
       JS.or_str (JS.or (Some (node_surname node)) (pd_surname personData)) "";
     ps_maidenName :=
       JS.or_str (JS.or (Some (node_maidenName node)) (pd_maidenName personData)) "";
     ps_dob := JS.or_str (JS.or (Some (node_dob node)) (pd_dob personData)) "";
     ps_gender :=
       JS.or_str (JS.or (Some (node_gender node)) (pd_gender personData)) "";
     ps_color := JS.or_str (Some (node_color node)) (defaultColor (core t));
     ps_radius := JS.or_num (Some (node_radius node)) (nodeRadius (core t));
     ps_motherId := JS.or_str (motherId personData) "";
     ps_fatherId := JS.or_str (fatherId personData) "";
     ps_spouseId := JS.or_str (spouseId personData) "" |}.

(** [Array.from(this.personData.entries())], as JSON writes it. *)
Definition personDataEntries (t : TreeCore) : list (string * PersonRecord) :=
  map (fun entry => (entry.1, deref (heap t) entry.2)) (personData t).

(** [getCurrentState()]; [now] is [Date.now()]. *)
Definition getCurrentState (now : N) (t : TreeCore) : PersistedState :=
  {| st_version := cacheVersion t;
     st_timestamp := now;
     st_cacheFormat := "enhanced";
     st_settings := currentSettings t;
     st_displayPreferences := displayPreferences t;
     st_nodeStyle := nodeStyle t;
     st_camera := getCamera (renderer t);
     st_hiddenConnections := hiddenConnections t;
     st_lineOnlyConnections := lineOnlyConnections t;
     st_persons := map (personState t) (nodes (renderer t));
     st_personDataBackup := personDataEntries t;
     st_currentConnections := connections (renderer t);
     st_nextId := nextId t |}.

(** [getPersonsArray()]: the spread [...personData] comes last, so an
    [id] property of the record overrides the key. *)
Definition getPersonsArray (t : TreeCore) : list CompressedPerson :=
  map (fun entry : string * Node =>
         let personData := recordOf t entry.1 in
         {| cp_id := default entry.1 (pd_id personData);
            cp_x := node_x entry.2;
            cp_y := node_y entry.2;
            cp_color := node_color entry.2;
            cp_radius := node_radius entry.2;
            cp_data := personData |})
      (nodes (renderer t)).

(** [getCompressedState()]. *)
Definition getCompressedState (now : N) (t : TreeCore) : CompressedState :=
  {| cs_version := cacheVersion t;
     cs_timestamp := now;
     cs_cacheFormat := "compressed";
     cs_persons := getPersonsArray t;
     cs_personData := personDataEntries t;
     cs_nextId := nextId t;
     cs_hiddenConnections := hiddenConnections t;
     cs_lineOnlyConnections := lineOnlyConnections t |}.

(** *** Stored text read back *)

(** [JSON.parse(JSON.stringify(state))] for the two shapes the
    controller writes. *)
Definition loadedPersonOfState (p : PersonState) : LoadedPerson :=
  {| lp_id := ps_id p;
     lp_x := Some (ps_x p); lp_cx := None;
     lp_y := Some (ps_y p); lp_cy := None;
     lp_name := Some (ps_name p);
     lp_fatherName := Some (ps_fatherName p); lp_father_name := None;
     lp_surname := Some (ps_surname p);
     lp_maidenName := Some (ps_maidenName p); lp_birthName := None;
     lp_birth_name := None;
     lp_dob := Some (ps_dob p);
     lp_gender := Some (ps_gender p);
     lp_color := Some (ps_color p); lp_nodeColor := None; lp_fill := None;
     lp_radius := Some (ps_radius p); lp_nodeSize := None; lp_r := None;
     lp_motherId := Some (ps_motherId p); lp_mother_id := None;
     lp_fatherId := Some (ps_fatherId p); lp_father_id := None;
     lp_spouseId := Some (ps_spouseId p); lp_spouse_id := None |}.

Definition loadedPersonOfCompressed (p : CompressedPerson) : LoadedPerson :=
  {| lp_id := cp_id p;
     lp_x := Some (cp_x p); lp_cx := None;
     lp_y := Some (cp_y p); lp_cy := None;
     lp_name := pd_name (cp_data p);
     lp_fatherName := pd_fatherName (cp_data p); lp_father_name := None;
     lp_surname := pd_surname (cp_data p);
     lp_maidenName := pd_maidenName (cp_data p); lp_birthName := None;
     lp_birth_name := None;
     lp_dob := pd_dob (cp_data p);
     lp_gender := pd_gender (cp_data p);
     lp_color := Some (cp_color p); lp_nodeColor := None; lp_fill := None;
     lp_radius := Some (cp_radius p); lp_nodeSize := None; lp_r := None;
     lp_motherId := motherId (cp_data p); lp_mother_id := None;
     lp_fatherId := fatherId (cp_data p); lp_father_id := None;
     lp_spouseId := spouseId (cp_data p); lp_spouse_id := None |}.

Definition loadedSettings (s : Settings) : LoadedSettings :=
  {| ls_nodeRadius := Some (nodeRadius (s_core s));
     ls_defaultColor := Some (defaultColor (s_core s));
     ls_fontFamily := Some (fontFamily (s_core s));
     ls_fontSize := Some (fontSize (s_core s));
     ls_nameColor := Some (nameColor (s_core s));
     ls_dateColor := Some (dateColor (s_core s));
     ls_showNodeOutline := Some (showNodeOutline (s_lines s));
     ls_outlineColor := Some (outlineColor (s_lines s));
     ls_outlineThickness := Some (outlineThickness (s_lines s));
     ls_familyLineStyle := Some (familyLineStyle (s_lines s));
     ls_familyLineThickness := Some (familyLineThickness (s_lines s));
     ls_familyLineColor := Some (familyLineColor (s_lines s));
     ls_spouseLineStyle := Some (spouseLineStyle (s_lines s));
     ls_spouseLineThickness := Some (spouseLineThickness (s_lines s));
     ls_spouseLineColor := Some (spouseLineColor (s_lines s));
     ls_lineOnlyStyle := Some (lineOnlyStyle (s_lines s));
     ls_lineOnlyThickness := Some (lineOnlyThickness (s_lines s));
     ls_lineOnlyColor := Some (lineOnlyColor (s_lines s)) |}.

Definition loadedOfState (s : PersistedState) : LoadedData :=
  {| ld_version := Some (st_version s);
     ld_cacheFormat := Some (st_cacheFormat s);
     ld_settings := Some (loadedSettings (st_settings s));
     ld_displayPreferences := Some (st_displayPreferences s);
     ld_nodeStyle := Some (st_nodeStyle s);
     ld_camera := Some (st_camera s);
     ld_hiddenConnections := Some (st_hiddenConnections s);
     ld_lineOnlyConnections := Some (st_lineOnlyConnections s);
     ld_nextId := Some (st_nextId s);
     ld_persons := Some (map loadedPersonOfState (st_persons s));
     ld_personDataBackup := Some (st_personDataBackup s);
     ld_people := None |}.

Definition loadedOfCompressed (c : CompressedState) : LoadedData :=
  {| ld_version := Some (cs_version c);
     ld_cacheFormat := Some (cs_cacheFormat c);
     ld_settings := None;
     ld_displayPreferences := None;
     ld_nodeStyle := None;
     ld_camera := None;
     ld_hiddenConnections := Some (cs_hiddenConnections c);
     ld_lineOnlyConnections := Some (cs_lineOnlyConnections c);
     ld_nextId := Some (cs_nextId c);
     ld_persons := Some (map loadedPersonOfCompressed (cs_persons c));
     ld_personDataBackup := None;
     ld_people := None |}.

(** The outcome of [JSON.parse]: an exception, [null] (any property
    access on it throws), or an object. *)
Inductive Parsed :=
  | ParseError
  | ParsedNull
  | ParsedObject (d : LoadedData).

Definition JSON_parse (text : Stored) : Parsed :=
  match text with
  | EnhancedJSON s => ParsedObject (loadedOfState s)
  | CompressedJSON c => ParsedObject (loadedOfCompressed c)
  | ForeignJSON d => ParsedObject d
  | NullJSON => ParsedNull
  | CorruptText => ParseError
  | EmptyText => ParseError
  end.

(** What the user is told ([notifications.success] and the like). *)
Inductive Notification :=
  | success (title message : string)
  | error (title message : string)
  | warning (title message : string).

(** The outcome of [loadCachedState]: the value the promise resolves
    to, the notifications shown, and the state left. *)
Record LoadOutcome := {
  returned : bool;
  notified : list Notification;
  after : TreeCore
}.

(** The state [new TreeCoreCanvas()] has once [initialize] has made the
    renderer, over a given storage.  The renderer is not among the
    sources: its settings start at the defaults the controller falls
    back to, its camera at the one it falls back to. *)
Definition initialTreeCore (storage : LocalStorage) : TreeCore :=
  {| renderer :=
       {| nodes := []; connections := [];
          camera := {| cam_x := 0; cam_y := 0; cam_scale := 1 |};
          settings :=
            {| showNodeOutline := true; outlineColor := "#2c3e50";
               outlineThickness := 2;
               familyLineStyle := "solid"; familyLineThickness := 2;
               familyLineColor := "#7f8c8d";
               spouseLineStyle := "dashed"; spouseLineThickness := 2;
               spouseLineColor := "#e74c3c";
               lineOnlyStyle := "dash-dot"; lineOnlyThickness := 2;
               lineOnlyColor := "#9b59b6" |};
          needsRedraw := false |};
     heap := ∅;
     personData := [];
     hiddenConnections := [];
     lineOnlyConnections := [];
     core := {| nodeRadius := 50; defaultColor := "#3498db";
                fontFamily := "Inter"; fontSize := 11;
                nameColor := "#ffffff"; dateColor := "#f0f0f0" |};
     displayPreferences := {| showMaidenName := true; showDateOfBirth := true;
                              showFatherName := true |};
     nodeStyle := "circle";
     nextId := 1;
     undoStack := [];
     redoStack := [];
     maxUndoSize := 50;
     connectionPersonA := None;
     connectionPersonB := None;
     cacheVersion := "2.6";
     localStorage := storage |}.

(** The order of [backupKeys.sort((a, b) => b.timestamp - a.timestamp)]. *)
Definition newerFirst (a b : N) : Prop := (b <= a)%N.

#[global] Instance newerFirst_dec a b : Decision (newerFirst a b).
Proof. unfold newerFirst. apply _. Defined.

Section Persistence.

(** [new Blob([text]).size]: the number of bytes of a stored text. *)
Variable blobSize : Stored -> N.

(** *** [localStorage] *)

Definition getItem (key : StorageKey) (s : LocalStorage) : option Stored :=
  snd <$> List.find (fun item => bool_decide (item.1 = key)) (items s).

Fixpoint putItem (key : StorageKey) (text : Stored)
    (l : list (StorageKey * Stored)) : list (StorageKey * Stored) :=
  match l with
  | [] => [(key, text)]
  | item :: rest =>
      if bool_decide (item.1 = key) then (key, text) :: rest
      else item :: putItem key text rest
  end.

Definition usedBytes (l : list (StorageKey * Stored)) : N :=
  foldr (fun item acc => (blobSize item.2 + acc)%N) 0%N l.

(** [localStorage.setItem(key, text)]; [None] is the exception the
    browser throws when the write would take the stored text over the
    quota. *)
Definition setItem (key : StorageKey) (text : Stored) (s : LocalStorage)
  : option LocalStorage :=
  let items' := putItem key text (items s) in
  match quota s with
  | Some q =>
      if (q <? usedBytes items')%N then None
      else Some {| items := items'; quota := quota s |}
  | None => Some {| items := items'; quota := quota s |}
  end.

Definition removeItem (key : StorageKey) (s : LocalStorage) : LocalStorage :=
  {| items := List.filter (fun item => negb (bool_decide (item.1 = key))) (items s);
     quota := quota s |}.

(** [cleanOldBackups()]: the backups sorted by descending timestamp,
    all but the first three removed. *)
Definition cleanOldBackups (s : LocalStorage) : LocalStorage :=
  let backupKeys :=
    omap (fun item : StorageKey * Stored =>
            match item.1 with
            | BackupKey timestamp => Some timestamp
            | _ => None
            end) (items s) in
  let sorted := merge_sort newerFirst backupKeys in
  fold_left (fun s timestamp => removeItem (BackupKey timestamp) s)
    (drop 3 sorted) s.

(** [clearCache()]: the primary entry and every backup are removed. *)
Definition clearCache (s : LocalStorage) : LocalStorage :=
  {| items :=
       List.filter
         (fun item : StorageKey * Stored =>
            match item.1 with
            | CacheKey => false
            | BackupKey _ => false
            | OtherKey _ => true
            end) (items s);
     quota := quota s |}.

(** [confirmClearAll()]. *)
Definition confirmClearAll (t : TreeCore) : TreeCore :=
  let r := with_needsRedraw true (clearConnections (with_nodes [] (renderer t))) in
  let t := with_renderer r t in
  let t := with_personData [] t in
  let t := with_suppression [] [] t in
  let t := with_nextId 1 t in
  let t := with_history [] [] t in
  let t := with_localStorage (clearCache (localStorage t)) t in
  pushUndoState t.

(** [saveToCache()]: the value returned and the storage left.  [now]
    stands for the calls of [Date.now()] of one save. *)
Definition saveToCache_storage (now : N) (t : TreeCore) : bool * LocalStorage :=
  let state := getCurrentState now t in
  let stateString := EnhancedJSON state in
  let currentSize := blobSize stateString in
  let primary :=
    if (5 * 1024 * 1024 <? currentSize)%N
    then CompressedJSON (getCompressedState now t)
    else stateString in
  match setItem CacheKey primary (localStorage t) with
  | None => (false, localStorage t)
  | Some s1 =>
      match setItem (BackupKey now) stateString s1 with
      | None => (false, s1)
      | Some s2 => (true, cleanOldBackups s2)
      end
  end.

Definition saveToCache (now : N) (t : TreeCore) : bool * TreeCore :=
  ((saveToCache_storage now t).1,
   with_localStorage (saveToCache_storage now t).2 t).

(** *** Loading *)

(** The settings part of [processLoadedData].  [updateRendererSettings]
    (attached by [ui-settings.js]) mirrors the controller's style fields
    into the renderer and asks for a redraw. *)
Definition restoreSettings (s : LoadedSettings) (t : TreeCore) : TreeCore :=
  let c := core t in
  let c' :=
    {| nodeRadius := JS.or_num (ls_nodeRadius s) (nodeRadius c);
       defaultColor := JS.or_str (ls_defaultColor s) (defaultColor c);
       fontFamily := JS.or_str (ls_fontFamily s) (fontFamily c);
       fontSize := JS.or_num (ls_fontSize s) (fontSize c);
       nameColor := JS.or_str (ls_nameColor s) (nameColor c);
       dateColor := JS.or_str (ls_dateColor s) (dateColor c) |} in
  let lines :=
    {| showNodeOutline := JS.nullish (ls_showNodeOutline s) true;
       outlineColor := JS.nullish (ls_outlineColor s) "#2c3e50";
       outlineThickness := JS.nullish (ls_outlineThickness s) 2%Z;
       familyLineStyle := JS.nullish (ls_familyLineStyle s) "solid";
       familyLineThickness := JS.nullish (ls_familyLineThickness s) 2%Z;
       familyLineColor := JS.nullish (ls_familyLineColor s) "#7f8c8d";
       spouseLineStyle := JS.nullish (ls_spouseLineStyle s) "dashed";
       spouseLineThickness := JS.nullish (ls_spouseLineThickness s) 2%Z;
       spouseLineColor := JS.nullish (ls_spouseLineColor s) "#e74c3c";
       lineOnlyStyle := JS.nullish (ls_lineOnlyStyle s) "dash-dot";
       lineOnlyThickness := JS.nullish (ls_lineOnlyThickness s) 2%Z;
       lineOnlyColor := JS.nullish (ls_lineOnlyColor s) "#9b59b6" |} in
  with_renderer (with_needsRedraw true (with_settings lines (renderer t)))
    (with_style c' (displayPreferences t) (nodeStyle t) t).

(** The running values of the person loop of [processLoadedData]. *)
Record LoadLoop := {
  ll_state : TreeCore;
  ll_maxId : Z;
  ll_relationshipsFound : nat
}.

(** One turn of [for (const person of persons)]. *)
Definition loadPerson (acc : LoadLoop) (person : LoadedPerson) : LoadLoop :=
  let t := ll_state acc in
  let nodeData :=
    {| node_x := JS.or_num (JS.orZ (lp_x person) (lp_cx person)) 0;
       node_y := JS.or_num (JS.orZ (lp_y person) (lp_cy person)) 0;
       node_name := JS.or_str (lp_name person) "";
       node_fatherName :=
         JS.or_str (JS.or (lp_fatherName person) (lp_father_name person)) "";
       node_surname := JS.or_str (lp_surname person) "";
       node_maidenName :=
         JS.or_str (JS.or (JS.or (lp_maidenName person) (lp_birthName person))
                      (lp_birth_name person)) "";
       node_dob := JS.or_str (lp_dob person) "";
       node_gender := JS.or_str (lp_gender person) "";
       node_color :=
         JS.or_str (JS.or (JS.or (lp_color person) (lp_nodeColor person))
                      (lp_fill person)) (defaultColor (core t));
       node_radius :=
         JS.or_num (JS.orZ (JS.orZ (lp_radius person) (lp_nodeSize person))
                      (lp_r person)) (nodeRadius (core t)) |} in
  let t := with_renderer (setNode (lp_id person) nodeData (renderer t)) t in
  let relationshipData :=
    {| pd_id := None;
       pd_name := Some (JS.or_str (lp_name person) "");
       pd_fatherName :=
         Some (JS.or_str (JS.or (lp_fatherName person) (lp_father_name person)) "");
       pd_surname := Some (JS.or_str (lp_surname person) "");
       pd_maidenName :=
         Some (JS.or_str (JS.or (JS.or (lp_maidenName person) (lp_birthName person))
                            (lp_birth_name person)) "");
       pd_dob := Some (JS.or_str (lp_dob person) "");
       pd_gender := Some (JS.or_str (lp_gender person) "");
       motherId :=
         Some (JS.or_str (JS.or (lp_motherId person) (lp_mother_id person)) "");
       fatherId :=
         Some (JS.or_str (JS.or (lp_fatherId person) (lp_father_id person)) "");
       spouseId :=
         Some (JS.or_str (JS.or (lp_spouseId person) (lp_spouse_id person)) "") |} in
  let found :=
    (ll_relationshipsFound acc
     + Nat.b2n (JS.truthy (motherId relationshipData))
     + Nat.b2n (JS.truthy (fatherId relationshipData))
     + Nat.b2n (JS.truthy (spouseId relationshipData)))%nat in
  let l := fresh (dom (heap t)) in
  let t := with_heap (<[l := relationshipData]> (heap t)) t in
  let t := with_personData (JS.Map_set (personData t) (lp_id person) l) t in
  let maxId :=
    match parseInt (JS.remove_first "p" (lp_id person)) with
    | Some numId => if (ll_maxId acc <? numId)%Z then numId else ll_maxId acc
    | None => ll_maxId acc
    end in
  {| ll_state := t; ll_maxId := maxId; ll_relationshipsFound := found |}.

(** [new Map(data.personDataBackup)] over newly parsed records. *)
Definition restoreBackup (backup : list (string * PersonRecord)) (t : TreeCore)
  : TreeCore :=
  fold_left
    (fun t (entry : string * PersonRecord) =>
       let l := fresh (dom (heap t)) in
       with_personData (JS.Map_set (personData t) entry.1 l)
         (with_heap (<[l := entry.2]> (heap t)) t))
    backup (with_personData [] t).

(** [processLoadedData(data)]: [false] when the data is turned down
    (the method returns [false]), [true] when it ran to its end.  The
    camera branch for data without a camera needs nodes, and the
    nodes have just been cleared. *)
Definition processLoadedData (now : N) (data : LoadedData) (t : TreeCore)
  : bool * TreeCore :=
  if bool_decide (is_Some (ld_people data))
     && negb (bool_decide (is_Some (ld_persons data)))
  then (false, t)
  else
    let t := with_renderer (clearConnections (with_nodes [] (renderer t))) t in
    let t := with_personData [] t in
    let t := with_suppression [] [] t in
    let t := match ld_settings data with
             | Some s => restoreSettings s t
             | None => t
             end in
    let t := match ld_displayPreferences data with
             | Some d => with_style (core t) d (nodeStyle t) t
             | None => t
             end in
    let t := JS.if_truthy (ld_nodeStyle data)
               (fun n => with_style (core t) (displayPreferences t) n t) t in
    let t := match ld_camera data with
             | Some c =>
                 with_renderer
                   (setCamera (cam_x c) (cam_y c) (cam_scale c) (renderer t)) t
             | None => t
             end in
    let t := match ld_hiddenConnections data with
             | Some l => with_suppression (JS.Set_from l) (lineOnlyConnections t) t
             | None => t
             end in
    let t := match ld_lineOnlyConnections data with
             | Some l => with_suppression (hiddenConnections t) (JS.Set_from l) t
             | None => t
             end in
    let t := if JS.truthyZ (ld_nextId data)
             then with_nextId (default 0%Z (ld_nextId data)) t else t in
    let persons := default [] (ld_persons data) in
    let loop :=
      fold_left loadPerson persons
        {| ll_state := t; ll_maxId := 0; ll_relationshipsFound := 0 |} in
    let t := ll_state loop in
    let t := if (nextId t <=? ll_maxId loop)%Z
             then with_nextId (ll_maxId loop + 1)%Z t else t in
    let t := (cleanupInvalidRelationships t).2 in
    let t := regenerateConnections t in
    let t :=
      if bool_decide (length (connections (renderer t)) = 0%nat)
         && bool_decide (0 < ll_relationshipsFound loop)%nat
      then match ld_personDataBackup data with
           | Some backup => regenerateConnections (restoreBackup backup t)
           | None => t
           end
      else t in
    let t := with_history [] [] t in
    let t := pushUndoState t in
    (true, (saveToCache now t).2).

(** [loadCachedState()]. *)
Definition loadCachedState (now : N) (t : TreeCore) : LoadOutcome :=
  let failed :=
    {| returned := false;
       notified := [error "Restore Failed" "Could not restore previous progress"];
       after := t |} in
  let restored t' :=
    {| returned := true;
       notified :=
         [success "Progress Restored" "Your previous work has been restored"];
       after := t' |} in
  match getItem CacheKey (localStorage t) with
  | None | Some EmptyText => {| returned := false; notified := []; after := t |}
  | Some cachedState =>
      match JSON_parse cachedState with
      | ParseError => failed
      | ParsedNull => failed
      | ParsedObject state =>
          if JS.truthy (ld_version state)
             || bool_decide (is_Some (ld_persons state))
          then restored (processLoadedData now state t).2
          else if bool_decide (is_Some (ld_people state))
          then restored t
          else {| returned := false; notified := []; after := t |}
      end
  end.

End Persistence.

(** ** Runs of committed mutations *)

(** A committed mutation: an edit of the live state, then
    [pushUndoState]. *)
Definition commit (t : TreeCore) (edit : TreeCore -> TreeCore) : TreeCore :=
  pushUndoState (edit t).

Definition commitAll (edits : list (TreeCore -> TreeCore)) (t : TreeCore)
  : TreeCore :=
  fold_left commit edits t.

(** The snapshots a run of committed mutations pushes, oldest first. *)
Fixpoint snapshotsOf (edits : list (TreeCore -> TreeCore)) (t : TreeCore)
  : list Snapshot :=
  match edits with
  | [] => []
  | edit :: rest => snapshotOf (edit t) :: snapshotsOf rest (commit t edit)
  end.

(** The last [n] elements of a list. *)
Definition mostRecent {A} (n : nat) (l : list A) : list A :=
  drop (length l - n) l.

(** An edit of the live state: it leaves the history to [pushUndoState]. *)
Definition liveEdit (edit : TreeCore -> TreeCore) : Prop :=
  forall t, undoStack (edit t) = undoStack t
            /\ maxUndoSize (edit t) = maxUndoSize t.

(** ** Views of a state *)

(** The relational ids of a store, per id, and the positions of the
    nodes, per id. *)
Definition relations (t : TreeCore)
  : list (string * (option string * option string * option string)) :=
  map (fun entry : string * PersonRecord =>
         (entry.1, (motherId entry.2, fatherId entry.2, spouseId entry.2)))
      (personDataEntries t).

Definition positions (t : TreeCore) : list (string * (Z * Z)) :=
  map (fun entry : string * Node => (entry.1, (node_x entry.2, node_y entry.2)))
      (nodes (renderer t)).

(** What a snapshot holds of the store when it is read back: its map of
    ids, each with the record its location holds at that moment. *)
Definition snapshotRecords (h : gmap loc PersonRecord) (s : Snapshot)
  : list (string * PersonRecord) :=
  map (fun entry : string * loc => (entry.1, deref h entry.2)) (snap_personData s).

(** The limit [saveToCache] checks against. *)
Definition fiveMegabytes : N := (5 * 1024 * 1024)%N.

(** ** Notions the properties are stated with *)

(** *** The derivation as lists of edges

    The loops of [regenerateConnections] call [addConnection] one edge
    at a time.  The edges one turn adds depend on the suppression set,
    the nodes and the record visited only, so a run is described by the
    list it appends. *)

Section Edges.
Variable hidden : list string.
Variable nds : list (string * Node).

Definition edgeUnlessHidden (a b : string) (type : ConnectionType)
  : list Connection :=
  if JS.Set_has hidden (getConnectionKey a b) then []
  else if JS.Map_has nds a && JS.Map_has nds b
       then [{| conn_from := a; conn_to := b; conn_type := type |}]
       else [].

Definition spouseEdge (childId s : string) : list Connection :=
  if negb (bool_decide (s = childId)) && JS.lt childId s
  then edgeUnlessHidden childId s spouse else [].

Definition personEdges (childId : string) (childData : PersonRecord)
  : list Connection :=
  JS.if_truthy (motherId childData)
    (fun m => edgeUnlessHidden childId m parent) []
  ++ JS.if_truthy (fatherId childData)
       (fun f => edgeUnlessHidden childId f parent) []
  ++ JS.if_truthy (spouseId childData) (spouseEdge childId) [].

Definition selfSpouseFix (h : gmap loc PersonRecord) (entry : string * loc)
  : gmap loc PersonRecord :=
  if bool_decide (spouseId (deref h entry.2) = Some entry.1)
  then <[entry.2 := set_spouseId "" (deref h entry.2)]> h
  else h.

Fixpoint relationEdges (entries : list (string * loc))
    (h : gmap loc PersonRecord) : list Connection :=
  match entries with
  | [] => []
  | entry :: rest =>
      personEdges entry.1 (deref h entry.2)
      ++ relationEdges rest (selfSpouseFix h entry)
  end.

Definition lineOnlyEdge (connectionKey : string) : list Connection :=
  if JS.Set_has hidden connectionKey then []
  else match JS.split "-" connectionKey with
       | id1 :: id2 :: _ =>
           if JS.Map_has nds id1 && JS.Map_has nds id2
           then [{| conn_from := id1; conn_to := id2; conn_type := line_only |}]
           else []
       | _ => []
       end.
End Edges.

(** [addEdges es t]: [t] after the calls of [addConnection] for [es]. *)
Definition addEdges (es : list Connection) (t : TreeCore) : TreeCore :=
  with_renderer (with_connections (connections (renderer t) ++ es) (renderer t)) t.

(** [e] is a spouse edge between [A] and [B], in either direction. *)
Definition spouseBetween (A B : string) (e : Connection) : Prop :=
  conn_type e = spouse
  /\ ((conn_from e = A /\ conn_to e = B) \/ (conn_from e = B /\ conn_to e = A)).

#[global] Instance spouseBetween_dec A B e : Decision (spouseBetween A B e).
Proof. unfold spouseBetween. apply _. Defined.

(** The two records name each other. *)
Definition mutual (A B : string) (lA lB : loc) (h : gmap loc PersonRecord)
  : Prop :=
  spouseId (deref h lA) = Some B /\ spouseId (deref h lB) = Some A.

(** [e] joins [A] and [B], in either direction. *)
Definition between (A B : string) (e : Connection) : Prop :=
  (conn_from e = A /\ conn_to e = B) \/ (conn_from e = B /\ conn_to e = A).


(** The two ids of a key: the first two pieces between [-]. *)
Definition keyIds (connectionKey : string) : option (string * string) :=
  match JS.split "-" connectionKey with
  | id1 :: id2 :: _ => Some (id1, id2)
  | _ => None
  end.

(** The specification's words: a key of [lineOnlyConnections] that is
    not in [hiddenConnections] and whose two ids both exist as nodes. *)
Definition drawableKey (hidden : list string) (nds : list (string * Node))
    (connectionKey : string) : Prop :=
  (connectionKey ∉ hidden)
  /\ exists id1 id2, keyIds connectionKey = Some (id1, id2)
       /\ is_Some (JS.Map_get nds id1) /\ is_Some (JS.Map_get nds id2).

#[global] Instance drawableKey_dec hidden nds key :
  Decision (drawableKey hidden nds key).
Proof.
  unfold drawableKey. destruct (keyIds key) as [[id1 id2]|].
  - destruct (decide ((key ∉ hidden)
                      /\ is_Some (JS.Map_get nds id1)
                      /\ is_Some (JS.Map_get nds id2))) as [H|H].
    + left. destruct H as (? & ? & ?). eauto 10.
    + right. intros (? & a & b & [= <- <-] & ? & ?). tauto.
  - right. by intros (_ & a & b & ? & _).
Defined.

(** The line-only edge of a key. *)
Definition keyEdge (connectionKey : string) : option Connection :=
  (fun ids : string * string =>
     {| conn_from := ids.1; conn_to := ids.2; conn_type := line_only |})
  <$> keyIds connectionKey.

(** One line-only edge for each drawable key, in the order of the set. *)
Definition lineOnlySpec (hidden : list string) (nds : list (string * Node))
    (keys : list string) : list Connection :=
  omap keyEdge (filter (drawableKey hidden nds) keys).

(** The record one turn of the clean-up loop leaves at the location it
    visits. *)
Definition cleanedRecord (personId : string) (p : PersonRecord) : PersonRecord :=
  let p1 := if bool_decide (spouseId p = Some personId)
            then set_spouseId "" p else p in
  let p2 := if bool_decide (motherId p1 = Some personId)
            then set_motherId "" p1 else p1 in
  if bool_decide (fatherId p2 = Some personId) then set_fatherId "" p2 else p2.

(** No relational id of the record of [entry] is the id of [entry]. *)
Definition selfFree (h : gmap loc PersonRecord) (entry : string * loc) : Prop :=
  spouseId (deref h entry.2) <> Some entry.1
  /\ motherId (deref h entry.2) <> Some entry.1
  /\ fatherId (deref h entry.2) <> Some entry.1.

(** [h'] is [h] with some relational ids reset to ['']. *)
Definition resets (h h' : gmap loc PersonRecord) : Prop :=
  forall l,
    (spouseId (deref h' l) = spouseId (deref h l)
     \/ spouseId (deref h' l) = Some "")
    /\ (motherId (deref h' l) = motherId (deref h l)
        \/ motherId (deref h' l) = Some "")
    /\ (fatherId (deref h' l) = fatherId (deref h l)
        \/ fatherId (deref h' l) = Some "").

(** ** Example states *)

(** A node and a record as [handleSavePersonFromModal] makes them for a
    new person. *)
Definition newNode (name gender : string) (x y : Z) : Node :=
  {| node_x := x; node_y := y; node_name := name; node_fatherName := "";
     node_surname := ""; node_maidenName := ""; node_dob := "";
     node_gender := gender; node_color := "#3498db"; node_radius := 50 |}.

Definition newRecord (id name gender : string) : PersonRecord :=
  {| pd_id := Some id; pd_name := Some name; pd_fatherName := Some "";
     pd_surname := Some ""; pd_maidenName := Some ""; pd_dob := Some "";
     pd_gender := Some gender; motherId := Some ""; fatherId := Some "";
     spouseId := Some "" |}.

Definition emptyStorage : LocalStorage := {| items := []; quota := None |}.

(** Five persons without relations. *)
Definition fivePersons : TreeCore :=
  let t := initialTreeCore emptyStorage in
  with_renderer
    (with_nodes [("p1", newNode "Ann" "female" 400 300);
                 ("p2", newNode "Bob" "male" 600 300);
                 ("p3", newNode "Cid" "male" 500 500);
                 ("p4", newNode "Dee" "female" 0 0);
                 ("p5", newNode "Eve" "female" (-120) 40)] (renderer t))
    (with_personData [("p1", 1%nat); ("p2", 2%nat); ("p3", 3%nat);
                      ("p4", 4%nat); ("p5", 5%nat)]
       (with_heap (list_to_map
                     [(1%nat, newRecord "p1" "Ann" "female");
                      (2%nat, newRecord "p2" "Bob" "male");
                      (3%nat, newRecord "p3" "Cid" "male");
                      (4%nat, newRecord "p4" "Dee" "female");
                      (5%nat, newRecord "p5" "Eve" "female")]) t)).

(** The five persons with one spouse pair ([p1], [p2]) and one
    parent-child edge ([p1] mother of [p3]), made with the modal. *)
Definition familyOfFive : TreeCore :=
  createConnection "mother"
    (handleConnectSelected ["p1"; "p3"]
       (createConnection "spouse"
          (handleConnectSelected ["p1"; "p2"] fivePersons))).

(** [p2] and [p1] joined by a line-only connection, in that order of
    selection, and the pair then hidden. *)
Definition hiddenLineOnly : TreeCore :=
  let t :=
    createConnection "line-only"
      (handleConnectSelected ["p2"; "p1"] fivePersons) in
  with_suppression [getConnectionKey "p1" "p2"] (lineOnlyConnections t) t.

(** A record that names itself as spouse. *)
Definition selfSpouse : TreeCore :=
  assign 1%nat (set_spouseId "p1") fivePersons.

(** Two nodes and a line-only connection between them, with a store
    that holds no record. *)
Definition lineOnlyWithoutStore : TreeCore :=
  with_suppression [] ["p1-p2"] (with_personData [] fivePersons).

(** An edit used in examples: a new id is handed out. *)
Definition takeId (t : TreeCore) : TreeCore := with_nextId (nextId t + 1) t.

(** The state at the push, and the state after the spouse connection
    made next. *)
Definition atPush : TreeCore :=
  pushUndoState (handleConnectSelected ["p1"; "p2"] fivePersons).
Definition afterConnect : TreeCore := createConnection "spouse" atPush.

(** A parsed object without any of the properties the loader reads. *)
Definition emptyData : LoadedData :=
  {| ld_version := None; ld_cacheFormat := None; ld_settings := None;
     ld_displayPreferences := None; ld_nodeStyle := None; ld_camera := None;
     ld_hiddenConnections := None; ld_lineOnlyConnections := None;
     ld_nextId := None; ld_persons := None; ld_personDataBackup := None;
     ld_people := None |}.

(** A snapshot of another format: a [people] array, no [version], no
    [persons]. *)
Definition peopleOnly : LoadedData :=
  {| ld_version := None; ld_cacheFormat := None; ld_settings := None;
     ld_displayPreferences := None; ld_nodeStyle := None; ld_camera := None;
     ld_hiddenConnections := None; ld_lineOnlyConnections := None;
     ld_nextId := None; ld_persons := None; ld_personDataBackup := None;
     ld_people := Some ["Ann"; "Bob"] |}.

(** The tree of five with that snapshot in the cache. *)
Definition withForeignCache : TreeCore :=
  with_localStorage
    {| items := [(CacheKey, ForeignJSON peopleOnly)]; quota := None |}
    familyOfFive.

(** A size model for examples: a full state of six million bytes, whose
    compressed form takes a thousand. *)
Definition sizeModel (text : Stored) : N :=
  match text with
  | EnhancedJSON _ => 6000000%N
  | CompressedJSON _ => 1000%N
  | _ => 0%N
  end.

(** A person of a snapshot with nothing but an id. *)
Definition barePerson (id : string) : LoadedPerson :=
  {| lp_id := id;
     lp_x := None; lp_cx := None; lp_y := None; lp_cy := None;
     lp_name := None; lp_fatherName := None; lp_father_name := None;
     lp_surname := None; lp_maidenName := None; lp_birthName := None;
     lp_birth_name := None; lp_dob := None; lp_gender := None;
     lp_color := None; lp_nodeColor := None; lp_fill := None;
     lp_radius := None; lp_nodeSize := None; lp_r := None;
     lp_motherId := None; lp_mother_id := None;
     lp_fatherId := None; lp_father_id := None;
     lp_spouseId := None; lp_spouse_id := None |}.

(** A snapshot of version 2.6 with one person, whose id is the empty
    string. *)
Definition emptyIdSnapshot : LoadedData :=
  {| ld_version := Some "2.6"; ld_cacheFormat := None; ld_settings := None;
     ld_displayPreferences := None; ld_nodeStyle := None; ld_camera := None;
     ld_hiddenConnections := None; ld_lineOnlyConnections := None;
     ld_nextId := None; ld_persons := Some [barePerson ""];
     ld_personDataBackup := None; ld_people := None |}.

(** The store loading that snapshot leaves: one record, whose id is the
    empty string. *)
Definition emptyIdStore : TreeCore :=
  (processLoadedData sizeModel 1720000000000 emptyIdSnapshot
     (initialTreeCore emptyStorage)).2.

(** The tree of five over a storage with a quota of five megabytes. *)
Definition withQuota : TreeCore :=
  with_localStorage {| items := []; quota := Some fiveMegabytes |} familyOfFive.

(** ** Further notions: what one record contributes *)

(** An edge [{from, to, type}]. *)
Definition edge (from to : string) (type : ConnectionType) : Connection :=
  {| conn_from := from; conn_to := to; conn_type := type |}.

(** The edges of the records, each read in the heap as it is before the
    derivation. *)
Definition recordEdges (hidden : list string) (nds : list (string * Node))
    (entries : list (string * loc)) (h : gmap loc PersonRecord)
  : list Connection :=
  flat_map (fun entry : string * loc =>
              personEdges hidden nds entry.1 (deref h entry.2)) entries.

(** [s.includes(c)] for a character. *)
Fixpoint includes (c : ascii) (s : string) : bool :=
  match s with
  | EmptyString => false
  | String d rest => Ascii.eqb c d || includes c rest
  end.

(** An id without the separator of the pair keys.  The ids
    [generateId] makes are digits and lower-case letters. *)
Definition dashFree (id : string) : Prop := includes "-" id = false.

(** The pair in the order of the pair key. *)
Definition ordered (a b : string) : string * string :=
  if JS.lt a b then (a, b) else (b, a).

(** ** Further notions: the backups of a storage *)

Definition backupTimestamp (item : StorageKey * Stored) : option N :=
  match item.1 with
  | BackupKey timestamp => Some timestamp
  | _ => None
  end.

(** The timestamps of the backups a storage holds, in key order. *)
Definition backupTimestamps (s : LocalStorage) : list N :=
  omap backupTimestamp (items s).



(** A storage with the primary entry, an entry of another application
    and five backups. *)
Definition fiveBackups : LocalStorage :=
  {| items := [(BackupKey 30, CorruptText); (CacheKey, NullJSON);
               (BackupKey 10, CorruptText); (BackupKey 50, CorruptText);
               (OtherKey "theme", CorruptText); (BackupKey 20, CorruptText);
               (BackupKey 40, CorruptText)];
     quota := None |}.

(** The tree of five over that storage. *)
Definition withBackups : TreeCore := with_localStorage fiveBackups familyOfFive.

(** ** Further notions: the two halves of a load *)

(** The state [processLoadedData] has when it enters the loop over the
    persons. *)
Definition beforePersons (data : LoadedData) (t : TreeCore) : TreeCore :=
  let t := with_renderer (clearConnections (with_nodes [] (renderer t))) t in
  let t := with_personData [] t in
  let t := with_suppression [] [] t in
  let t := match ld_settings data with
           | Some s => restoreSettings s t
           | None => t
           end in
  let t := match ld_displayPreferences data with
           | Some d => with_style (core t) d (nodeStyle t) t
           | None => t
           end in
  let t := JS.if_truthy (ld_nodeStyle data)
             (fun n => with_style (core t) (displayPreferences t) n t) t in
  let t := match ld_camera data with
           | Some c =>
               with_renderer
                 (setCamera (cam_x c) (cam_y c) (cam_scale c) (renderer t)) t
           | None => t
           end in
  let t := match ld_hiddenConnections data with
           | Some l => with_suppression (JS.Set_from l) (lineOnlyConnections t) t
           | None => t
           end in
  let t := match ld_lineOnlyConnections data with
           | Some l => with_suppression (hiddenConnections t) (JS.Set_from l) t
           | None => t
           end in
  if JS.truthyZ (ld_nextId data)
  then with_nextId (default 0%Z (ld_nextId data)) t else t.

(** The loop over the persons. *)
Definition loadPersons (data : LoadedData) (t : TreeCore) : LoadLoop :=
  fold_left loadPerson (default [] (ld_persons data))
    {| ll_state := beforePersons data t; ll_maxId := 0;
       ll_relationshipsFound := 0 |}.

(** What [processLoadedData] does after the loop. *)
Definition afterPersons (blobSize : Stored -> N) (now : N) (data : LoadedData)
    (loop : LoadLoop) : TreeCore :=
  let t := ll_state loop in
  let t := if (nextId t <=? ll_maxId loop)%Z
           then with_nextId (ll_maxId loop + 1)%Z t else t in
  let t := (cleanupInvalidRelationships t).2 in
  let t := regenerateConnections t in
  let t :=
    if bool_decide (length (connections (renderer t)) = 0%nat)
       && bool_decide (0 < ll_relationshipsFound loop)%nat
    then match ld_personDataBackup data with
         | Some backup => regenerateConnections (restoreBackup backup t)
         | None => t
         end
    else t in
  let t := with_history [] [] t in
  let t := pushUndoState t in
  (saveToCache blobSize now t).2.

(** The state is the same but for the store, the edges, the redraw
    flag, the history and the storage. *)
Definition sameSurface (t t' : TreeCore) : Prop :=
  nodes (renderer t') = nodes (renderer t)
  /\ camera (renderer t') = camera (renderer t)
  /\ settings (renderer t') = settings (renderer t)
  /\ hiddenConnections t' = hiddenConnections t
  /\ lineOnlyConnections t' = lineOnlyConnections t
  /\ core t' = core t
  /\ displayPreferences t' = displayPreferences t
  /\ nodeStyle t' = nodeStyle t
  /\ nextId t' = nextId t.

(** The node one turn of the loop sets for [person]. *)
Definition loadedNode (c : CoreSettings) (person : LoadedPerson) : Node :=
  {| node_x := JS.or_num (JS.orZ (lp_x person) (lp_cx person)) 0;
     node_y := JS.or_num (JS.orZ (lp_y person) (lp_cy person)) 0;
     node_name := JS.or_str (lp_name person) "";
     node_fatherName :=
       JS.or_str (JS.or (lp_fatherName person) (lp_father_name person)) "";
     node_surname := JS.or_str (lp_surname person) "";
     node_maidenName :=
       JS.or_str (JS.or (JS.or (lp_maidenName person) (lp_birthName person))
                    (lp_birth_name person)) "";
     node_dob := JS.or_str (lp_dob person) "";
     node_gender := JS.or_str (lp_gender person) "";
     node_color :=
       JS.or_str (JS.or (JS.or (lp_color person) (lp_nodeColor person))
                    (lp_fill person)) (defaultColor c);
     node_radius :=
       JS.or_num (JS.orZ (JS.orZ (lp_radius person) (lp_nodeSize person))
                    (lp_r person)) (nodeRadius c) |}.


(** ** Repairing the connections *)

Section Repair.
Variable blobSize : Stored -> N.

(** [autoSave()]: [saveToCache] catches its own failures, so the
    [catch] of [autoSave] is never entered; the time stamp shown in the
    save indicator is left out. *)
Definition autoSave (now : N) (t : TreeCore) : TreeCore :=
  (saveToCache blobSize now t).2.

(** [forceRegenerateConnections()].  [debugCacheState] only logs.  A
    cache entry that does not parse, or parses to [null], ends in the
    [catch] that logs the error. *)
Definition forceRegenerateConnections (now : N) (t : TreeCore) : TreeCore :=
  let t := regenerateConnections t in
  let t :=
    if bool_decide (length (connections (renderer t)) = 0%nat)
    then
      match getItem CacheKey (localStorage t) with
      | None | Some EmptyText => t
      | Some cachedState =>
          match JSON_parse cachedState with
          | ParsedObject parsed =>
              match ld_personDataBackup parsed with
              | Some backup => regenerateConnections (restoreBackup backup t)
              | None => t
              end
          | ParsedNull => t
          | ParseError => t
          end
      end
    else t in
  (saveToCache blobSize now t).2.

End Repair.

(** ** Saving a person from the modal *)

(** [s.trim()], on code units below 256: the white space and line
    terminators among them are 9 to 13, 32 and 160. *)
Definition isWhiteSpace (c : ascii) : bool :=
  let n := N_of_ascii c in
  (N.eqb n 32 || ((9 <=? n) && (n <=? 13)) || N.eqb n 160)%N.

Fixpoint trimStart (s : string) : string :=
  match s with
  | String c rest => if isWhiteSpace c then trimStart rest else s
  | EmptyString => s
  end.

Fixpoint trimEnd (s : string) : string :=
  match s with
  | EmptyString => EmptyString
  | String c rest =>
      match trimEnd rest with
      | EmptyString => if isWhiteSpace c then EmptyString else String c EmptyString
      | kept => String c kept
      end
  end.

Definition trim (s : string) : string := trimEnd (trimStart s).

(** [Math.min(m, x)] and [Math.max(m, x)] for a running bound [m] that
    starts at [Infinity] or [-Infinity] ([None]). *)
Definition Math_min (m : option Z) (x : Z) : option Z :=
  Some (match m with Some m => Z.min m x | None => x end).

Definition Math_max (m : option Z) (x : Z) : option Z :=
  Some (match m with Some m => Z.max m x | None => x end).

(** The bounds [calculateNewNodePosition] keeps: [minX], [maxX], [maxY]. *)
Record Bounds := { minX : option Z; maxX : option Z; maxY : option Z }.

(** One turn of [existingNodes.forEach]. *)
Definition widen (b : Bounds) (node : Node) : Bounds :=
  let nodeX := JS.or_num (Some (node_x node)) 0 in
  let nodeY := JS.or_num (Some (node_y node)) 0 in
  {| minX := Math_min (minX b) nodeX;
     maxX := Math_max (maxX b) nodeX;
     maxY := Math_max (maxY b) nodeY |}.

(** [calculateNewNodePosition(existingNodes)]: the horizontal centre is
    a rational, half of an integer.  After one turn of the loop the
    three bounds are finite. *)
Definition calculateNewNodePosition (existingNodes : list Node)
  : QArith_base.Q * Z :=
  match existingNodes with
  | [] => (QArith_base.inject_Z 400, 300%Z)
  | _ :: _ =>
      let b := fold_left widen existingNodes
                 {| minX := None; maxX := None; maxY := None |} in
      let centerX :=
        QArith_base.Qmake (default 0%Z (minX b) + default 0%Z (maxX b)) 2 in
      let verticalSpacing := 150%Z in
      let newY := (default 0%Z (maxY b) + verticalSpacing)%Z in
      (centerX, newY)
  end.

(** The integer a rational is, if it is one. *)
Definition integral (q : QArith_base.Q) : option Z :=
  let n := QArith_base.Qnum q in
  let d := Z.pos (QArith_base.Qden q) in
  if (Z.rem n d =? 0)%Z then Some (Z.quot n d) else None.

(** The fields of the person form. *)
Record FormData := {
  fd_name : option string;
  fd_fatherName : option string;
  fd_surname : option string;
  fd_maidenName : option string;
  fd_dob : option string;
  fd_gender : option string;
  fd_motherId : option string;
  fd_fatherId : option string;
  fd_spouseId : option string;
  fd_editingId : option string
}.

(** [x && x.trim()], as a condition. *)
Definition filled (o : option string) : bool :=
  JS.if_truthy o (fun s => negb (String.eqb (trim s) "")) false.

(** [x ? x.trim() : '']. *)
Definition trimmed (o : option string) : string :=
  JS.if_truthy o trim "".

(** The block [const personData = {...}] of [handleSavePersonFromModal]:
    the record object made from the form. *)
Definition formRecord (personId : string) (formData : FormData) : PersonRecord :=
  {| pd_id := Some personId;
     pd_name := Some (trim (default "" (fd_name formData)));
     pd_fatherName := Some (trimmed (fd_fatherName formData));
     pd_surname := Some (trimmed (fd_surname formData));
     pd_maidenName := Some (trimmed (fd_maidenName formData));
     pd_dob := Some (trimmed (fd_dob formData));
     pd_gender := fd_gender formData;
     motherId := Some (JS.or_str (fd_motherId formData) "");
     fatherId := Some (JS.or_str (fd_fatherId formData) "");
     spouseId := Some (JS.or_str (fd_spouseId formData) "") |}.

(** The name fields of a node, taken from that record, at a position
    and with a colour and a radius. *)
Definition formNode (formData : FormData) (x y : Z) (color : string)
    (radius : Z) : Node :=
  {| node_x := x; node_y := y;
     node_name := trim (default "" (fd_name formData));
     node_fatherName := trimmed (fd_fatherName formData);
     node_surname := trimmed (fd_surname formData);
     node_maidenName := trimmed (fd_maidenName formData);
     node_dob := trimmed (fd_dob formData);
     node_gender := default "" (fd_gender formData);
     node_color := color; node_radius := radius |}.

(** [this.personData.set(personId, personData)], with the new record
    object. *)
Definition storeRecord (personId : string) (record : PersonRecord) (t : TreeCore)
  : TreeCore :=
  let l := fresh (dom (heap t)) in
  let t := with_heap (<[l := record]> (heap t)) t in
  with_personData (JS.Map_set (personData t) personId l) t.

(** The position of a new node.  [None]: the centre
    [calculateNewNodePosition] returns is a half-integer, a position the
    integer coordinates of [Node] do not hold. *)
Definition newNodePosition (existingNodes : list Node) : option (Z * Z) :=
  match existingNodes with
  | _ :: _ =>
      let position := calculateNewNodePosition existingNodes in
      (fun x => (x, position.2)) <$> integral position.1
  | [] => Some (400%Z, 300%Z)
  end.

(** The block [if (this.renderer) {...}]: an edit of a person with a
    node updates the name fields of the node in place; otherwise a node
    is made. *)
Definition updateOrCreateNode (isEdit : bool) (personId : string)
    (formData : FormData) (t : TreeCore) : option TreeCore :=
  match (if isEdit then JS.Map_get (nodes (renderer t)) personId else None) with
  | Some nodeData =>
      Some (with_renderer
              (with_nodes
                 (JS.Map_set (nodes (renderer t)) personId
                    (formNode formData (node_x nodeData) (node_y nodeData)
                       (node_color nodeData) (node_radius nodeData)))
                 (renderer t)) t)
  | None =>
      let existingNodes := (nodes (renderer t)).*2 in
      (fun position : Z * Z =>
         with_renderer
           (setNode personId
              (formNode formData position.1 position.2
                 (JS.or_str (Some (defaultColor (core t))) "#3498db")
                 (JS.or_num (Some (nodeRadius (core t))) 50))
              (renderer t)) t) <$> newNodePosition existingNodes
  end.

(** What [handleSavePersonFromModal] leaves: the notification it shows
    and the state. *)
Record SaveOutcome := {
  so_notified : Notification;
  so_after : TreeCore
}.

Section Modal.
Variable blobSize : Stored -> N.

(** The end of [handleSavePersonFromModal]: the derivation, the undo
    snapshot, the save and the redraw. *)
Definition commitSave (now : N) (t : TreeCore) : TreeCore :=
  let t := regenerateConnections t in
  let t := undoRedoManager_pushUndoState t in
  let t := autoSave blobSize now t in
  with_renderer (with_needsRedraw true (renderer t)) t.

(** [handleSavePersonFromModal(formData)], with the renderer and the
    undo manager in place.  [generated] is the id [generateId()] returns
    on this call and [now] the clock of the save.  The two errors thrown
    by the validation end in the [catch].  The delayed centring of the
    camera and the closing of the modal are left out.  [None]: see
    [newNodePosition]. *)
Definition handleSavePersonFromModal (generated : string) (now : N)
    (formData : FormData) (t : TreeCore) : option SaveOutcome :=
  if negb (filled (fd_name formData)) then
    Some {| so_notified := error "Save Failed" "Name is required"; so_after := t |}
  else if negb (JS.truthy (fd_gender formData)) then
    Some {| so_notified := error "Save Failed" "Gender is required"; so_after := t |}
  else
    let isEdit := filled (fd_editingId formData) in
    let personId :=
      if isEdit then default "" (fd_editingId formData) else generated in
    let record := formRecord personId formData in
    let t := storeRecord personId record t in
    let fullName :=
      default "" (pd_name record)
      +:+ JS.if_truthy (pd_surname record) (fun surname => " " +:+ surname) "" in
    (fun t =>
       {| so_notified :=
            success (if isEdit then "Person Updated" else "Person Added")
              (fullName +:+ " has been "
               +:+ (if isEdit then "updated" else "added") +:+ " successfully");
          so_after := commitSave now t |})
    <$> updateOrCreateNode isEdit personId formData t.

End Modal.

(** ** Input sanitization ([security-utils.js]) *)

Module SecurityUtils.

(** [s.replace(/c/g, by)] for a pattern that is one character. *)
Fixpoint replaceAll (c : ascii) (by_ : string) (s : string) : string :=
  match s with
  | EmptyString => EmptyString
  | String d rest =>
      if Ascii.eqb c d then by_ +:+ replaceAll c by_ rest
      else String d (replaceAll c by_ rest)
  end.

(** [sanitizeText(input)]; [None] is an input that is not a string. *)
Definition sanitizeText (input : option string) : string :=
  match input with
  | None => ""
  | Some input =>
      replaceAll "/" "&#x2F;"
        (replaceAll "'" "&#x27;"
           (replaceAll "034" "&quot;"
              (replaceAll ">" "&gt;"
                 (replaceAll "<" "&lt;" input))))
  end.

(** [s.replace(/[<>]/g, '')]. *)
Fixpoint removeAngles (s : string) : string :=
  match s with
  | EmptyString => EmptyString
  | String d rest =>
      if Ascii.eqb d "<" || Ascii.eqb d ">" then removeAngles rest
      else String d (removeAngles rest)
  end.

(** [sanitizeFormInput(input)]. *)
Definition sanitizeFormInput (input : option string) : string :=
  match input with
  | None => ""
  | Some input => removeAngles (trim input)
  end.

End SecurityUtils.

(** The five characters [sanitizeText] escapes. *)
Definition markup : list ascii := ["<"; ">"; "034"; "'"; "/"]%char.

(** The entity [sanitizeText] writes for a character, if it escapes it. *)
Definition escapeChar (c : ascii) : string :=
  if Ascii.eqb c "<" then "&lt;"
  else if Ascii.eqb c ">" then "&gt;"
  else if Ascii.eqb c "034" then "&quot;"
  else if Ascii.eqb c "'" then "&#x27;"
  else if Ascii.eqb c "/" then "&#x2F;"
  else String c EmptyString.

(** Every character replaced by its entity, in one pass. *)
Fixpoint escaped (s : string) : string :=
  match s with
  | EmptyString => EmptyString
  | String c rest => escapeChar c +:+ escaped rest
  end.

(** ** Line styles in saved states ([line-style-persistence.js]) *)

(** The object [lineStyleSettings] of a state: any property may be
    missing in a file that is read back. *)
Record LineStyleSettings := {
  lss_familyLineStyle : option string;
  lss_familyLineThickness : option Z;
  lss_familyLineColor : option string;
  lss_spouseLineStyle : option string;
  lss_spouseLineThickness : option Z;
  lss_spouseLineColor : option string;
  lss_lineOnlyStyle : option string;
  lss_lineOnlyThickness : option Z;
  lss_lineOnlyColor : option string;
  lss_showNodeOutline : option bool;
  lss_outlineColor : option string;
  lss_outlineThickness : option Z
}.

(** A state object: what it holds besides, and its property
    [lineStyleSettings]. *)
Record StateObject (S : Type) := {
  so_rest : S;
  lineStyleSettings : option LineStyleSettings
}.
Arguments so_rest {S}.
Arguments lineStyleSettings {S}.

(** [addLineStyleToState(state, canvasRenderer)]; [None] is a missing
    renderer. *)
Definition addLineStyleToState {S} (state : StateObject S)
    (canvasRenderer : option Renderer) : StateObject S :=
  match canvasRenderer with
  | None => state
  | Some canvasRenderer =>
      let s := settings canvasRenderer in
      {| so_rest := so_rest state;
         lineStyleSettings :=
           Some {| lss_familyLineStyle :=
                     Some (JS.or_str (Some (familyLineStyle s)) "solid");
                   lss_familyLineThickness :=
                     Some (JS.or_num (Some (familyLineThickness s)) 2);
                   lss_familyLineColor :=
                     Some (JS.or_str (Some (familyLineColor s)) "#7f8c8d");
                   lss_spouseLineStyle :=
                     Some (JS.or_str (Some (spouseLineStyle s)) "dashed");
                   lss_spouseLineThickness :=
                     Some (JS.or_num (Some (spouseLineThickness s)) 2);
                   lss_spouseLineColor :=
                     Some (JS.or_str (Some (spouseLineColor s)) "#e74c3c");
                   lss_lineOnlyStyle :=
                     Some (JS.or_str (Some (lineOnlyStyle s)) "dash-dot");
                   lss_lineOnlyThickness :=
                     Some (JS.or_num (Some (lineOnlyThickness s)) 2);
                   lss_lineOnlyColor :=
                     Some (JS.or_str (Some (lineOnlyColor s)) "#9b59b6");
                   lss_showNodeOutline := Some (showNodeOutline s || false);
                   lss_outlineColor :=
                     Some (JS.or_str (Some (outlineColor s)) "#000000");
                   lss_outlineThickness :=
                     Some (JS.or_num (Some (outlineThickness s)) 1) |} |}
  end.

(** [restoreLineStyleFromState(data, canvasRenderer)]: the renderer it
    leaves.  Each property is assigned when it is not [undefined]. *)
Definition restoreLineStyleFromState {S} (data : StateObject S)
    (canvasRenderer : option Renderer) : option Renderer :=
  match lineStyleSettings data, canvasRenderer with
  | Some lineStyleSettings, Some canvasRenderer =>
      let s := settings canvasRenderer in
      Some (with_settings
              {| familyLineStyle :=
                   default (familyLineStyle s) (lss_familyLineStyle lineStyleSettings);
                 familyLineThickness :=
                   default (familyLineThickness s)
                     (lss_familyLineThickness lineStyleSettings);
                 familyLineColor :=
                   default (familyLineColor s) (lss_familyLineColor lineStyleSettings);
                 spouseLineStyle :=
                   default (spouseLineStyle s) (lss_spouseLineStyle lineStyleSettings);
                 spouseLineThickness :=
                   default (spouseLineThickness s)
                     (lss_spouseLineThickness lineStyleSettings);
                 spouseLineColor :=
                   default (spouseLineColor s) (lss_spouseLineColor lineStyleSettings);
                 lineOnlyStyle :=
                   default (lineOnlyStyle s) (lss_lineOnlyStyle lineStyleSettings);
                 lineOnlyThickness :=
                   default (lineOnlyThickness s)
                     (lss_lineOnlyThickness lineStyleSettings);
                 lineOnlyColor :=
                   default (lineOnlyColor s) (lss_lineOnlyColor lineStyleSettings);
                 showNodeOutline :=
                   default (showNodeOutline s) (lss_showNodeOutline lineStyleSettings);
                 outlineColor :=
                   default (outlineColor s) (lss_outlineColor lineStyleSettings);
                 outlineThickness :=
                   default (outlineThickness s)
                     (lss_outlineThickness lineStyleSettings) |}
              canvasRenderer)
  | _, _ => canvasRenderer
  end.

(** Settings without a falsy value: no empty style or colour, no
    thickness of zero. *)
Definition allSet (s : RendererSettings) : Prop :=
  familyLineStyle s <> "" /\ familyLineThickness s <> 0%Z
  /\ familyLineColor s <> ""
  /\ spouseLineStyle s <> "" /\ spouseLineThickness s <> 0%Z
  /\ spouseLineColor s <> ""
  /\ lineOnlyStyle s <> "" /\ lineOnlyThickness s <> 0%Z
  /\ lineOnlyColor s <> ""
  /\ outlineColor s <> "" /\ outlineThickness s <> 0%Z.

(** A state object without line styles, a renderer with line styles of
    its own, and one whose line styles are all falsy. *)
Definition plainState : StateObject unit :=
  {| so_rest := tt; lineStyleSettings := None |}.

Definition dottedRenderer : Renderer :=
  with_settings
    {| showNodeOutline := false; outlineColor := "#000000";
       outlineThickness := 1;
       familyLineStyle := "dotted"; familyLineThickness := 1;
       familyLineColor := "#000000";
       spouseLineStyle := "dotted"; spouseLineThickness := 1;
       spouseLineColor := "#000000";
       lineOnlyStyle := "dotted"; lineOnlyThickness := 1;
       lineOnlyColor := "#000000" |} (renderer fivePersons).

Definition unsetRenderer : Renderer :=
  with_settings
    {| showNodeOutline := false; outlineColor := ""; outlineThickness := 0;
       familyLineStyle := ""; familyLineThickness := 0; familyLineColor := "";
       spouseLineStyle := ""; spouseLineThickness := 0; spouseLineColor := "";
       lineOnlyStyle := ""; lineOnlyThickness := 0; lineOnlyColor := "" |}
    (renderer fivePersons).


(** A form for a new person whose mother is [p1], and the form of an
    edit of [p3] that leaves the relations out. *)
Definition daughterForm : FormData :=
  {| fd_name := Some " Fay "; fd_fatherName := None; fd_surname := Some "Doe";
     fd_maidenName := None; fd_dob := Some "2001"; fd_gender := Some "female";
     fd_motherId := Some "p1"; fd_fatherId := None; fd_spouseId := None;
     fd_editingId := None |}.

Definition renameForm : FormData :=
  {| fd_name := Some "Cedric"; fd_fatherName := None; fd_surname := None;
     fd_maidenName := None; fd_dob := None; fd_gender := Some "male";
     fd_motherId := None; fd_fatherId := None; fd_spouseId := None;
     fd_editingId := Some "p3" |}.

(** Two ids that share one record object, which names the second as
    spouse. *)
Definition sharedRecord : TreeCore :=
  with_personData [("p1", 1%nat); ("p2", 1%nat)]
    (assign 1%nat (set_spouseId "p2") fivePersons).

(** The five persons without relations, over a storage whose primary
    entry is the saved family of five. *)
Definition relationsInCache : TreeCore :=
  with_localStorage
    {| items := [(CacheKey, EnhancedJSON (getCurrentState 60 familyOfFive))];
       quota := None |}
    fivePersons.

(** * Properties *)

(** A conjunction of closed facts, each settled by evaluating the
    embedding. *)
Ltac by_evaluation :=
  repeat apply conj; vm_compute; first [reflexivity | discriminate | done].

(** ** The embedding on small inputs *)

Example getConnectionKey_orders_ids :
  getConnectionKey "p2" "p1" = "p1-p2" /\ getConnectionKey "p1" "p2" = "p1-p2"
  /\ getConnectionKey "p10" "p2" = "p10-p2".
Proof. by_evaluation. Qed.

Example split_pieces :
  JS.split "-" "p1-p2" = ["p1"; "p2"] /\ JS.split "-" "p1" = ["p1"]
  /\ JS.split "-" "" = [""] /\ JS.split "-" "a-b-c" = ["a"; "b"; "c"]
  /\ JS.split "-" "a--" = ["a"; ""; ""].
Proof. by_evaluation. Qed.

Example parseInt_values :
  parseInt "12" = Some 12%Z /\ parseInt " -7x" = Some (-7)%Z
  /\ parseInt "0x1f" = Some 31%Z /\ parseInt "abc" = None
  /\ parseInt (JS.remove_first "p" "p12") = Some 12%Z.
Proof. by_evaluation. Qed.

Example Set_from_keeps_first :
  JS.Set_from ["a"; "b"; "a"; "c"; "b"] = ["a"; "b"; "c"].
Proof. by_evaluation. Qed.

Example Map_set_keeps_place :
  JS.Map_set [("a", 1%nat); ("b", 2%nat)] "a" 3%nat = [("a", 3%nat); ("b", 2%nat)]
  /\ JS.Map_set [("a", 1%nat); ("b", 2%nat)] "c" 3%nat
     = [("a", 1%nat); ("b", 2%nat); ("c", 3%nat)].
Proof. by_evaluation. Qed.

(** The scenario of the specification: a parent edge is derived, and is
    gone once the pair key is hidden. *)
Example parent_edge_then_hidden :
  let t := createConnection "mother" (handleConnectSelected ["p1"; "p2"] fivePersons) in
  connections (renderer (regenerateConnections t))
  = [{| conn_from := "p2"; conn_to := "p1"; conn_type := parent |}]
  /\ connections
       (renderer (regenerateConnections
                    (with_suppression ["p1-p2"] (lineOnlyConnections t) t)))
     = [].
Proof. by_evaluation. Qed.

Example cleanup_self_spouse :
  (cleanupInvalidRelationships selfSpouse).1 = 1%nat
  /\ relations (cleanupInvalidRelationships selfSpouse).2 = relations fivePersons.
Proof. by_evaluation. Qed.

Example undo_stack_after_sixty :
  length (undoStack (commitAll (replicate 60 takeId) (initialTreeCore emptyStorage)))
  = 50.
Proof. by_evaluation. Qed.

(** ** The loops of the derivation and the edges they append *)

Lemma addEdges_nil t : addEdges [] t = t.
Proof.
  destruct t as [[] ]; unfold addEdges, with_renderer, with_connections; simpl.
  by rewrite app_nil_r.
Qed.

Lemma addEdges_app es1 es2 t :
  addEdges es2 (addEdges es1 t) = addEdges (es1 ++ es2) t.
Proof.
  unfold addEdges, with_renderer, with_connections; simpl.
  by rewrite app_assoc.
Qed.

Lemma with_heap_id t : with_heap (heap t) t = t.
Proof. by destruct t. Qed.

Lemma with_heap_addEdges h es t :
  with_heap h (addEdges es t) = addEdges es (with_heap h t).
Proof. done. Qed.

Lemma with_heap_twice h1 h2 t : with_heap h2 (with_heap h1 t) = with_heap h2 t.
Proof. done. Qed.

Lemma connectUnlessHidden_edges a b ty t :
  connectUnlessHidden a b ty t
  = addEdges (edgeUnlessHidden (hiddenConnections t) (nodes (renderer t)) a b ty) t.
Proof.
  unfold connectUnlessHidden, edgeUnlessHidden.
  destruct (JS.Set_has _ _); [by rewrite addEdges_nil|].
  destruct (_ && _); [done|by rewrite addEdges_nil].
Qed.

Lemma visitPerson_edges t entry :
  visitPerson t entry
  = with_heap (selfSpouseFix (heap t) entry)
      (addEdges (personEdges (hiddenConnections t) (nodes (renderer t))
                   entry.1 (deref (heap t) entry.2)) t).
Proof.
  unfold visitPerson, personEdges, selfSpouseFix.
  set (p := deref (heap t) entry.2).
  set (hid := hiddenConnections t). set (nds := nodes (renderer t)).
  assert (E1 : JS.if_truthy (motherId p)
                 (fun m => connectUnlessHidden entry.1 m parent t) t
               = addEdges (JS.if_truthy (motherId p)
                   (fun m => edgeUnlessHidden hid nds entry.1 m parent) []) t).
  { unfold JS.if_truthy. destruct (motherId p) as [m|]; [|by rewrite addEdges_nil].
    destruct (String.eqb m ""); [by rewrite addEdges_nil|].
    apply connectUnlessHidden_edges. }
  rewrite E1. set (t1 := addEdges _ t).
  assert (E2 : JS.if_truthy (fatherId p)
                 (fun f => connectUnlessHidden entry.1 f parent t1) t1
               = addEdges (JS.if_truthy (fatherId p)
                   (fun f => edgeUnlessHidden hid nds entry.1 f parent) []) t1).
  { unfold JS.if_truthy. destruct (fatherId p) as [f|]; [|by rewrite addEdges_nil].
    destruct (String.eqb f ""); [by rewrite addEdges_nil|].
    apply connectUnlessHidden_edges. }
  rewrite E2. set (t2 := addEdges _ t1).
  assert (E3 : JS.if_truthy (spouseId p)
                 (fun s => if negb (bool_decide (s = entry.1)) && JS.lt entry.1 s
                           then connectUnlessHidden entry.1 s spouse t2 else t2) t2
               = addEdges (JS.if_truthy (spouseId p) (spouseEdge hid nds entry.1) []) t2).
  { unfold JS.if_truthy, spouseEdge.
    destruct (spouseId p) as [s|]; [|by rewrite addEdges_nil].
    destruct (String.eqb s ""); [by rewrite addEdges_nil|].
    destruct (_ && _); [|by rewrite addEdges_nil].
    apply connectUnlessHidden_edges. }
  rewrite E3. subst t2 t1. rewrite !addEdges_app.
  destruct (bool_decide _); [done|].
  by rewrite with_heap_addEdges, with_heap_id.
Qed.

Lemma fold_visitPerson_edges entries t :
  fold_left visitPerson entries t
  = with_heap (fold_left selfSpouseFix entries (heap t))
      (addEdges (relationEdges (hiddenConnections t) (nodes (renderer t))
                   entries (heap t)) t).
Proof.
  revert t. induction entries as [|entry rest IH]; intros t; simpl.
  - by rewrite addEdges_nil, with_heap_id.
  - rewrite IH, visitPerson_edges. simpl.
    by rewrite <- with_heap_addEdges, addEdges_app, with_heap_twice.
Qed.

Lemma visitLineOnly_edges t key :
  visitLineOnly t key
  = addEdges (lineOnlyEdge (hiddenConnections t) (nodes (renderer t)) key) t.
Proof.
  unfold visitLineOnly, lineOnlyEdge.
  destruct (JS.Set_has _ _); [by rewrite addEdges_nil|].
  destruct (JS.split _ _) as [|id1 [|id2 ?]]; try by rewrite addEdges_nil.
  destruct (_ && _); [done|by rewrite addEdges_nil].
Qed.

Lemma fold_visitLineOnly_edges keys t :
  fold_left visitLineOnly keys t
  = addEdges (flat_map (lineOnlyEdge (hiddenConnections t) (nodes (renderer t)))
                keys) t.
Proof.
  revert t. induction keys as [|key rest IH]; intros t; simpl.
  - by rewrite addEdges_nil.
  - rewrite IH, visitLineOnly_edges. simpl. by rewrite addEdges_app.
Qed.

(** The edge list a run leaves, and the heap it leaves. *)
Lemma regenerateConnections_connections t :
  connections (renderer (regenerateConnections t))
  = match personData t with
    | [] => []
    | _ :: _ =>
        (relationEdges (hiddenConnections t) (nodes (renderer t))
           (personData t) (heap t)
         ++ flat_map (lineOnlyEdge (hiddenConnections t) (nodes (renderer t)))
              (lineOnlyConnections t))%list
    end.
Proof.
  unfold regenerateConnections. simpl.
  destruct (personData t) as [|e rest] eqn:E; [done|].
  by rewrite fold_visitLineOnly_edges, fold_visitPerson_edges.
Qed.

Lemma regenerateConnections_heap t :
  heap (regenerateConnections t) = fold_left selfSpouseFix (personData t) (heap t).
Proof.
  unfold regenerateConnections. simpl.
  destruct (personData t) as [|e rest] eqn:E; [done|].
  by rewrite fold_visitLineOnly_edges, fold_visitPerson_edges.
Qed.

Lemma regenerateConnections_frame t :
  personData (regenerateConnections t) = personData t
  /\ hiddenConnections (regenerateConnections t) = hiddenConnections t
  /\ lineOnlyConnections (regenerateConnections t) = lineOnlyConnections t
  /\ nodes (renderer (regenerateConnections t)) = nodes (renderer t)
  /\ undoStack (regenerateConnections t) = undoStack t
  /\ redoStack (regenerateConnections t) = redoStack t
  /\ localStorage (regenerateConnections t) = localStorage t.
Proof.
  unfold regenerateConnections. simpl.
  destruct (personData t) as [|e rest] eqn:E; [done|].
  by rewrite fold_visitLineOnly_edges, fold_visitPerson_edges.
Qed.

(** A run changes the heap, the edge list and the redraw flag, and
    nothing else. *)
Lemma regenerateConnections_only t :
  regenerateConnections t
  = with_heap (heap (regenerateConnections t))
      (with_renderer
         (with_needsRedraw (needsRedraw (renderer (regenerateConnections t)))
            (with_connections (connections (renderer (regenerateConnections t)))
               (renderer t))) t).
Proof.
  unfold regenerateConnections. simpl.
  destruct (personData t) as [|e rest] eqn:E.
  - by destruct t as [[] ].
  - rewrite fold_visitLineOnly_edges, fold_visitPerson_edges.
    by destruct t as [[] ].
Qed.

(** ** The order on ids and the pair key *)

Lemma lt_irrefl a : JS.lt a a = false.
Proof.
  unfold JS.lt, String.ltb.
  pose proof (String.compare_antisym a a) as H.
  destruct (String.compare a a); simpl in H; congruence.
Qed.

Lemma lt_asym a b : JS.lt a b = true -> JS.lt b a = false.
Proof.
  unfold JS.lt, String.ltb. rewrite (String.compare_antisym b a).
  by destruct (String.compare a b).
Qed.

Lemma lt_total a b : a <> b -> JS.lt a b = false -> JS.lt b a = true.
Proof.
  unfold JS.lt, String.ltb. intros Hne. rewrite (String.compare_antisym b a).
  destruct (String.compare a b) eqn:E; simpl; try done.
  by apply String.compare_eq_iff in E.
Qed.

Lemma lt_empty_r a : JS.lt a "" = false.
Proof. by destruct a. Qed.

Lemma getConnectionKey_sym a b : getConnectionKey a b = getConnectionKey b a.
Proof.
  unfold getConnectionKey.
  destruct (JS.lt a b) eqn:Hab.
  - by rewrite (lt_asym _ _ Hab).
  - destruct (decide (a = b)) as [->|Hne]; [by rewrite Hab|].
    by rewrite (lt_total _ _ Hne Hab).
Qed.

(** ** Maps as association lists *)

Lemma Map_get_elem {V} (m : list (string * V)) k v :
  JS.Map_get m k = Some v -> (k, v) ∈ m.
Proof.
  induction m as [|[k' v'] m IH]; simpl; [done|].
  destruct (decide (k = k')) as [->|]; intros H.
  - injection H as ->. apply list_elem_of_here.
  - apply list_elem_of_further; auto.
Qed.

Lemma Map_get_NoDup {V} (m : list (string * V)) k v :
  NoDup (JS.Map_keys m) -> (k, v) ∈ m -> JS.Map_get m k = Some v.
Proof.
  unfold JS.Map_keys.
  induction m as [|[k' v'] m IH]; simpl; intros Hnd Hin.
  - by apply not_elem_of_nil in Hin.
  - apply NoDup_cons in Hnd as [Hk Hnd].
    apply elem_of_cons in Hin as [Heq|Hin].
    + injection Heq as -> ->. by rewrite decide_True.
    + destruct (decide (k = k')) as [->|]; [|auto].
      exfalso. apply Hk. apply list_elem_of_fmap. by exists (k', v).
Qed.

Lemma filter_none {A} (P : A -> Prop) `{!forall x, Decision (P x)} (l : list A) :
  (forall x, x ∈ l -> ~ P x) -> filter P l = [].
Proof.
  induction l as [|x l IH]; intros Hl; [done|].
  rewrite filter_cons_False; [|apply Hl, list_elem_of_here].
  apply IH. intros y Hy. apply Hl. by apply list_elem_of_further.
Qed.

(** ** What one turn of the person loop can add *)

Lemma elem_of_edgeUnlessHidden hidden nds a b ty e :
  e ∈ edgeUnlessHidden hidden nds a b ty ->
  e = {| conn_from := a; conn_to := b; conn_type := ty |}
  /\ JS.Set_has hidden (getConnectionKey a b) = false
  /\ JS.Map_has nds a = true /\ JS.Map_has nds b = true.
Proof.
  unfold edgeUnlessHidden.
  destruct (JS.Set_has _ _); [by intros ?%not_elem_of_nil|].
  destruct (JS.Map_has nds a), (JS.Map_has nds b); simpl;
    try by intros ?%not_elem_of_nil.
  by intros ->%list_elem_of_singleton.
Qed.

Lemma elem_of_if_truthy {A} (o : option string) (k : string -> list A) x :
  x ∈ JS.if_truthy o k [] -> exists s, o = Some s /\ s <> "" /\ x ∈ k s.
Proof.
  unfold JS.if_truthy. destruct o as [s|]; [|by intros ?%not_elem_of_nil].
  destruct (String.eqb s "") eqn:E; [by intros ?%not_elem_of_nil|].
  apply String.eqb_neq in E. by exists s.
Qed.

Lemma elem_of_personEdges hidden nds childId p e :
  e ∈ personEdges hidden nds childId p ->
  conn_from e = childId
  /\ JS.Set_has hidden (getConnectionKey childId (conn_to e)) = false
  /\ JS.Map_has nds childId = true /\ JS.Map_has nds (conn_to e) = true
  /\ ((conn_type e = parent
       /\ (motherId p = Some (conn_to e) \/ fatherId p = Some (conn_to e)))
      \/ (conn_type e = spouse /\ spouseId p = Some (conn_to e)
          /\ conn_to e <> childId /\ JS.lt childId (conn_to e) = true)).
Proof.
  unfold personEdges. rewrite !elem_of_app.
  intros [H|[H|H]]; apply elem_of_if_truthy in H as (s & Hs & _ & H).
  - apply elem_of_edgeUnlessHidden in H as (-> & ? & ? & ?). simpl. tauto.
  - apply elem_of_edgeUnlessHidden in H as (-> & ? & ? & ?). simpl. tauto.
  - unfold spouseEdge in H.
    destruct (negb _ && _) eqn:E; [|by apply not_elem_of_nil in H].
    apply andb_true_iff in E as [E1 E2].
    apply negb_true_iff, bool_decide_eq_false in E1.
    apply elem_of_edgeUnlessHidden in H as (-> & ? & ? & ?). simpl.
    repeat split; try done. right. done.
Qed.

Lemma elem_of_lineOnlyEdge hidden nds key e :
  e ∈ lineOnlyEdge hidden nds key ->
  conn_type e = line_only /\ JS.Set_has hidden key = false
  /\ JS.Map_has nds (conn_from e) = true /\ JS.Map_has nds (conn_to e) = true
  /\ exists more, JS.split "-" key = conn_from e :: conn_to e :: more.
Proof.
  unfold lineOnlyEdge.
  destruct (JS.Set_has _ _); [by intros ?%not_elem_of_nil|].
  destruct (JS.split _ _) as [|id1 [|id2 more]];
    try by intros ?%not_elem_of_nil.
  destruct (JS.Map_has nds id1) eqn:E1, (JS.Map_has nds id2) eqn:E2; simpl;
    try by intros ?%not_elem_of_nil.
  intros ->%list_elem_of_singleton. simpl. eauto 10.
Qed.

Lemma deref_insert h l r l' :
  deref (<[l := r]> h) l' = if decide (l = l') then r else deref h l'.
Proof.
  unfold deref. destruct (decide (l = l')) as [->|Hne].
  - by rewrite lookup_insert_eq.
  - by rewrite lookup_insert_ne.
Qed.

(** ** Spouse pairs *)


Section SpousePair.
Variable hidden : list string.
Variable nds : list (string * Node).
Variable pd : list (string * loc).
Variables A B : string.
Variables lA lB : loc.
Hypothesis pd_ok : NoDup (JS.Map_keys pd).
Hypothesis HA : JS.Map_get pd A = Some lA.
Hypothesis HB : JS.Map_get pd B = Some lB.
Hypothesis Hlt : JS.lt A B = true.
Hypothesis Hvis : JS.Set_has hidden (getConnectionKey A B) = false.
Hypothesis HnA : JS.Map_has nds A = true.
Hypothesis HnB : JS.Map_has nds B = true.


Lemma pair_distinct : A <> B.
Proof. intros ->. by rewrite lt_irrefl in Hlt. Qed.

Lemma pair_records_distinct h : mutual A B lA lB h -> lA <> lB.
Proof.
  intros [H1 H2] E. rewrite E in H1. rewrite H1 in H2.
  injection H2 as H2. by apply pair_distinct.
Qed.

(** The self-spouse reset of a turn never touches the pair: it would
    need one of the two ids to be the key of the partner's record. *)
Lemma mutual_selfSpouseFix h entry :
  entry ∈ pd -> mutual A B lA lB h -> mutual A B lA lB (selfSpouseFix h entry).
Proof.
  destruct entry as [k l]. intros Hin Hm.
  pose proof (pair_records_distinct h Hm) as Hl.
  unfold selfSpouseFix; simpl.
  destruct (bool_decide _) eqn:E; [|done].
  apply bool_decide_eq_true in E.
  apply (Map_get_NoDup _ _ _ pd_ok) in Hin.
  destruct Hm as [H1 H2]. unfold mutual. rewrite !deref_insert.
  split.
  - destruct (decide (l = lA)) as [->|]; [|done].
    exfalso. rewrite H1 in E. injection E as <-. congruence.
  - destruct (decide (l = lB)) as [->|]; [|done].
    exfalso. rewrite H2 in E. injection E as <-. congruence.
Qed.

Lemma personEdges_lower h :
  mutual A B lA lB h ->
  filter (spouseBetween A B) (personEdges hidden nds A (deref h lA))
  = [{| conn_from := A; conn_to := B; conn_type := spouse |}].
Proof.
  intros [H1 _]. unfold personEdges. rewrite !filter_app.
  rewrite (filter_none _ (JS.if_truthy (motherId _) _ _)); cycle 1.
  { intros e (s & _ & _ & He)%elem_of_if_truthy [Ht _].
    apply elem_of_edgeUnlessHidden in He as (-> & _). done. }
  rewrite (filter_none _ (JS.if_truthy (fatherId _) _ _)); cycle 1.
  { intros e (s & _ & _ & He)%elem_of_if_truthy [Ht _].
    apply elem_of_edgeUnlessHidden in He as (-> & _). done. }
  rewrite H1. simpl.
  assert (HB0 : String.eqb B "" = false).
  { apply String.eqb_neq. intros ->. by rewrite lt_empty_r in Hlt. }
  rewrite HB0. unfold spouseEdge, edgeUnlessHidden.
  rewrite Hlt, Hvis, HnA, HnB.
  rewrite bool_decide_eq_false_2; [|by intros ->; rewrite lt_irrefl in Hlt].
  simpl. rewrite filter_cons_True; [done|]. split; simpl; auto.
Qed.

Lemma personEdges_other k p :
  k <> A -> filter (spouseBetween A B) (personEdges hidden nds k p) = [].
Proof.
  intros Hk. apply filter_none. intros e He [Ht Hends].
  apply elem_of_personEdges in He as (Hfrom & _ & _ & _ & Hkind).
  destruct Hkind as [[Hp _]|(_ & _ & _ & Hlt')]; [congruence|].
  destruct Hends as [[HfA _]|[HfB HtA]]; [congruence|].
  rewrite HtA, <- Hfrom, HfB in Hlt'.
  by rewrite (lt_asym _ _ Hlt) in Hlt'.
Qed.

Lemma relationEdges_spouse_pair entries h :
  (forall x, x ∈ entries -> x ∈ pd) ->
  NoDup (JS.Map_keys entries) ->
  mutual A B lA lB h ->
  filter (spouseBetween A B) (relationEdges hidden nds entries h)
  = if bool_decide (A ∈ JS.Map_keys entries)
    then [{| conn_from := A; conn_to := B; conn_type := spouse |}]
    else [].
Proof.
  unfold JS.Map_keys.
  revert h. induction entries as [|[k l] rest IH]; intros h Hsub Hnd Hm.
  { rewrite bool_decide_eq_false_2; [done|]. apply not_elem_of_nil. }
  rewrite fmap_cons in Hnd |- *. cbn [relationEdges fst snd].
  apply NoDup_cons in Hnd as [Hk Hnd].
  rewrite filter_app.
  assert (Hin : (k, l) ∈ pd) by apply Hsub, list_elem_of_here.
  rewrite IH; cycle 1.
  { intros x Hx. by apply Hsub, list_elem_of_further. }
  { done. }
  { by apply mutual_selfSpouseFix. }
  destruct (decide (k = A)) as [->|Hne].
  - apply (Map_get_NoDup _ _ _ pd_ok) in Hin.
    assert (l = lA) as -> by congruence.
    rewrite personEdges_lower by done.
    rewrite (bool_decide_eq_false_2 _ Hk).
    rewrite bool_decide_eq_true_2; [done|apply list_elem_of_here].
  - rewrite personEdges_other by done. simpl.
    rewrite (bool_decide_ext (A ∈ k :: rest.*1) (A ∈ rest.*1)); [done|].
    rewrite elem_of_cons. split; [by intros [?|?]|by right].
Qed.
End SpousePair.

Lemma lineOnly_not_spouseBetween hidden nds A B keys :
  filter (spouseBetween A B) (flat_map (lineOnlyEdge hidden nds) keys) = [].
Proof.
  apply filter_none. intros e He [Ht _].
  apply list_elem_of_In, in_flat_map in He as (key & _ & He).
  apply list_elem_of_In, elem_of_lineOnlyEdge in He as (Ht' & _). congruence.
Qed.

Lemma spouseBetween_sym A B e : spouseBetween A B e <-> spouseBetween B A e.
Proof. unfold spouseBetween. tauto. Qed.

(** The spouse edges between the two members of a mutual pair, for a
    store in a given visiting order. *)
Lemma spouse_pair_edge (t : TreeCore) (A B : string) (lA lB : loc) :
  NoDup (JS.Map_keys (personData t)) ->
  JS.Map_get (personData t) A = Some lA ->
  spouseId (deref (heap t) lA) = Some B ->
  JS.Map_get (personData t) B = Some lB ->
  spouseId (deref (heap t) lB) = Some A ->
  A <> B ->
  JS.Map_has (nodes (renderer t)) A = true ->
  JS.Map_has (nodes (renderer t)) B = true ->
  JS.Set_has (hiddenConnections t) (getConnectionKey A B) = false ->
  filter (spouseBetween A B) (connections (renderer (regenerateConnections t)))
  = [{| conn_from := if JS.lt A B then A else B;
        conn_to := if JS.lt A B then B else A;
        conn_type := spouse |}].
Proof.
  intros Hok HA HsA HB HsB Hne HnA HnB Hvis.
  rewrite regenerateConnections_connections.
  destruct (personData t) as [|e0 rest] eqn:Epd; [done|]. rewrite <- Epd in *.
  rewrite filter_app, lineOnly_not_spouseBetween, app_nil_r.
  destruct (JS.lt A B) eqn:Hlt.
  - rewrite (relationEdges_spouse_pair _ _ (personData t) A B lA lB);
      try done.
    rewrite bool_decide_eq_true_2; [done|].
    apply Map_get_elem in HA. apply list_elem_of_fmap. by exists (A, lA).
  - pose proof (lt_total _ _ Hne Hlt) as Hlt'.
    rewrite (list_filter_iff _ (spouseBetween B A))
      by (intros; apply spouseBetween_sym).
    rewrite (relationEdges_spouse_pair _ _ (personData t) B A lB lA);
      try done.
    + rewrite bool_decide_eq_true_2; [done|].
      apply Map_get_elem in HB. apply list_elem_of_fmap. by exists (B, lB).
    + by rewrite getConnectionKey_sym.
Qed.

Lemma Map_get_Permutation {V} (m m' : list (string * V)) k v :
  NoDup (JS.Map_keys m) -> m' ≡ₚ m ->
  JS.Map_get m k = Some v -> JS.Map_get m' k = Some v.
Proof.
  intros Hnd Hperm Hget. apply Map_get_NoDup.
  - unfold JS.Map_keys in *. by rewrite Hperm.
  - rewrite Hperm. by apply Map_get_elem.
Qed.

(** C1.  One run of [regenerateConnections] gives every mutual spouse
    pair [A], [B] with [A <> B], both present as nodes and with a pair
    key that is not hidden, exactly one spouse edge: the one from the id
    that sorts first to the other.  This holds for the store as it is
    and for the same records visited in any other order. *)
Theorem spouse_pair_exactly_one_edge (t : TreeCore) (A B : string) (lA lB : loc) :
  NoDup (JS.Map_keys (personData t)) ->
  JS.Map_get (personData t) A = Some lA ->
  spouseId (deref (heap t) lA) = Some B ->
  JS.Map_get (personData t) B = Some lB ->
  spouseId (deref (heap t) lB) = Some A ->
  A <> B ->
  JS.Map_has (nodes (renderer t)) A = true ->
  JS.Map_has (nodes (renderer t)) B = true ->
  JS.Set_has (hiddenConnections t) (getConnectionKey A B) = false ->
  filter (spouseBetween A B) (connections (renderer (regenerateConnections t)))
  = [{| conn_from := if JS.lt A B then A else B;
        conn_to := if JS.lt A B then B else A;
        conn_type := spouse |}]
  /\ forall visited : list (string * loc),
       visited ≡ₚ personData t ->
       filter (spouseBetween A B)
         (connections
            (renderer (regenerateConnections (with_personData visited t))))
       = [{| conn_from := if JS.lt A B then A else B;
             conn_to := if JS.lt A B then B else A;
             conn_type := spouse |}].
Proof.
  intros Hok HA HsA HB HsB Hne HnA HnB Hvis.
  split; [by apply (spouse_pair_edge t A B lA lB)|].
  intros visited Hperm.
  apply (spouse_pair_edge (with_personData visited t) A B lA lB); try done; simpl.
  - unfold JS.Map_keys in *. by rewrite Hperm.
  - by apply (Map_get_Permutation (personData t)).
  - by apply (Map_get_Permutation (personData t)).
Qed.

Lemma spouse_pair_exactly_one_edge_witness :
  filter (spouseBetween "p1" "p2")
    (connections (renderer (regenerateConnections familyOfFive)))
  = [{| conn_from := "p1"; conn_to := "p2"; conn_type := spouse |}]
  /\ forall visited : list (string * loc),
       visited ≡ₚ personData familyOfFive ->
       filter (spouseBetween "p1" "p2")
         (connections
            (renderer (regenerateConnections (with_personData visited familyOfFive))))
       = [{| conn_from := "p1"; conn_to := "p2"; conn_type := spouse |}].
Proof.
  apply (spouse_pair_exactly_one_edge familyOfFive "p1" "p2" 1%nat 2%nat).
  - apply (bool_decide_unpack _). by vm_compute.
  - by vm_compute.
  - by vm_compute.
  - by vm_compute.
  - by vm_compute.
  - discriminate.
  - by vm_compute.
  - by vm_compute.
  - by vm_compute.
Defined.

(** ** Hidden pairs *)


Lemma elem_of_relationEdges hidden nds entries h e :
  e ∈ relationEdges hidden nds entries h ->
  exists k p, e ∈ personEdges hidden nds k p.
Proof.
  revert h. induction entries as [|entry rest IH]; intros h; simpl.
  - by intros ?%not_elem_of_nil.
  - rewrite elem_of_app. intros [H|H]; eauto.
Qed.

(** The relation edges respect the suppression set: a parent or spouse
    edge is never drawn between the two ids of a hidden pair key. *)
Lemma hidden_pair_no_relation_edge (t : TreeCore) (A B : string) (e : Connection) :
  JS.Set_has (hiddenConnections t) (getConnectionKey A B) = true ->
  e ∈ connections (renderer (regenerateConnections t)) ->
  between A B e ->
  conn_type e = line_only.
Proof.
  intros Hhid He Hb. rewrite regenerateConnections_connections in He.
  destruct (personData t) as [|e0 rest]; [by apply not_elem_of_nil in He|].
  apply elem_of_app in He as [He|He].
  - exfalso. apply elem_of_relationEdges in He as (k & p & He).
    apply elem_of_personEdges in He as (Hfrom & Hvis & _).
    destruct Hb as [[H1 H2]|[H1 H2]]; rewrite <- Hfrom, H1, H2 in Hvis.
    + congruence.
    + rewrite getConnectionKey_sym in Hvis. congruence.
  - apply list_elem_of_In, in_flat_map in He as (key & _ & He).
    by apply list_elem_of_In, elem_of_lineOnlyEdge in He as (Ht & _).
Qed.

(** C4.  The claim fails for line-only edges: the line-only loop looks
    the stored key up as it is, and [createConnection] stores it in the
    order of selection.  With [p2-p1] in [lineOnlyConnections] and the
    pair key of [p1] and [p2] hidden, the derivation draws the edge. *)
Theorem hidden_pair_line_only_edge_drawn :
  JS.Set_has (hiddenConnections hiddenLineOnly) (getConnectionKey "p1" "p2") = true
  /\ lineOnlyConnections hiddenLineOnly = ["p2-p1"]
  /\ connections (renderer (regenerateConnections hiddenLineOnly))
     = [{| conn_from := "p2"; conn_to := "p1"; conn_type := line_only |}].
Proof. by vm_compute. Qed.

(** ** What a derivation leaves of the store *)

Lemma set_spouseId_twice v p : set_spouseId v (set_spouseId v p) = set_spouseId v p.
Proof. done. Qed.

Section StoreFrame.
Variable pd : list (string * loc).
Variable h0 : gmap loc PersonRecord.



End StoreFrame.



(** A store without a self-spouse record comes out of a derivation with
    every record object as it was. *)
Lemma regenerateConnections_heap_unchanged (t : TreeCore) :
  (forall k l, (k, l) ∈ personData t -> spouseId (deref (heap t) l) <> Some k) ->
  heap (regenerateConnections t) = heap t.
Proof.
  rewrite regenerateConnections_heap. intros Hfree.
  assert (Hall : forall entries h,
            (forall k l, (k, l) ∈ entries -> spouseId (deref h l) <> Some k) ->
            fold_left selfSpouseFix entries h = h).
  { clear. induction entries as [|[k l] rest IH]; intros h Hh; [done|].
    simpl. unfold selfSpouseFix at 2. simpl.
    rewrite bool_decide_eq_false_2 by apply Hh, list_elem_of_here.
    apply IH. intros k' l' Hin. by apply Hh, list_elem_of_further. }
  by apply Hall.
Qed.

(** ** Line-only connections *)


Lemma Map_has_is_Some {V} (m : list (string * V)) k :
  JS.Map_has m k = true <-> is_Some (JS.Map_get m k).
Proof.
  unfold JS.Map_has. destruct (JS.Map_get m k).
  - split; [by eexists|done].
  - split; [done|by intros [? ?]].
Qed.

Lemma lineOnlyEdge_drawable hidden nds key :
  lineOnlyEdge hidden nds key
  = if decide (drawableKey hidden nds key)
    then default [] ((fun e => [e]) <$> keyEdge key) else [].
Proof.
  unfold lineOnlyEdge, JS.Set_has, keyEdge.
  destruct (decide (drawableKey hidden nds key)) as [H|H].
  - destruct H as (Hh & id1 & id2 & Hk & H1 & H2).
    rewrite bool_decide_eq_false_2 by done. rewrite Hk. simpl.
    unfold keyIds in Hk.
    destruct (JS.split "-" key) as [|a [|b more]]; try done.
    injection Hk as -> ->.
    apply Map_has_is_Some in H1, H2. by rewrite H1, H2.
  - case_bool_decide as Hh; [done|].
    destruct (JS.split "-" key) as [|a [|b more]] eqn:Es; try done.
    destruct (JS.Map_has nds a) eqn:E1; [|done].
    destruct (JS.Map_has nds b) eqn:E2; [|done].
    exfalso. apply H. split; [done|]. exists a, b.
    unfold keyIds. rewrite Es. by rewrite <- !Map_has_is_Some.
Qed.

Lemma flat_map_lineOnlyEdge hidden nds keys :
  flat_map (lineOnlyEdge hidden nds) keys = lineOnlySpec hidden nds keys.
Proof.
  unfold lineOnlySpec. induction keys as [|key rest IH]; [done|].
  simpl. rewrite IH, lineOnlyEdge_drawable, filter_cons.
  destruct (decide (drawableKey hidden nds key)) as [H|H]; [|done].
  simpl. destruct H as (_ & id1 & id2 & Hk & _).
  unfold keyEdge. by rewrite Hk.
Qed.

Lemma lineOnlySpec_length hidden nds keys :
  length (lineOnlySpec hidden nds keys)
  = length (filter (drawableKey hidden nds) keys).
Proof.
  unfold lineOnlySpec.
  assert (H : Forall (drawableKey hidden nds)
                (filter (drawableKey hidden nds) keys)).
  { apply Forall_forall. intros x Hx.
    by apply list_elem_of_filter in Hx as [? _]. }
  induction H as [|key rest Hk _ IH]; [done|].
  destruct Hk as (_ & id1 & id2 & Hk & _).
  assert (E : keyEdge key
              = Some {| conn_from := id1; conn_to := id2; conn_type := line_only |}).
  { unfold keyEdge. by rewrite Hk. }
  simpl. rewrite E. simpl. f_equal. exact IH.
Qed.

Lemma relationEdges_not_line_only hidden nds entries h :
  filter (fun e => conn_type e = line_only) (relationEdges hidden nds entries h)
  = [].
Proof.
  apply filter_none. intros e He Ht.
  apply elem_of_relationEdges in He as (k & p & He).
  apply elem_of_personEdges in He as (_ & _ & _ & _ & [[Hp _]|[Hs _]]);
    congruence.
Qed.

Lemma lineOnlySpec_all_line_only hidden nds keys :
  filter (fun e => conn_type e = line_only) (lineOnlySpec hidden nds keys)
  = lineOnlySpec hidden nds keys.
Proof.
  unfold lineOnlySpec.
  induction (filter (drawableKey hidden nds) keys) as [|key rest IH]; [done|].
  simpl. destruct (keyEdge key) as [c|] eqn:E; [|exact IH].
  assert (Hc : conn_type c = line_only).
  { unfold keyEdge in E. destruct (keyIds key); [|done]. by injection E as <-. }
  rewrite filter_cons_True by done. f_equal. exact IH.
Qed.

(** The claim that line-only keys are drawn whatever the store holds
    fails on a store without records: the derivation returns before the
    line-only loop. *)
Lemma line_only_needs_a_record :
  drawableKey (hiddenConnections lineOnlyWithoutStore)
    (nodes (renderer lineOnlyWithoutStore)) "p1-p2"
  /\ "p1-p2" ∈ lineOnlyConnections lineOnlyWithoutStore
  /\ personData lineOnlyWithoutStore = []
  /\ connections (renderer (regenerateConnections lineOnlyWithoutStore)) = [].
Proof.
  split; [|split; [|split]].
  - split; [vm_compute; apply not_elem_of_nil|].
    exists "p1", "p2". split; [done|]. split; vm_compute; eauto.
  - apply list_elem_of_here.
  - done.
  - by vm_compute.
Qed.

(** C9, amended.  On every derivation over a store that holds at least
    one record, the line-only edges drawn are one edge for each key of
    [lineOnlyConnections] that is not in [hiddenConnections] and whose
    two ids both exist as nodes, and nothing else; the records of the
    store and their relational fields play no part. *)
Theorem line_only_edges_of_nonempty_store (t : TreeCore) :
  personData t <> [] ->
  filter (fun e => conn_type e = line_only)
    (connections (renderer (regenerateConnections t)))
  = lineOnlySpec (hiddenConnections t) (nodes (renderer t))
      (lineOnlyConnections t)
  /\ length (filter (fun e => conn_type e = line_only)
               (connections (renderer (regenerateConnections t))))
     = length (filter (drawableKey (hiddenConnections t) (nodes (renderer t)))
                 (lineOnlyConnections t)).
Proof.
  intros Hne. rewrite regenerateConnections_connections.
  destruct (personData t) as [|e0 rest]; [done|].
  rewrite filter_app, relationEdges_not_line_only, flat_map_lineOnlyEdge.
  simpl. rewrite lineOnlySpec_all_line_only.
  split; [done|apply lineOnlySpec_length].
Qed.

Lemma line_only_edges_of_nonempty_store_witness :
  filter (fun e => conn_type e = line_only)
    (connections (renderer (regenerateConnections hiddenLineOnly)))
  = lineOnlySpec (hiddenConnections hiddenLineOnly)
      (nodes (renderer hiddenLineOnly)) (lineOnlyConnections hiddenLineOnly)
  /\ length (filter (fun e => conn_type e = line_only)
               (connections (renderer (regenerateConnections hiddenLineOnly))))
     = length (filter (drawableKey (hiddenConnections hiddenLineOnly)
                         (nodes (renderer hiddenLineOnly)))
                 (lineOnlyConnections hiddenLineOnly)).
Proof.
  apply (line_only_edges_of_nonempty_store hiddenLineOnly). discriminate.
Defined.

(** ** The clean-up pass *)


Lemma resets_refl h : resets h h.
Proof. intros l. tauto. Qed.

Lemma resets_trans h1 h2 h3 : resets h1 h2 -> resets h2 h3 -> resets h1 h3.
Proof.
  intros H12 H23 l. destruct (H12 l) as (A1 & A2 & A3).
  destruct (H23 l) as (B1 & B2 & B3).
  repeat split.
  - destruct B1 as [-> | ->]; auto.
  - destruct B2 as [-> | ->]; auto.
  - destruct B3 as [-> | ->]; auto.
Qed.

Lemma selfFree_resets h h' entry :
  entry.1 <> "" -> resets h h' -> selfFree h entry -> selfFree h' entry.
Proof.
  intros Hne Hr (H1 & H2 & H3). destruct (Hr entry.2) as (R1 & R2 & R3).
  repeat split.
  - destruct R1 as [-> | ->]; [done|congruence].
  - destruct R2 as [-> | ->]; [done|congruence].
  - destruct R3 as [-> | ->]; [done|congruence].
Qed.

Lemma cleanedRecord_fields k p :
  spouseId (cleanedRecord k p)
    = (if bool_decide (spouseId p = Some k) then Some "" else spouseId p)
  /\ motherId (cleanedRecord k p)
    = (if bool_decide (motherId p = Some k) then Some "" else motherId p)
  /\ fatherId (cleanedRecord k p)
    = (if bool_decide (fatherId p = Some k) then Some "" else fatherId p).
Proof.
  unfold cleanedRecord.
  destruct (bool_decide (spouseId p = Some k)) eqn:E1; simpl;
    destruct (bool_decide (motherId p = Some k)) eqn:E2; simpl;
    destruct (bool_decide (fatherId p = Some k)) eqn:E3; simpl; done.
Qed.

Lemma cleanedRecord_id k p :
  spouseId p <> Some k -> motherId p <> Some k -> fatherId p <> Some k ->
  cleanedRecord k p = p.
Proof.
  intros H1 H2 H3. unfold cleanedRecord.
  rewrite (bool_decide_eq_false_2 _ H1). simpl.
  rewrite (bool_decide_eq_false_2 _ H2). simpl.
  by rewrite (bool_decide_eq_false_2 _ H3).
Qed.

Lemma cleanPerson_deref h c entry l :
  deref (cleanPerson (h, c) entry).1 l
  = if decide (entry.2 = l) then cleanedRecord entry.1 (deref h entry.2)
    else deref h l.
Proof.
  unfold cleanPerson, cleanedRecord. simpl.
  set (p0 := deref h entry.2).
  destruct (bool_decide (spouseId p0 = Some entry.1)) eqn:E1; simpl;
    destruct (bool_decide (motherId p0 = Some entry.1)) eqn:E2; simpl;
    destruct (bool_decide (fatherId p0 = Some entry.1)) eqn:E3; simpl;
    rewrite ?deref_insert; try done.
  by destruct (decide (entry.2 = l)) as [<-|].
Qed.

Lemma cleanPerson_selfFree h c entry :
  selfFree h entry -> cleanPerson (h, c) entry = (h, c).
Proof.
  intros (H1 & H2 & H3). unfold cleanPerson. simpl.
  rewrite (bool_decide_eq_false_2 _ H1). simpl.
  rewrite (bool_decide_eq_false_2 _ H2). simpl.
  rewrite (bool_decide_eq_false_2 _ H3). simpl.
  f_equal. lia.
Qed.

Lemma fold_cleanPerson_selfFree entries h c :
  Forall (selfFree h) entries -> fold_left cleanPerson entries (h, c) = (h, c).
Proof.
  induction 1 as [|entry rest He _ IH]; [done|].
  simpl. by rewrite cleanPerson_selfFree.
Qed.

Lemma cleanPerson_resets acc entry : resets acc.1 (cleanPerson acc entry).1.
Proof.
  destruct acc as [h c]. intros l. rewrite cleanPerson_deref. simpl.
  destruct (decide (entry.2 = l)) as [<-|]; [|tauto].
  destruct (cleanedRecord_fields entry.1 (deref h entry.2)) as (-> & -> & ->).
  repeat split; case_bool_decide; auto.
Qed.

Lemma cleanPerson_cleans acc entry :
  entry.1 <> "" -> selfFree (cleanPerson acc entry).1 entry.
Proof.
  destruct acc as [h c]. intros Hne. unfold selfFree.
  rewrite cleanPerson_deref, decide_True by done.
  destruct (cleanedRecord_fields entry.1 (deref h entry.2)) as (-> & -> & ->).
  repeat split; case_bool_decide; congruence.
Qed.

Lemma fold_cleanPerson_resets entries acc :
  resets acc.1 (fold_left cleanPerson entries acc).1.
Proof.
  revert acc. induction entries as [|entry rest IH]; intros acc; simpl.
  - apply resets_refl.
  - eapply resets_trans; [apply cleanPerson_resets|apply IH].
Qed.

Lemma fold_cleanPerson_cleans entries acc :
  Forall (fun entry : string * loc => entry.1 <> "") entries ->
  Forall (selfFree (fold_left cleanPerson entries acc).1) entries.
Proof.
  intros Hne. revert acc.
  induction Hne as [|entry rest He _ IH]; intros acc; [done|].
  simpl. constructor; [|apply IH].
  eapply selfFree_resets; [done|apply fold_cleanPerson_resets|].
  by apply cleanPerson_cleans.
Qed.

Lemma selfSpouseFix_resets h entry : resets h (selfSpouseFix h entry).
Proof.
  intros l. unfold selfSpouseFix. case_bool_decide; [|tauto].
  rewrite deref_insert. destruct (decide (entry.2 = l)) as [<-|]; [|tauto].
  simpl. tauto.
Qed.

Lemma fold_selfSpouseFix_resets entries h :
  resets h (fold_left selfSpouseFix entries h).
Proof.
  revert h. induction entries as [|entry rest IH]; intros h; simpl.
  - apply resets_refl.
  - eapply resets_trans; [apply selfSpouseFix_resets|apply IH].
Qed.

(** The claim that a second pass reports zero corrections fails on a
    record whose id is the empty string, as the store has it after
    loading a snapshot with such a person: [''] is also the value a
    cleared field gets, so every pass counts the three fields again. *)
Lemma cleanup_counts_empty_id_again :
  JS.Map_keys (personData emptyIdStore) = [""]
  /\ (cleanupInvalidRelationships emptyIdStore).1 = 3%nat
  /\ (cleanupInvalidRelationships (cleanupInvalidRelationships emptyIdStore).2).1
     = 3%nat.
Proof. by_evaluation. Qed.

(** C6, amended.  [cleanupInvalidRelationships] only resets relational
    ids to [''], after it no record has a [motherId], [fatherId] or
    [spouseId] equal to its own id, and a second run right after the
    first reports zero corrections and leaves the whole state, hence
    every record, unchanged; this for every store in which no id is the
    empty string. *)
Theorem cleanup_clears_and_is_idempotent (t : TreeCore) :
  Forall (fun id : string => id <> "") (JS.Map_keys (personData t)) ->
  resets (heap t) (heap (cleanupInvalidRelationships t).2)
  /\ Forall (selfFree (heap (cleanupInvalidRelationships t).2))
       (personData (cleanupInvalidRelationships t).2)
  /\ cleanupInvalidRelationships (cleanupInvalidRelationships t).2
     = (0%nat, (cleanupInvalidRelationships t).2).
Proof.
  intros Hids.
  assert (Hne : Forall (fun entry : string * loc => entry.1 <> "") (personData t)).
  { unfold JS.Map_keys in Hids. rewrite Forall_forall in Hids.
    apply Forall_forall. intros entry Hin. apply Hids.
    apply list_elem_of_fmap. by exists entry. }
  pose proof (fold_cleanPerson_cleans (personData t) (heap t, 0%nat) Hne) as Hclean.
  pose proof (fold_cleanPerson_resets (personData t) (heap t, 0%nat)) as Hfirst.
  assert (Hafter : personData (cleanupInvalidRelationships t).2 = personData t
                   /\ resets (fold_left cleanPerson (personData t) (heap t, 0%nat)).1
                        (heap (cleanupInvalidRelationships t).2)).
  { unfold cleanupInvalidRelationships.
    destruct (fold_left cleanPerson (personData t) (heap t, 0%nat)) as [h cleaned].
    simpl. case_bool_decide; simpl.
    - destruct (regenerateConnections_frame (with_heap h t)) as (-> & _).
      split; [done|]. rewrite regenerateConnections_heap. simpl.
      apply fold_selfSpouseFix_resets.
    - split; [done|apply resets_refl]. }
  destruct Hafter as [Hpd Hres].
  assert (Hfree : Forall (selfFree (heap (cleanupInvalidRelationships t).2))
                    (personData (cleanupInvalidRelationships t).2)).
  { rewrite Hpd. rewrite Forall_forall in Hclean, Hne |- *.
    intros entry Hin. eapply selfFree_resets; eauto. }
  split; [by eapply resets_trans|]. split; [done|].
  set (t1 := (cleanupInvalidRelationships t).2) in *.
  unfold cleanupInvalidRelationships at 1.
  rewrite fold_cleanPerson_selfFree by done.
  rewrite bool_decide_eq_false_2 by lia.
  by rewrite with_heap_id.
Qed.

Lemma cleanup_clears_and_is_idempotent_witness :
  resets (heap selfSpouse) (heap (cleanupInvalidRelationships selfSpouse).2)
  /\ Forall (selfFree (heap (cleanupInvalidRelationships selfSpouse).2))
       (personData (cleanupInvalidRelationships selfSpouse).2)
  /\ cleanupInvalidRelationships (cleanupInvalidRelationships selfSpouse).2
     = (0%nat, (cleanupInvalidRelationships selfSpouse).2).
Proof.
  apply (cleanup_clears_and_is_idempotent selfSpouse).
  apply (bool_decide_unpack _). by vm_compute.
Defined.

(** ** The undo stack *)

Lemma mostRecent_app {A} (n : nat) (l r : list A) :
  mostRecent n (mostRecent n l ++ r) = mostRecent n (l ++ r).
Proof.
  unfold mostRecent.
  destruct (decide (length l <= n)) as [Hle|Hgt].
  - replace (length l - n) with 0 by lia. by rewrite drop_0.
  - rewrite !length_app, length_drop.
    replace (length l - (length l - n) + length r - n) with (length r) by lia.
    replace (length l + length r - n) with ((length l - n) + length r) by lia.
    rewrite <- drop_drop. f_equal.
    rewrite drop_app_le by lia. done.
Qed.

Lemma mostRecent_length {A} (n : nat) (l : list A) :
  length (mostRecent n l) <= n.
Proof. unfold mostRecent. rewrite length_drop. lia. Qed.

Lemma pushUndoState_stack t :
  length (undoStack t) <= maxUndoSize t ->
  undoStack (pushUndoState t)
  = mostRecent (maxUndoSize t) (undoStack t ++ [snapshotOf t]).
Proof.
  intros Hle. unfold pushUndoState, mostRecent. simpl.
  rewrite length_app. simpl. case_bool_decide as Hover.
  - replace (length (undoStack t) + 1 - maxUndoSize t) with 1 by lia.
    by destruct (undoStack t ++ [snapshotOf t]).
  - replace (length (undoStack t) + 1 - maxUndoSize t) with 0 by lia.
    by rewrite drop_0.
Qed.

Lemma commitAll_stack edits t :
  Forall liveEdit edits ->
  length (undoStack t) <= maxUndoSize t ->
  maxUndoSize (commitAll edits t) = maxUndoSize t
  /\ undoStack (commitAll edits t)
     = mostRecent (maxUndoSize t) (undoStack t ++ snapshotsOf edits t).
Proof.
  intros Hedits. revert t.
  induction Hedits as [|edit rest Hedit _ IH]; intros t Hle; simpl.
  - split; [done|]. rewrite app_nil_r. unfold mostRecent.
    replace (length (undoStack t) - maxUndoSize t) with 0 by lia.
    by rewrite drop_0.
  - destruct (Hedit t) as [Hs Hm].
    assert (Hmax : maxUndoSize (commit t edit) = maxUndoSize t) by done.
    assert (Hst : undoStack (commit t edit)
                  = mostRecent (maxUndoSize t) (undoStack t ++ [snapshotOf (edit t)])).
    { unfold commit. rewrite pushUndoState_stack; rewrite Hs, Hm; [done|lia]. }
    destruct (IH (commit t edit)) as [IHm IHs].
    { rewrite Hst, Hmax. apply mostRecent_length. }
    split; [congruence|].
    rewrite IHs, Hmax, Hst, mostRecent_app. by rewrite <- app_assoc.
Qed.

(** C7.  Starting from an undo stack within the bound of 50 (the one
    the constructor sets), any run of committed mutations keeps the undo
    stack at 50 entries or fewer, and the stack is always the 50 most
    recent snapshots: an overflowing push drops the oldest entry.  After
    more than 50 pushes these are 50 of the snapshots pushed. *)
Theorem undo_stack_bounded (t : TreeCore) (edits : list (TreeCore -> TreeCore)) :
  maxUndoSize t = 50 ->
  length (undoStack t) <= 50 ->
  Forall liveEdit edits ->
  length (undoStack (commitAll edits t)) <= 50
  /\ undoStack (commitAll edits t)
     = mostRecent 50 (undoStack t ++ snapshotsOf edits t)
  /\ (50 < length edits ->
      undoStack (commitAll edits t) = mostRecent 50 (snapshotsOf edits t)
      /\ length (undoStack (commitAll edits t)) = 50).
Proof.
  intros Hmax Hle Hedits.
  destruct (commitAll_stack edits t Hedits) as [_ Hst]; [lia|].
  rewrite Hmax in Hst. rewrite Hst.
  split; [apply mostRecent_length|]. split; [done|].
  intros Hlong.
  assert (Hlen : length (snapshotsOf edits t) = length edits).
  { clear. revert t. induction edits as [|e rest IH]; intros t; simpl; auto. }
  unfold mostRecent. rewrite length_app, length_drop, length_app, Hlen.
  split; [|lia].
  replace (length (undoStack t) + length edits - 50)
    with (length (undoStack t) + (length edits - 50)) by lia.
  rewrite <- drop_drop. by rewrite drop_app_length.
Qed.

Lemma takeId_liveEdit : liveEdit takeId.
Proof. by intros t. Qed.

Lemma undo_stack_bounded_witness :
  length (undoStack (commitAll (replicate 60 takeId) (initialTreeCore emptyStorage)))
  <= 50
  /\ undoStack (commitAll (replicate 60 takeId) (initialTreeCore emptyStorage))
     = mostRecent 50
         (undoStack (initialTreeCore emptyStorage)
          ++ snapshotsOf (replicate 60 takeId) (initialTreeCore emptyStorage))
  /\ (50 < length (replicate 60 takeId) ->
      undoStack (commitAll (replicate 60 takeId) (initialTreeCore emptyStorage))
      = mostRecent 50
          (snapshotsOf (replicate 60 takeId) (initialTreeCore emptyStorage))
      /\ length (undoStack (commitAll (replicate 60 takeId)
                              (initialTreeCore emptyStorage))) = 50).
Proof.
  apply (undo_stack_bounded (initialTreeCore emptyStorage) (replicate 60 takeId)).
  - reflexivity.
  - simpl. lia.
  - apply Forall_replicate, takeId_liveEdit.
Defined.

(** ** Snapshots and the live records *)


(** C8.  The snapshot is not a deep copy: its [personData] is a new map
    over the same record objects.  The snapshot pushed before the spouse
    connection of [p1] and [p2] is still the first entry of the undo
    stack afterwards, and read back it now gives [p1] the spouse [p2]
    and [p2] the spouse [p1], which neither had at the push. *)
Theorem snapshot_shares_person_records :
  undoStack atPush = [snapshotOf atPush]
  /\ head (undoStack afterConnect) = Some (snapshotOf atPush)
  /\ snapshotRecords (heap atPush) (snapshotOf atPush)
     = personDataEntries atPush
  /\ (spouseId <$> JS.Map_get (snapshotRecords (heap atPush) (snapshotOf atPush)) "p1")
     = Some (Some "")
  /\ (spouseId <$> JS.Map_get (snapshotRecords (heap afterConnect) (snapshotOf atPush)) "p1")
     = Some (Some "p2")
  /\ snapshotRecords (heap afterConnect) (snapshotOf atPush)
     <> snapshotRecords (heap atPush) (snapshotOf atPush).
Proof.
  by_evaluation.
Qed.

(** ** Saving and loading *)

(** C2.  For the tree of five persons with one spouse pair and one
    parent-child edge, the snapshot built by [getCurrentState], loaded
    by [processLoadedData] into the store cleared by [confirmClearAll],
    gives back the same person ids, the same [motherId], [fatherId] and
    [spouseId] of each, and the same position of each node.  The sizes
    of the stored texts and the two clock readings are arbitrary. *)
Theorem round_trip_family_of_five (blobSize : Stored -> N) (now later : N) :
  let saved := getCurrentState now familyOfFive in
  let loaded :=
    (processLoadedData blobSize later (loadedOfState saved)
       (confirmClearAll familyOfFive)).2 in
  JS.Map_keys (personData loaded) = ["p1"; "p2"; "p3"; "p4"; "p5"]
  /\ JS.Map_keys (personData loaded) = JS.Map_keys (personData familyOfFive)
  /\ relations loaded = relations familyOfFive
  /\ positions loaded = positions familyOfFive
  /\ connections (renderer loaded) = connections (renderer familyOfFive).
Proof. by_evaluation. Qed.

(** The same through the storage: the tree saved by [saveToCache] and
    loaded by [loadCachedState] in a new controller over that storage,
    whether the text was over the size limit or not. *)
Lemma save_then_load_family_of_five (blobSize : Stored -> N) (now later : N) :
  let storage := localStorage (saveToCache blobSize now familyOfFive).2 in
  let outcome := loadCachedState blobSize later (initialTreeCore storage) in
  (saveToCache blobSize now familyOfFive).1 = true
  /\ returned outcome = true
  /\ relations (after outcome) = relations familyOfFive
  /\ positions (after outcome) = positions familyOfFive.
Proof.
  unfold saveToCache, saveToCache_storage.
  destruct (5 * 1024 * 1024 <? blobSize (EnhancedJSON (getCurrentState now familyOfFive)))%N;
    by_evaluation.
Qed.

(** The tree of the round trip: one spouse pair, one parent-child edge. *)
Lemma familyOfFive_shape :
  relations familyOfFive
  = [("p1", (Some "", Some "", Some "p2"));
     ("p2", (Some "", Some "", Some "p1"));
     ("p3", (Some "p1", Some "", Some ""));
     ("p4", (Some "", Some "", Some ""));
     ("p5", (Some "", Some "", Some ""))]
  /\ positions familyOfFive
     = [("p1", (400, 300)%Z); ("p2", (600, 300)%Z); ("p3", (500, 500)%Z);
        ("p4", (0, 0)%Z); ("p5", (-120, 40)%Z)]
  /\ connections (renderer familyOfFive)
     = [{| conn_from := "p1"; conn_to := "p2"; conn_type := spouse |};
        {| conn_from := "p3"; conn_to := "p1"; conn_type := parent |}].
Proof. by_evaluation. Qed.

(** ** Loading an unrecognised snapshot *)

(** What [loadCachedState] does with a parsed object that has neither a
    version nor persons: the state is left as it is, and the outcome is
    a success exactly when the object has a [people] property. *)
Lemma loadCachedState_unrecognized (blobSize : Stored -> N) (now : N)
    (t : TreeCore) (text : Stored) (d : LoadedData) :
  getItem CacheKey (localStorage t) = Some text ->
  JSON_parse text = ParsedObject d ->
  JS.truthy (ld_version d) = false ->
  ld_persons d = None ->
  after (loadCachedState blobSize now t) = t
  /\ returned (loadCachedState blobSize now t) = bool_decide (is_Some (ld_people d))
  /\ notified (loadCachedState blobSize now t)
     = if bool_decide (is_Some (ld_people d))
       then [success "Progress Restored" "Your previous work has been restored"]
       else [].
Proof.
  intros Hget Hparse Hv Hp. unfold loadCachedState. rewrite Hget.
  destruct text as [s|c|d0| | |]; simpl in Hparse; try discriminate Hparse;
    injection Hparse as <-; try discriminate Hp.
  simpl. rewrite Hv, Hp. simpl.
  by destruct (bool_decide (is_Some (ld_people d0))).
Qed.

(** C3.  The claim fails on a cached snapshot that has a [people]
    property and neither [version] nor [persons]: [loadCachedState]
    leaves the state unchanged, yet it shows the success notification
    and resolves to [true].  And [processLoadedData] itself, given an
    object with none of the three properties, does not turn it down: it
    empties the store and the nodes. *)
Theorem unrecognized_snapshot_reported_as_success (blobSize : Stored -> N) (now : N) :
  JS.truthy (ld_version peopleOnly) = false
  /\ ld_persons peopleOnly = None
  /\ after (loadCachedState blobSize now withForeignCache) = withForeignCache
  /\ returned (loadCachedState blobSize now withForeignCache) = true
  /\ notified (loadCachedState blobSize now withForeignCache)
     = [success "Progress Restored" "Your previous work has been restored"]
  /\ (processLoadedData blobSize now emptyData familyOfFive).1 = true
  /\ personData (processLoadedData blobSize now emptyData familyOfFive).2 = []
  /\ nodes (renderer (processLoadedData blobSize now emptyData familyOfFive).2) = [].
Proof. by_evaluation. Qed.

(** ** Saving a state over the size limit *)

Lemma getItem_putItem_same key text l :
  getItem key {| items := putItem key text l; quota := None |} = Some text.
Proof.
  unfold getItem. simpl. induction l as [|item rest IH]; simpl.
  - by rewrite bool_decide_eq_true_2.
  - case_bool_decide as E; simpl.
    + by rewrite bool_decide_eq_true_2.
    + by rewrite bool_decide_eq_false_2.
Qed.

Lemma find_putItem_other key key' text l :
  key <> key' ->
  List.find (fun item : StorageKey * Stored => bool_decide (item.1 = key'))
    (putItem key text l)
  = List.find (fun item : StorageKey * Stored => bool_decide (item.1 = key')) l.
Proof.
  intros Hne. induction l as [|item rest IH]; simpl.
  - by rewrite bool_decide_eq_false_2.
  - case_bool_decide as E; simpl.
    + rewrite bool_decide_eq_false_2 by done.
      rewrite bool_decide_eq_false_2 by congruence. done.
    + case_bool_decide; [done|apply IH].
Qed.

Lemma getItem_removeItem_other key key' s :
  key <> key' -> getItem key' (removeItem key s) = getItem key' s.
Proof.
  intros Hne. unfold getItem, removeItem. simpl. f_equal.
  induction (items s) as [|item rest IH]; simpl; [done|].
  case_bool_decide as E; simpl.
  - rewrite IH. by rewrite bool_decide_eq_false_2 by congruence.
  - case_bool_decide; [done|apply IH].
Qed.

Lemma getItem_cleanOldBackups s :
  getItem CacheKey (cleanOldBackups s) = getItem CacheKey s.
Proof.
  unfold cleanOldBackups.
  generalize (drop 3 (merge_sort newerFirst
    (omap (fun item : StorageKey * Stored =>
             match item.1 with
             | BackupKey timestamp => Some timestamp
             | _ => None
             end) (items s)))).
  intros old. revert s. induction old as [|ts rest IH]; intros s; simpl; [done|].
  rewrite IH. by apply getItem_removeItem_other.
Qed.

Lemma usedBytes_putItem (blobSize : Stored -> N) key text l :
  (blobSize text <= usedBytes blobSize (putItem key text l))%N.
Proof.
  induction l as [|item rest IH]; simpl; [lia|].
  case_bool_decide; simpl; lia.
Qed.

(** With a storage that never refuses a write the fall-back works: the
    save of an oversized state returns [true] and leaves the compressed
    state under the primary key. *)
Lemma save_over_threshold_unbounded (blobSize : Stored -> N) (now : N) (t : TreeCore) :
  (fiveMegabytes < blobSize (EnhancedJSON (getCurrentState now t)))%N ->
  quota (localStorage t) = None ->
  (saveToCache blobSize now t).1 = true
  /\ getItem CacheKey (localStorage (saveToCache blobSize now t).2)
     = Some (CompressedJSON (getCompressedState now t)).
Proof.
  intros Hbig Hq. unfold saveToCache, saveToCache_storage, setItem. simpl.
  rewrite Hq. simpl. fold fiveMegabytes.
  apply N.ltb_lt in Hbig. rewrite Hbig. simpl.
  split; [done|].
  rewrite getItem_cleanOldBackups. unfold getItem. simpl.
  rewrite find_putItem_other by done.
  apply (getItem_putItem_same CacheKey).
Qed.

(** What the compressed state carries: the counter, the two suppression
    sets, and for every node its id, its position and the record of the
    store, relational ids included; no settings, display preferences,
    node style or camera. *)
Lemma compressed_state_carries_graph (now : N) (t : TreeCore) :
  cs_nextId (getCompressedState now t) = nextId t
  /\ cs_hiddenConnections (getCompressedState now t) = hiddenConnections t
  /\ cs_lineOnlyConnections (getCompressedState now t) = lineOnlyConnections t
  /\ map (fun p => (cp_x p, cp_y p)) (cs_persons (getCompressedState now t))
     = map (fun entry : string * Node => (node_x entry.2, node_y entry.2))
         (nodes (renderer t))
  /\ map cp_data (cs_persons (getCompressedState now t))
     = map (fun entry : string * Node => recordOf t entry.1) (nodes (renderer t))
  /\ cs_personData (getCompressedState now t) = personDataEntries t
  /\ ld_settings (loadedOfCompressed (getCompressedState now t)) = None
  /\ ld_displayPreferences (loadedOfCompressed (getCompressedState now t)) = None
  /\ ld_nodeStyle (loadedOfCompressed (getCompressedState now t)) = None
  /\ ld_camera (loadedOfCompressed (getCompressedState now t)) = None.
Proof.
  repeat split; simpl; unfold getPersonsArray; by rewrite ?map_map.
Qed.

(** The compressed state of the tree of five loads back to the same
    relations and positions. *)
Lemma compressed_round_trip_family_of_five (blobSize : Stored -> N) (now later : N) :
  let loaded :=
    (processLoadedData blobSize later
       (loadedOfCompressed (getCompressedState now familyOfFive))
       (confirmClearAll familyOfFive)).2 in
  relations loaded = relations familyOfFive
  /\ positions loaded = positions familyOfFive
  /\ connections (renderer loaded) = connections (renderer familyOfFive).
Proof. by_evaluation. Qed.

(** C10.  The claim fails where the browser enforces the five megabytes
    the method checks against: after the primary write the method still
    writes the full text, the one it found too large, under the backup
    key; the browser refuses it and the save returns [false].  When the
    compressed state was accepted, it is what the primary key holds and
    no backup was written. *)
Theorem save_over_threshold_fails_at_quota (blobSize : Stored -> N) (now : N)
    (t : TreeCore) :
  (fiveMegabytes < blobSize (EnhancedJSON (getCurrentState now t)))%N ->
  quota (localStorage t) = Some fiveMegabytes ->
  (saveToCache blobSize now t).1 = false
  /\ (forall s1,
        setItem blobSize CacheKey (CompressedJSON (getCompressedState now t))
          (localStorage t) = Some s1 ->
        localStorage (saveToCache blobSize now t).2 = s1).
Proof.
  intros Hbig Hq. unfold saveToCache, saveToCache_storage. simpl.
  fold fiveMegabytes. pose proof Hbig as Hbig'.
  apply N.ltb_lt in Hbig'. rewrite Hbig'.
  destruct (setItem blobSize CacheKey _ (localStorage t)) as [s1|] eqn:E1.
  - assert (Hq1 : quota s1 = Some fiveMegabytes).
    { unfold setItem in E1. rewrite Hq in E1. revert E1.
      case (_ <? _)%N; [done|]. by intros [= <-]. }
    assert (E2 : setItem blobSize (BackupKey now)
                   (EnhancedJSON (getCurrentState now t)) s1 = None).
    { unfold setItem. rewrite Hq1.
      pose proof (usedBytes_putItem blobSize (BackupKey now)
                    (EnhancedJSON (getCurrentState now t)) (items s1)) as Hused.
      assert (Hlt : (fiveMegabytes <? usedBytes blobSize
                       (putItem (BackupKey now)
                          (EnhancedJSON (getCurrentState now t)) (items s1)))%N
                    = true) by (apply N.ltb_lt; lia).
      by rewrite Hlt. }
    rewrite E2. simpl. split; [done|]. by intros s [= <-].
  - simpl. split; [done|]. by intros s.
Qed.

Lemma save_over_threshold_fails_at_quota_witness :
  (saveToCache sizeModel 1720000000000 withQuota).1 = false
  /\ (forall s1,
        setItem sizeModel CacheKey
          (CompressedJSON (getCompressedState 1720000000000 withQuota))
          (localStorage withQuota) = Some s1 ->
        localStorage (saveToCache sizeModel 1720000000000 withQuota).2 = s1).
Proof.
  apply (save_over_threshold_fails_at_quota sizeModel 1720000000000 withQuota).
  - by vm_compute.
  - reflexivity.
Defined.

(** * Further properties of the code *)

(** ** Connection derivation *)

Lemma elem_of_edgeUnlessHidden_iff hidden nds a b ty e :
  e ∈ edgeUnlessHidden hidden nds a b ty
  <-> e = edge a b ty
      /\ JS.Set_has hidden (getConnectionKey a b) = false
      /\ JS.Map_has nds a = true /\ JS.Map_has nds b = true.
Proof.
  split; [apply elem_of_edgeUnlessHidden|].
  intros (-> & Hh & Ha & Hb). unfold edgeUnlessHidden.
  rewrite Hh, Ha, Hb. simpl. apply list_elem_of_singleton. reflexivity.
Qed.

Lemma elem_of_if_truthy_iff {A} (o : option string) (k : string -> list A) x :
  x ∈ JS.if_truthy o k [] <-> exists s, o = Some s /\ s <> "" /\ x ∈ k s.
Proof.
  split; [apply elem_of_if_truthy|].
  intros (s & -> & Hs & Hx). unfold JS.if_truthy.
  destruct (String.eqb_spec s ""); [done|exact Hx].
Qed.

(** The parent edges one record contributes. *)
Lemma parent_in_personEdges hidden nds k r c p :
  edge c p parent ∈ personEdges hidden nds k r
  <-> c = k
      /\ (motherId r = Some p \/ fatherId r = Some p)
      /\ p <> ""
      /\ JS.Set_has hidden (getConnectionKey c p) = false
      /\ JS.Map_has nds c = true /\ JS.Map_has nds p = true.
Proof.
  unfold personEdges. rewrite !elem_of_app, !elem_of_if_truthy_iff. split.
  - intros [(s & Hs & Hne & He)|[(s & Hs & Hne & He)|(s & Hs & Hne & He)]].
    + apply elem_of_edgeUnlessHidden_iff in He as ([= -> ->] & ? & ? & ?).
      repeat split; auto.
    + apply elem_of_edgeUnlessHidden_iff in He as ([= -> ->] & ? & ? & ?).
      repeat split; auto.
    + unfold spouseEdge in He.
      destruct (negb (bool_decide (s = k)) && JS.lt k s); [|by apply elem_of_nil in He].
      by apply elem_of_edgeUnlessHidden_iff in He as ([=] & _).
  - intros (-> & [Hm|Hf] & Hne & Hh & Hc & Hp).
    + left. exists p. repeat split; auto.
      apply elem_of_edgeUnlessHidden_iff. repeat split; auto.
    + right. left. exists p. repeat split; auto.
      apply elem_of_edgeUnlessHidden_iff. repeat split; auto.
Qed.

(** The reset of a self-spouse record leaves the parents of every
    record as they are. *)
Lemma selfSpouseFix_parents h entry l :
  motherId (deref (selfSpouseFix h entry) l) = motherId (deref h l)
  /\ fatherId (deref (selfSpouseFix h entry) l) = fatherId (deref h l).
Proof.
  unfold selfSpouseFix. case_bool_decide; [|done].
  rewrite deref_insert. destruct (decide (entry.2 = l)) as [->|]; done.
Qed.

Lemma parent_in_relationEdges hidden nds entries h c p :
  edge c p parent ∈ relationEdges hidden nds entries h
  <-> (exists l, (c, l) ∈ entries
         /\ (motherId (deref h l) = Some p \/ fatherId (deref h l) = Some p))
      /\ p <> ""
      /\ JS.Set_has hidden (getConnectionKey c p) = false
      /\ JS.Map_has nds c = true /\ JS.Map_has nds p = true.
Proof.
  revert h. induction entries as [|[k l0] rest IH]; intros h.
  - simpl. rewrite elem_of_nil. split; [done|].
    intros ((l & Hin & _) & _). by apply elem_of_nil in Hin.
  - cbn [relationEdges fst snd]. rewrite elem_of_app, parent_in_personEdges, IH.
    split.
    + intros [(-> & Hr & ? & ? & ? & ?)|((l & Hin & Hr) & ? & ? & ? & ?)].
      * split; [|done]. exists l0. split; [apply list_elem_of_here|done].
      * split; [|done]. exists l. split; [by apply list_elem_of_further|].
        destruct (selfSpouseFix_parents h (k, l0) l) as [<- <-]. exact Hr.
    + intros ((l & Hin & Hr) & ? & ? & ? & ?).
      apply elem_of_cons in Hin as [[= -> ->]|Hin].
      * left. done.
      * right. split; [|done]. exists l. split; [done|].
        destruct (selfSpouseFix_parents h (k, l0) l) as [-> ->]. exact Hr.
Qed.

Lemma not_parent_in_lineOnly hidden nds keys c p :
  edge c p parent ∉ flat_map (lineOnlyEdge hidden nds) keys.
Proof.
  intros Hin. apply list_elem_of_In, in_flat_map in Hin as (key & _ & Hin).
  apply list_elem_of_In, elem_of_lineOnlyEdge in Hin as (Hty & _). discriminate.
Qed.

Lemma parent_edge_drawn_iff (t : TreeCore) (c p : string) :
  edge c p parent ∈ connections (renderer (regenerateConnections t))
  <-> (exists l, (c, l) ∈ personData t
         /\ (motherId (deref (heap t) l) = Some p
             \/ fatherId (deref (heap t) l) = Some p))
      /\ p <> ""
      /\ JS.Set_has (hiddenConnections t) (getConnectionKey c p) = false
      /\ JS.Map_has (nodes (renderer t)) c = true
      /\ JS.Map_has (nodes (renderer t)) p = true.
Proof.
  rewrite regenerateConnections_connections.
  destruct (personData t) as [|entry rest] eqn:E.
  - rewrite elem_of_nil. split; [done|].
    intros ((l & Hin & _) & _). by apply elem_of_nil in Hin.
  - rewrite elem_of_app, parent_in_relationEdges. split.
    + intros [H|H]; [exact H|]. by apply not_parent_in_lineOnly in H.
    + intros H. by left.
Qed.

(** X1.  A parent edge from [c] to [p] is drawn exactly when a record
    of [c] names [p] as mother or father, [p] is not the empty id, the
    pair is not hidden and both nodes exist. *)
Theorem parent_edges_of_records (t : TreeCore) (c p : string) :
  edge c p parent ∈ connections (renderer (regenerateConnections t))
  <-> (exists l, (c, l) ∈ personData t
         /\ (motherId (deref (heap t) l) = Some p
             \/ fatherId (deref (heap t) l) = Some p))
      /\ p <> ""
      /\ JS.Set_has (hiddenConnections t) (getConnectionKey c p) = false
      /\ JS.Map_has (nodes (renderer t)) c = true
      /\ JS.Map_has (nodes (renderer t)) p = true.
Proof. apply parent_edge_drawn_iff. Qed.

Lemma elem_of_regenerated t e :
  e ∈ connections (renderer (regenerateConnections t)) ->
  (exists k p, e ∈ personEdges (hiddenConnections t) (nodes (renderer t)) k p)
  \/ (exists key, key ∈ lineOnlyConnections t
        /\ e ∈ lineOnlyEdge (hiddenConnections t) (nodes (renderer t)) key).
Proof.
  rewrite regenerateConnections_connections.
  destruct (personData t) as [|entry rest]; [by intros ?%elem_of_nil|].
  intros [H|H]%elem_of_app.
  - left. by apply elem_of_relationEdges in H.
  - right. apply list_elem_of_In, in_flat_map in H as (key & Hk & H).
    exists key. by rewrite <- !list_elem_of_In in *.
Qed.

(** X2.  Every edge the derivation leaves joins two existing nodes: a
    relational id or a line-only key that names no node is skipped, it
    raises no error and draws nothing. *)
Theorem derived_edges_join_existing_nodes (t : TreeCore) :
  Forall (fun e =>
            is_Some (JS.Map_get (nodes (renderer (regenerateConnections t)))
                       (conn_from e))
            /\ is_Some (JS.Map_get (nodes (renderer (regenerateConnections t)))
                          (conn_to e)))
    (connections (renderer (regenerateConnections t))).
Proof.
  apply Forall_forall. intros e He.
  destruct (regenerateConnections_frame t) as (_ & _ & _ & -> & _).
  rewrite <- !Map_has_is_Some.
  apply elem_of_regenerated in He as [(k & p & He)|(key & _ & He)].
  - apply elem_of_personEdges in He as (-> & _ & ? & ? & _). done.
  - apply elem_of_lineOnlyEdge in He as (_ & _ & ? & ? & _). done.
Qed.

(** X3.  A spouse edge always runs from the id that sorts first to the
    other: no spouse edge joins a person to itself, and no pair gets
    spouse edges in both directions. *)
Theorem spouse_edges_run_from_smaller_id (t : TreeCore) :
  Forall (fun e =>
            conn_type e = spouse ->
            JS.lt (conn_from e) (conn_to e) = true
            /\ conn_from e <> conn_to e
            /\ (edge (conn_to e) (conn_from e) spouse
                ∉ connections (renderer (regenerateConnections t))))
    (connections (renderer (regenerateConnections t))).
Proof.
  assert (Hlt : forall e, e ∈ connections (renderer (regenerateConnections t)) ->
                          conn_type e = spouse ->
                          JS.lt (conn_from e) (conn_to e) = true).
  { intros e He Hty.
    apply elem_of_regenerated in He as [(k & p & He)|(key & _ & He)].
    - apply elem_of_personEdges in He as (-> & _ & _ & _ & [[Hp _]|(_ & _ & _ & H)]).
      + congruence.
      + exact H.
    - apply elem_of_lineOnlyEdge in He as (Hlo & _). congruence. }
  apply Forall_forall. intros e He Hty. pose proof (Hlt e He Hty) as H.
  split; [exact H|split].
  - intros Heq. rewrite Heq, lt_irrefl in H. discriminate.
  - intros Hrev. apply Hlt in Hrev; [|reflexivity]. simpl in Hrev.
    apply lt_asym in H. congruence.
Qed.

(** *** Stores without shared records *)

Lemma flat_map_ext_elem {A B} (f g : A -> list B) (l : list A) :
  (forall x, x ∈ l -> f x = g x) -> flat_map f l = flat_map g l.
Proof.
  induction l as [|x l IH]; intros H; [done|]. simpl.
  rewrite (H x) by apply list_elem_of_here. f_equal.
  apply IH. intros y Hy. by apply H, list_elem_of_further.
Qed.

Lemma selfSpouseFix_lookup_other h entry l :
  entry.2 <> l -> selfSpouseFix h entry !! l = h !! l.
Proof.
  intros Hne. unfold selfSpouseFix. case_bool_decide; [|done].
  by rewrite lookup_insert_ne.
Qed.

Lemma fold_selfSpouseFix_lookup_other entries h l :
  l ∉ entries.*2 -> fold_left selfSpouseFix entries h !! l = h !! l.
Proof.
  revert h. induction entries as [|entry rest IH]; intros h Hl; [done|].
  rewrite fmap_cons in Hl. apply not_elem_of_cons in Hl as [Hne Hl].
  simpl. rewrite IH by done. apply selfSpouseFix_lookup_other. congruence.
Qed.

Lemma fold_selfSpouseFix_lookup entries h k l :
  NoDup entries.*2 -> (k, l) ∈ entries ->
  fold_left selfSpouseFix entries h !! l
  = if bool_decide (spouseId (deref h l) = Some k)
    then Some (set_spouseId "" (deref h l)) else h !! l.
Proof.
  revert h. induction entries as [|entry rest IH]; intros h Hnd Hin.
  - by apply elem_of_nil in Hin.
  - rewrite fmap_cons in Hnd. apply NoDup_cons in Hnd as [Hfresh Hnd].
    apply elem_of_cons in Hin as [<-|Hin]; simpl.
    + rewrite fold_selfSpouseFix_lookup_other by done.
      unfold selfSpouseFix. simpl. case_bool_decide; [|done].
      by rewrite lookup_insert_eq.
    + assert (entry.2 <> l) as Hne.
      { intros <-. apply Hfresh. apply list_elem_of_fmap. by exists (k, entry.2). }
      rewrite IH by done. unfold deref.
      by rewrite selfSpouseFix_lookup_other.
Qed.

Lemma relationEdges_unshared hidden nds entries h :
  NoDup entries.*2 ->
  relationEdges hidden nds entries h = recordEdges hidden nds entries h.
Proof.
  revert h. induction entries as [|entry rest IH]; intros h Hnd; [done|].
  rewrite fmap_cons in Hnd. apply NoDup_cons in Hnd as [Hfresh Hnd].
  cbn [relationEdges]. unfold recordEdges in *. cbn [flat_map]. f_equal.
  rewrite IH by done. apply flat_map_ext_elem. intros x Hx. f_equal.
  unfold deref. rewrite selfSpouseFix_lookup_other; [done|].
  intros Heq. apply Hfresh. rewrite Heq.
  apply list_elem_of_fmap. by exists x.
Qed.

(** Resetting the [spouseId] of a record that names itself changes none
    of the edges the record gives. *)
Lemma personEdges_self_reset hidden nds k r :
  spouseId r = Some k ->
  personEdges hidden nds k (set_spouseId "" r) = personEdges hidden nds k r.
Proof.
  intros Hs. unfold personEdges. simpl. rewrite Hs. do 2 f_equal.
  unfold JS.if_truthy, spouseEdge. destruct (String.eqb k ""); [done|].
  by rewrite bool_decide_eq_true_2.
Qed.

Lemma needsRedraw_regenerateConnections t :
  needsRedraw (renderer (regenerateConnections t))
  = match personData t with
    | [] => needsRedraw (renderer t)
    | _ :: _ => true
    end.
Proof. unfold regenerateConnections. simpl. by destruct (personData t). Qed.

(** X4.  On a store in which no record is shared between two ids, the
    derivation is idempotent: a second run right after the first leaves
    the same edges, the same records and the same state. *)
Theorem regenerateConnections_idempotent (t : TreeCore) :
  NoDup (personData t).*2 ->
  regenerateConnections (regenerateConnections t) = regenerateConnections t.
Proof.
  intros Hnd. set (t' := regenerateConnections t).
  destruct (regenerateConnections_frame t) as (Hpd & Hhid & Hlo & Hnds & _).
  fold t' in Hpd, Hhid, Hlo, Hnds.
  assert (Hrec : forall k l, (k, l) ∈ personData t ->
            heap t' !! l
            = if bool_decide (spouseId (deref (heap t) l) = Some k)
              then Some (set_spouseId "" (deref (heap t) l)) else heap t !! l).
  { intros k l Hin. unfold t'. rewrite regenerateConnections_heap.
    by apply fold_selfSpouseFix_lookup. }
  assert (Hheap : heap (regenerateConnections t') = heap t').
  { rewrite regenerateConnections_heap, Hpd.
    assert (Hall : forall entries,
              (forall x, x ∈ entries -> x ∈ personData t) ->
              fold_left selfSpouseFix entries (heap t') = heap t').
    { induction entries as [|[k l] rest IH]; intros Hsub; [done|].
      simpl. assert (selfSpouseFix (heap t') (k, l) = heap t') as ->.
      { pose proof (Hrec k l (Hsub _ (list_elem_of_here _ _))) as Hl.
        unfold selfSpouseFix, deref. simpl. rewrite Hl.
        destruct (decide (spouseId (deref (heap t) l) = Some k)) as [Hs|Hs].
        - rewrite (bool_decide_eq_true_2 _ Hs). simpl.
          case_bool_decide as H2; [|done]. clear H2.
          case_bool_decide as H2; [|done]. injection H2 as <-.
          apply insert_id. by rewrite Hl, set_spouseId_twice.
        - rewrite (bool_decide_eq_false_2 _ Hs). fold (deref (heap t) l).
          by rewrite (bool_decide_eq_false_2 _ Hs). }
      apply IH. intros x Hx. by apply Hsub, list_elem_of_further. }
    by apply Hall. }
  assert (Hconn : connections (renderer (regenerateConnections t'))
                  = connections (renderer t')).
  { rewrite (regenerateConnections_connections t'), Hpd, Hhid, Hlo, Hnds.
    change (connections (renderer t'))
      with (connections (renderer (regenerateConnections t))).
    rewrite (regenerateConnections_connections t).
    destruct (personData t) as [|entry rest] eqn:E; [done|]. f_equal.
    rewrite !relationEdges_unshared by done.
    apply flat_map_ext_elem. intros [k l] Hx. simpl.
    unfold deref at 1. rewrite (Hrec k l) by done.
    case_bool_decide as H1; simpl; [|done].
    by apply personEdges_self_reset. }
  assert (Hdraw : needsRedraw (renderer (regenerateConnections t'))
                  = needsRedraw (renderer t')).
  { rewrite (needsRedraw_regenerateConnections t'), Hpd.
    destruct (personData t) eqn:E; [done|].
    unfold t'. by rewrite needsRedraw_regenerateConnections, E. }
  rewrite (regenerateConnections_only t'), Hheap, Hconn, Hdraw.
  by destruct t' as [[] ?].
Qed.

Lemma regenerateConnections_idempotent_witness :
  regenerateConnections (regenerateConnections selfSpouse)
  = regenerateConnections selfSpouse.
Proof.
  apply (regenerateConnections_idempotent selfSpouse).
  apply (bool_decide_unpack (NoDup (personData selfSpouse).*2)). by vm_compute.
Defined.

(** ** Pair keys *)

Lemma split_dashFree a : dashFree a -> JS.split "-" a = [a].
Proof.
  unfold dashFree. induction a as [|c a IH]; [done|].
  cbn [includes JS.split append].
  rewrite (Ascii.eqb_sym "-" c). destruct (Ascii.eqb c "-"); [done|].
  cbn [orb]. intros H. by rewrite IH.
Qed.

Lemma split_dashFree_app a b :
  dashFree a -> JS.split "-" (a +:+ "-" +:+ b) = a :: JS.split "-" b.
Proof.
  change ("-" +:+ b) with (String "-" b).
  unfold dashFree. induction a as [|c a IH]; [done|].
  change (String c a +:+ String "-" b) with (String c (a +:+ String "-" b)).
  cbn [includes JS.split].
  rewrite (Ascii.eqb_sym "-" c). destruct (Ascii.eqb c "-"); [done|].
  cbn [orb]. intros H. by rewrite IH.
Qed.

Lemma keyIds_dashFree a b :
  dashFree a -> dashFree b -> keyIds (a +:+ "-" +:+ b) = Some (a, b).
Proof.
  intros Ha Hb. unfold keyIds.
  by rewrite split_dashFree_app, split_dashFree.
Qed.

Lemma keyIds_getConnectionKey a b :
  dashFree a -> dashFree b -> keyIds (getConnectionKey a b) = Some (ordered a b).
Proof.
  intros Ha Hb. unfold getConnectionKey, ordered.
  destruct (JS.lt a b); by apply keyIds_dashFree.
Qed.

(** X5.  The pair key does not depend on the order of its two ids, and
    for ids without [-] it identifies the pair: splitting the key gives
    the two ids back, smaller first, and two pairs with the same key are
    the same pair. *)
Theorem connection_key_identifies_pair (a b : string) :
  dashFree a -> dashFree b ->
  getConnectionKey a b = getConnectionKey b a
  /\ keyIds (getConnectionKey a b) = Some (ordered a b)
  /\ forall c d, dashFree c -> dashFree d ->
       getConnectionKey c d = getConnectionKey a b ->
       (c = a /\ d = b) \/ (c = b /\ d = a).
Proof.
  intros Ha Hb. split; [apply getConnectionKey_sym|].
  split; [by apply keyIds_getConnectionKey|].
  intros c d Hc Hd Heq.
  pose proof (keyIds_getConnectionKey c d Hc Hd) as H1.
  rewrite Heq, keyIds_getConnectionKey in H1 by done.
  unfold ordered in H1.
  destruct (JS.lt a b), (JS.lt c d); injection H1 as -> ->; auto.
Qed.

Lemma connection_key_identifies_pair_witness :
  getConnectionKey "p2" "p10" = getConnectionKey "p10" "p2"
  /\ keyIds (getConnectionKey "p2" "p10") = Some (ordered "p2" "p10")
  /\ forall c d, dashFree c -> dashFree d ->
       getConnectionKey c d = getConnectionKey "p2" "p10" ->
       (c = "p2" /\ d = "p10") \/ (c = "p10" /\ d = "p2").
Proof. apply (connection_key_identifies_pair "p2" "p10"); reflexivity. Defined.

(** Ids that contain the separator can share a key. *)
Example connection_key_of_dashed_ids :
  getConnectionKey "a-b" "c" = getConnectionKey "a" "b-c".
Proof. reflexivity. Qed.

(** ** Browser storage *)

#[local] Instance newerFirst_trans : Transitive newerFirst.
Proof. intros a b c. unfold newerFirst. lia. Qed.

#[local] Instance newerFirst_total : Total newerFirst.
Proof. intros a b. unfold newerFirst. lia. Qed.












Example cleanOldBackups_five :
  items (cleanOldBackups fiveBackups)
  = [(BackupKey 30, CorruptText); (CacheKey, NullJSON);
     (BackupKey 50, CorruptText); (OtherKey "theme", CorruptText);
     (BackupKey 40, CorruptText)].
Proof. by vm_compute. Qed.












Example save_over_five_backups :
  backupTimestamps (localStorage (saveToCache sizeModel 60 withBackups).2)
  = [50; 40; 60]%N.
Proof. by vm_compute. Qed.

(** ** Loading *)

Lemma processLoadedData_halves (blobSize : Stored -> N) (now : N)
    (data : LoadedData) (t : TreeCore) :
  processLoadedData blobSize now data t
  = if bool_decide (is_Some (ld_people data))
       && negb (bool_decide (is_Some (ld_persons data)))
    then (false, t)
    else (true, afterPersons blobSize now data (loadPersons data t)).
Proof. reflexivity. Qed.

Lemma sameSurface_refl t : sameSurface t t.
Proof. by repeat split. Qed.

Lemma sameSurface_trans t1 t2 t3 :
  sameSurface t1 t2 -> sameSurface t2 t3 -> sameSurface t1 t3.
Proof.
  unfold sameSurface. intros (?&?&?&?&?&?&?&?&?) (?&?&?&?&?&?&?&?&?).
  repeat split; congruence.
Qed.

Lemma sameSurface_regenerateConnections t :
  sameSurface t (regenerateConnections t).
Proof. rewrite regenerateConnections_only. by repeat split. Qed.

Lemma sameSurface_cleanup t : sameSurface t (cleanupInvalidRelationships t).2.
Proof.
  unfold cleanupInvalidRelationships.
  destruct (fold_left cleanPerson (personData t) (heap t, 0)) as [h cleaned].
  case_bool_decide; simpl; [|by repeat split].
  eapply sameSurface_trans; [|apply sameSurface_trans with (regenerateConnections (with_heap h t))].
  - apply (sameSurface_refl t).
  - eapply sameSurface_trans; [|apply sameSurface_regenerateConnections].
    by repeat split.
  - by repeat split.
Qed.

Lemma sameSurface_restoreBackup backup t : sameSurface t (restoreBackup backup t).
Proof.
  unfold restoreBackup.
  assert (forall t', sameSurface t t' ->
            sameSurface t
              (fold_left
                 (fun t (entry : string * PersonRecord) =>
                    let l := fresh (dom (heap t)) in
                    with_personData (JS.Map_set (personData t) entry.1 l)
                      (with_heap (<[l := entry.2]> (heap t)) t)) backup t')) as H.
  { induction backup as [|entry rest IH]; intros t' Ht'; [done|].
    simpl. apply IH. eapply sameSurface_trans; [exact Ht'|]. by repeat split. }
  apply H. by repeat split.
Qed.

Lemma sameSurface_afterPersons (blobSize : Stored -> N) now data loop :
  sameSurface
    (if (nextId (ll_state loop) <=? ll_maxId loop)%Z
     then with_nextId (ll_maxId loop + 1)%Z (ll_state loop) else ll_state loop)
    (afterPersons blobSize now data loop).
Proof.
  unfold afterPersons.
  set (t1 := if (_ <=? _)%Z then _ else _).
  set (t2 := (cleanupInvalidRelationships t1).2).
  set (t3 := regenerateConnections t2).
  set (t4 := if _ && _ then _ else t3).
  assert (sameSurface t1 t3) as H3.
  { eapply sameSurface_trans; [apply sameSurface_cleanup|].
    apply sameSurface_regenerateConnections. }
  assert (sameSurface t1 t4) as H4.
  { unfold t4. destruct (_ && _); [|done].
    destruct (ld_personDataBackup data) as [backup|]; [|done].
    eapply sameSurface_trans; [exact H3|].
    eapply sameSurface_trans; [apply sameSurface_restoreBackup|].
    apply sameSurface_regenerateConnections. }
  eapply sameSurface_trans; [exact H4|]. by repeat split.
Qed.

Lemma Map_set_fresh {V} (m : list (string * V)) k v :
  k ∉ JS.Map_keys m -> JS.Map_set m k v = m ++ [(k, v)].
Proof.
  unfold JS.Map_keys. induction m as [|[k' v'] m IH]; [done|].
  rewrite fmap_cons. intros [Hne Hk]%not_elem_of_cons. simpl in *.
  destruct (decide (k = k')); [done|]. by rewrite IH.
Qed.

Lemma loadPerson_surface acc person :
  nodes (renderer (ll_state (loadPerson acc person)))
  = JS.Map_set (nodes (renderer (ll_state acc))) (lp_id person)
      (loadedNode (core (ll_state acc)) person)
  /\ camera (renderer (ll_state (loadPerson acc person)))
     = camera (renderer (ll_state acc))
  /\ settings (renderer (ll_state (loadPerson acc person)))
     = settings (renderer (ll_state acc))
  /\ hiddenConnections (ll_state (loadPerson acc person))
     = hiddenConnections (ll_state acc)
  /\ lineOnlyConnections (ll_state (loadPerson acc person))
     = lineOnlyConnections (ll_state acc)
  /\ core (ll_state (loadPerson acc person)) = core (ll_state acc)
  /\ displayPreferences (ll_state (loadPerson acc person))
     = displayPreferences (ll_state acc)
  /\ nodeStyle (ll_state (loadPerson acc person)) = nodeStyle (ll_state acc)
  /\ nextId (ll_state (loadPerson acc person)) = nextId (ll_state acc).
Proof. by repeat split. Qed.

Lemma fold_loadPerson_surface persons acc :
  NoDup (lp_id <$> persons) ->
  (forall p, p ∈ persons -> lp_id p ∉ JS.Map_keys (nodes (renderer (ll_state acc)))) ->
  nodes (renderer (ll_state (fold_left loadPerson persons acc)))
  = nodes (renderer (ll_state acc))
    ++ map (fun p => (lp_id p, loadedNode (core (ll_state acc)) p)) persons
  /\ camera (renderer (ll_state (fold_left loadPerson persons acc)))
     = camera (renderer (ll_state acc))
  /\ settings (renderer (ll_state (fold_left loadPerson persons acc)))
     = settings (renderer (ll_state acc))
  /\ hiddenConnections (ll_state (fold_left loadPerson persons acc))
     = hiddenConnections (ll_state acc)
  /\ lineOnlyConnections (ll_state (fold_left loadPerson persons acc))
     = lineOnlyConnections (ll_state acc)
  /\ core (ll_state (fold_left loadPerson persons acc)) = core (ll_state acc)
  /\ displayPreferences (ll_state (fold_left loadPerson persons acc))
     = displayPreferences (ll_state acc)
  /\ nodeStyle (ll_state (fold_left loadPerson persons acc))
     = nodeStyle (ll_state acc)
  /\ nextId (ll_state (fold_left loadPerson persons acc)) = nextId (ll_state acc).
Proof.
  revert acc. induction persons as [|p rest IH]; intros acc Hnd Hfresh.
  - simpl. rewrite app_nil_r. by repeat split.
  - rewrite fmap_cons in Hnd. apply NoDup_cons in Hnd as [Hp Hnd].
    destruct (loadPerson_surface acc p) as (En & Ec & Es & Eh & El & Eo & Ed & Ey & Ei).
    assert (lp_id p ∉ JS.Map_keys (nodes (renderer (ll_state acc)))) as Hpf
      by apply Hfresh, list_elem_of_here.
    rewrite Map_set_fresh in En by done.
    cbn [fold_left]. destruct (IH (loadPerson acc p) Hnd) as (In & Ic & Is & Ih & Il & Io & Id & Iy & Ii).
    { intros q Hq. rewrite En. unfold JS.Map_keys. rewrite fmap_app.
      apply not_elem_of_app. split.
      - apply Hfresh. by apply list_elem_of_further.
      - simpl. intros Heq%list_elem_of_singleton. apply Hp. rewrite <- Heq.
        apply list_elem_of_fmap. by exists q. }
    rewrite In, Ic, Is, Ih, Il, Io, Id, Iy, Ii, En, Eo.
    repeat split; try done. by rewrite <- app_assoc.
Qed.

Lemma Set_from_NoDup l : NoDup l -> JS.Set_from l = l.
Proof.
  unfold JS.Set_from.
  assert (forall acc, NoDup (acc ++ l) -> fold_left JS.Set_add l acc = acc ++ l) as H.
  { induction l as [|x l IH]; intros acc Hnd; simpl.
    - by rewrite app_nil_r.
    - unfold JS.Set_add at 2. unfold JS.Set_has.
      apply NoDup_app in Hnd as (Ha & Hdisj & Hl).
      rewrite bool_decide_eq_false_2.
      + rewrite IH; [by rewrite <- app_assoc|].
        rewrite <- app_assoc. simpl. apply NoDup_app. by repeat split.
      + intros Hx. apply (Hdisj x Hx). apply list_elem_of_here. }
  intros Hnd. by apply (H []).
Qed.

Lemma or_num_orZ_Some x : JS.or_num (JS.orZ (Some x) None) 0 = x.
Proof.
  unfold JS.or_num, JS.orZ, JS.truthyZ.
  destruct (Z.eqb_spec x 0) as [->|]; simpl; [done|].
  by destruct (Z.eqb_spec x 0).
Qed.

Lemma beforePersons_saved now t t0 :
  let t1 := beforePersons (loadedOfState (getCurrentState now t)) t0 in
  nodes (renderer t1) = []
  /\ camera (renderer t1) = camera (renderer t)
  /\ settings (renderer t1) = settings (renderer t)
  /\ hiddenConnections t1 = JS.Set_from (hiddenConnections t)
  /\ lineOnlyConnections t1 = JS.Set_from (lineOnlyConnections t)
  /\ displayPreferences t1 = displayPreferences t.
Proof.
  intros t1. subst t1.
  unfold beforePersons, loadedOfState, getCurrentState, getCamera,
    restoreSettings, loadedSettings, currentSettings.
  cbn -[JS.Set_from].
  destruct (nextId t =? 0)%Z;
    unfold JS.if_truthy; destruct (String.eqb (nodeStyle t) "");
    repeat split; try reflexivity;
    destruct (settings (renderer t)), (camera (renderer t)); reflexivity.
Qed.

Lemma sameSurface_loaded (blobSize : Stored -> N) now data loop :
  let loaded := afterPersons blobSize now data loop in
  nodes (renderer loaded) = nodes (renderer (ll_state loop))
  /\ camera (renderer loaded) = camera (renderer (ll_state loop))
  /\ settings (renderer loaded) = settings (renderer (ll_state loop))
  /\ hiddenConnections loaded = hiddenConnections (ll_state loop)
  /\ lineOnlyConnections loaded = lineOnlyConnections (ll_state loop)
  /\ displayPreferences loaded = displayPreferences (ll_state loop)
  /\ nextId loaded
     = if (nextId (ll_state loop) <=? ll_maxId loop)%Z
       then (ll_maxId loop + 1)%Z else nextId (ll_state loop).
Proof.
  intros loaded. subst loaded.
  destruct (sameSurface_afterPersons blobSize now data loop)
    as (-> & -> & -> & -> & -> & _ & -> & _ & ->).
  by destruct (_ <=? _)%Z.
Qed.

Lemma processLoadedData_saved (blobSize : Stored -> N) (now later : N)
    (t t0 : TreeCore) :
  NoDup (JS.Map_keys (nodes (renderer t))) ->
  NoDup (hiddenConnections t) ->
  NoDup (lineOnlyConnections t) ->
  (processLoadedData blobSize later (loadedOfState (getCurrentState now t)) t0).1
  = true
  /\ positions
       (processLoadedData blobSize later (loadedOfState (getCurrentState now t)) t0).2
     = positions t
  /\ camera (renderer
       (processLoadedData blobSize later (loadedOfState (getCurrentState now t)) t0).2)
     = camera (renderer t)
  /\ settings (renderer
       (processLoadedData blobSize later (loadedOfState (getCurrentState now t)) t0).2)
     = settings (renderer t)
  /\ hiddenConnections
       (processLoadedData blobSize later (loadedOfState (getCurrentState now t)) t0).2
     = hiddenConnections t
  /\ lineOnlyConnections
       (processLoadedData blobSize later (loadedOfState (getCurrentState now t)) t0).2
     = lineOnlyConnections t
  /\ displayPreferences
       (processLoadedData blobSize later (loadedOfState (getCurrentState now t)) t0).2
     = displayPreferences t.
Proof.
  intros Hnodes Hhid Hlo. rewrite processLoadedData_halves.
  set (data := loadedOfState (getCurrentState now t)).
  assert (ld_people data = None) as -> by reflexivity.
  rewrite (bool_decide_eq_false_2 (is_Some None)) by (by intros [? ?]).
  cbn [andb fst snd]. split; [done|].
  destruct (sameSurface_loaded blobSize later data (loadPersons data t0))
    as (En & -> & -> & -> & -> & -> & _).
  unfold positions. rewrite En. clear En. unfold loadPersons.
  set (acc := {| ll_state := beforePersons data t0; ll_maxId := 0;
                 ll_relationshipsFound := 0 |}).
  destruct (beforePersons_saved now t t0) as (Bn & Bc & Bs & Bh & Bl & Bd).
  fold data in Bn, Bc, Bs, Bh, Bl, Bd.
  assert (default [] (ld_persons data)
          = map loadedPersonOfState (map (personState t) (nodes (renderer t))))
    as -> by reflexivity.
  destruct (fold_loadPerson_surface
              (map loadedPersonOfState (map (personState t) (nodes (renderer t))))
              acc) as (-> & -> & -> & -> & -> & _ & -> & _).
  - change (NoDup (map lp_id (map loadedPersonOfState
                                 (map (personState t) (nodes (renderer t)))))).
    rewrite !map_map. exact Hnodes.
  - intros p _. simpl. rewrite Bn. apply not_elem_of_nil.
  - simpl. rewrite Bn, Bc, Bs, Bh, Bl, Bd.
    rewrite !Set_from_NoDup by done. repeat split; try done.
    simpl. rewrite !map_map. apply map_ext. intros [id node]. simpl.
    by rewrite !or_num_orZ_Some.
Qed.


(** X8.  What [getCurrentState] writes, [processLoadedData] reads back:
    whatever the state loaded into, every node is there again with its
    id at its position, in the same order, and the camera, the line
    settings, the display preferences and both suppression sets are
    those of the saved state. *)
Theorem saved_state_restores_surface (blobSize : Stored -> N) (now later : N)
    (t t0 : TreeCore) :
  NoDup (JS.Map_keys (nodes (renderer t))) ->
  NoDup (hiddenConnections t) ->
  NoDup (lineOnlyConnections t) ->
  (processLoadedData blobSize later (loadedOfState (getCurrentState now t)) t0).1
  = true
  /\ positions
       (processLoadedData blobSize later (loadedOfState (getCurrentState now t)) t0).2
     = positions t
  /\ camera (renderer
       (processLoadedData blobSize later (loadedOfState (getCurrentState now t)) t0).2)
     = camera (renderer t)
  /\ settings (renderer
       (processLoadedData blobSize later (loadedOfState (getCurrentState now t)) t0).2)
     = settings (renderer t)
  /\ hiddenConnections
       (processLoadedData blobSize later (loadedOfState (getCurrentState now t)) t0).2
     = hiddenConnections t
  /\ lineOnlyConnections
       (processLoadedData blobSize later (loadedOfState (getCurrentState now t)) t0).2
     = lineOnlyConnections t
  /\ displayPreferences
       (processLoadedData blobSize later (loadedOfState (getCurrentState now t)) t0).2
     = displayPreferences t.
Proof. apply processLoadedData_saved. Qed.

Lemma saved_state_restores_surface_witness :
  (processLoadedData sizeModel 70
     (loadedOfState (getCurrentState 60 familyOfFive)) selfSpouse).1
  = true
  /\ positions
       (processLoadedData sizeModel 70
          (loadedOfState (getCurrentState 60 familyOfFive)) selfSpouse).2
     = positions familyOfFive
  /\ camera (renderer
       (processLoadedData sizeModel 70
          (loadedOfState (getCurrentState 60 familyOfFive)) selfSpouse).2)
     = camera (renderer familyOfFive)
  /\ settings (renderer
       (processLoadedData sizeModel 70
          (loadedOfState (getCurrentState 60 familyOfFive)) selfSpouse).2)
     = settings (renderer familyOfFive)
  /\ hiddenConnections
       (processLoadedData sizeModel 70
          (loadedOfState (getCurrentState 60 familyOfFive)) selfSpouse).2
     = hiddenConnections familyOfFive
  /\ lineOnlyConnections
       (processLoadedData sizeModel 70
          (loadedOfState (getCurrentState 60 familyOfFive)) selfSpouse).2
     = lineOnlyConnections familyOfFive
  /\ displayPreferences
       (processLoadedData sizeModel 70
          (loadedOfState (getCurrentState 60 familyOfFive)) selfSpouse).2
     = displayPreferences familyOfFive.
Proof.
  apply (saved_state_restores_surface sizeModel 60 70 familyOfFive selfSpouse).
  - apply (bool_decide_unpack (NoDup (JS.Map_keys (nodes (renderer familyOfFive))))).
    by vm_compute.
  - apply (bool_decide_unpack (NoDup (hiddenConnections familyOfFive))).
    by vm_compute.
  - apply (bool_decide_unpack (NoDup (lineOnlyConnections familyOfFive))).
    by vm_compute.
Defined.





Example loaded_nextId_of_five :
  nextId (processLoadedData sizeModel 70
            (loadedOfState (getCurrentState 60 familyOfFive))
            (initialTreeCore emptyStorage)).2 = 6%Z.
Proof. by vm_compute. Qed.

(** ** Connections made with the modal *)


Lemma truthy_Some s : s <> "" -> JS.truthy (Some s) = true.
Proof. intros H. unfold JS.truthy. by destruct (String.eqb_spec s ""). Qed.




Lemma Map_get_Map_set {V} (m : list (string * V)) k v k' :
  JS.Map_get (JS.Map_set m k v) k'
  = if decide (k' = k) then Some v else JS.Map_get m k'.
Proof.
  induction m as [|[k0 v0] m IH]; simpl.
  - by destruct (decide (k' = k)).
  - destruct (decide (k = k0)) as [->|Hne]; simpl.
    + by destruct (decide (k' = k0)).
    + rewrite IH. destruct (decide (k' = k0)) as [->|]; [|done].
      by destruct (decide (k0 = k)).
Qed.

(** The record object [getOrNewRecord] makes for a person without one
    takes the place of no record that holds anything. *)
Lemma getOrNewRecord_deref id t l :
  deref (heap (getOrNewRecord id t).2) l = deref (heap t) l
  /\ personData (getOrNewRecord id t).2 = personData t
  /\ renderer (getOrNewRecord id t).2 = renderer t
  /\ lineOnlyConnections (getOrNewRecord id t).2 = lineOnlyConnections t
  /\ hiddenConnections (getOrNewRecord id t).2 = hiddenConnections t.
Proof.
  unfold getOrNewRecord. destruct (JS.Map_get (personData t) id); [done|].
  simpl. repeat split. rewrite deref_insert.
  destruct (decide (fresh (dom (heap t)) = l)) as [<-|]; [|done].
  unfold deref. rewrite (not_elem_of_dom_1 (heap t) (fresh (dom (heap t)))); [done|].
  apply is_fresh.
Qed.

(** X11.  The choice [child] of the connection modal makes [A] a
    parent of [B]: it fills the first free parent field of [B], mother
    before father, and never replaces a parent [B] already has.  With
    both set, the record of [B] stays as it is and the pair becomes a
    line-only connection. *)
Theorem child_connection_keeps_parents (t : TreeCore) (A B : string) (lB : loc) :
  A <> "" -> B <> "" ->
  JS.Map_get (personData t) B = Some lB ->
  recordOf (createConnection "child" (handleConnectSelected [A; B] t)) B
  = (if negb (JS.truthy (motherId (deref (heap t) lB)))
     then set_motherId A (deref (heap t) lB)
     else if negb (JS.truthy (fatherId (deref (heap t) lB)))
          then set_fatherId A (deref (heap t) lB)
          else deref (heap t) lB)
  /\ (JS.truthy (motherId (deref (heap t) lB)) = true ->
      motherId (recordOf (createConnection "child"
                            (handleConnectSelected [A; B] t)) B)
      = motherId (deref (heap t) lB))
  /\ (JS.truthy (fatherId (deref (heap t) lB)) = true ->
      fatherId (recordOf (createConnection "child"
                            (handleConnectSelected [A; B] t)) B)
      = fatherId (deref (heap t) lB))
  /\ lineOnlyConnections (createConnection "child" (handleConnectSelected [A; B] t))
     = (if JS.truthy (motherId (deref (heap t) lB))
           && JS.truthy (fatherId (deref (heap t) lB))
        then JS.Set_add (lineOnlyConnections t) (A +:+ "-" +:+ B)
        else lineOnlyConnections t).
Proof.
  intros HA HB HlB.
  unfold createConnection, handleConnectSelected.
  cbn [connectionPersonA connectionPersonB].
  rewrite !truthy_Some by done. cbn [negb orb].
  set (t0 := {| renderer := renderer t; heap := heap t; personData := personData t;
                hiddenConnections := hiddenConnections t;
                lineOnlyConnections := lineOnlyConnections t; core := core t;
                displayPreferences := displayPreferences t; nodeStyle := nodeStyle t;
                nextId := nextId t; undoStack := undoStack t;
                redoStack := redoStack t; maxUndoSize := maxUndoSize t;
                connectionPersonA := Some A; connectionPersonB := Some B;
                cacheVersion := cacheVersion t; localStorage := localStorage t |}).
  destruct (getOrNewRecord_deref A t0 lB) as (Hd & Hpd & _ & Hlo & _).
  destruct (getOrNewRecord A t0) as [lA t1]. cbn [snd] in Hd, Hpd, Hlo.
  change (heap t0) with (heap t) in Hd. change (personData t0) with (personData t) in Hpd.
  change (lineOnlyConnections t0) with (lineOnlyConnections t) in Hlo.
  unfold getOrNewRecord. rewrite Hpd, HlB. cbn [String.eqb Ascii.eqb Bool.eqb].
  rewrite Hd.
  destruct (JS.truthy (motherId (deref (heap t) lB))) eqn:Em;
    [destruct (JS.truthy (fatherId (deref (heap t) lB))) eqn:Ef|];
    cbn [negb andb]; unfold recordOf; cbn -[JS.Set_add];
    rewrite !Map_get_Map_set; destruct (decide (B = B)); try done;
    unfold deref; cbn; rewrite ?lookup_insert_eq; cbn; fold (deref (heap t1) lB);
    rewrite ?Hd, ?Hlo; repeat split; try done.
Qed.

Lemma child_connection_keeps_parents_witness :
  recordOf (createConnection "child" (handleConnectSelected ["p2"; "p3"] familyOfFive))
    "p3"
  = (if negb (JS.truthy (motherId (deref (heap familyOfFive) 3%nat)))
     then set_motherId "p2" (deref (heap familyOfFive) 3%nat)
     else if negb (JS.truthy (fatherId (deref (heap familyOfFive) 3%nat)))
          then set_fatherId "p2" (deref (heap familyOfFive) 3%nat)
          else deref (heap familyOfFive) 3%nat)
  /\ (JS.truthy (motherId (deref (heap familyOfFive) 3%nat)) = true ->
      motherId (recordOf (createConnection "child"
                            (handleConnectSelected ["p2"; "p3"] familyOfFive)) "p3")
      = motherId (deref (heap familyOfFive) 3%nat))
  /\ (JS.truthy (fatherId (deref (heap familyOfFive) 3%nat)) = true ->
      fatherId (recordOf (createConnection "child"
                            (handleConnectSelected ["p2"; "p3"] familyOfFive)) "p3")
      = fatherId (deref (heap familyOfFive) 3%nat))
  /\ lineOnlyConnections
       (createConnection "child" (handleConnectSelected ["p2"; "p3"] familyOfFive))
     = (if JS.truthy (motherId (deref (heap familyOfFive) 3%nat))
           && JS.truthy (fatherId (deref (heap familyOfFive) 3%nat))
        then JS.Set_add (lineOnlyConnections familyOfFive) ("p2" +:+ "-" +:+ "p3")
        else lineOnlyConnections familyOfFive).
Proof.
  apply (child_connection_keeps_parents familyOfFive "p2" "p3" 3%nat); by vm_compute.
Defined.

Example child_connection_fills_father :
  relations (createConnection "child" (handleConnectSelected ["p2"; "p3"] familyOfFive))
  = [("p1", (Some "", Some "", Some "p2"));
     ("p2", (Some "", Some "", Some "p1"));
     ("p3", (Some "p1", Some "p2", Some ""));
     ("p4", (Some "", Some "", Some ""));
     ("p5", (Some "", Some "", Some ""))].
Proof. by vm_compute. Qed.

(** ** Clearing the tree *)




(** ** Input sanitization *)

Lemma append_assoc (a b c : string) : (a +:+ b) +:+ c = a +:+ (b +:+ c).
Proof.
  induction a as [|d a IH]; [done|].
  change (String d ((a +:+ b) +:+ c) = String d (a +:+ (b +:+ c))).
  by rewrite IH.
Qed.

Lemma replaceAll_app c r a b :
  SecurityUtils.replaceAll c r (a +:+ b)
  = SecurityUtils.replaceAll c r a +:+ SecurityUtils.replaceAll c r b.
Proof.
  induction a as [|d a IH]; [done|].
  change (String d a +:+ b) with (String d (a +:+ b)).
  cbn [SecurityUtils.replaceAll]. rewrite IH.
  destruct (Ascii.eqb c d); [|done].
  by rewrite append_assoc.
Qed.

Lemma sanitizeText_String d rest :
  SecurityUtils.sanitizeText (Some (String d rest))
  = escapeChar d +:+ SecurityUtils.sanitizeText (Some rest).
Proof.
  unfold SecurityUtils.sanitizeText.
  change (String d rest) with (String d EmptyString +:+ rest).
  rewrite !replaceAll_app. f_equal.
  destruct d as [[] [] [] [] [] [] [] []]; reflexivity.
Qed.

Lemma sanitizeText_escaped s : SecurityUtils.sanitizeText (Some s) = escaped s.
Proof.
  induction s as [|d s IH]; [done|].
  rewrite sanitizeText_String, IH. done.
Qed.

Lemma includes_app c a b : includes c (a +:+ b) = includes c a || includes c b.
Proof.
  induction a as [|d a IH]; [done|].
  change (String d a +:+ b) with (String d (a +:+ b)).
  cbn [includes]. rewrite IH. by rewrite orb_assoc.
Qed.

Lemma escaped_app a b : escaped (a +:+ b) = escaped a +:+ escaped b.
Proof.
  induction a as [|d a IH]; [done|].
  change (String d a +:+ b) with (String d (a +:+ b)).
  cbn [escaped]. rewrite IH. by rewrite append_assoc.
Qed.

Lemma escapeChar_clean d : Forall (fun c => includes c (escapeChar d) = false) markup.
Proof.
  destruct d as [[] [] [] [] [] [] [] []]; repeat constructor.
Qed.

Lemma escapeChar_fixed d : escaped (escapeChar d) = escapeChar d.
Proof. destruct d as [[] [] [] [] [] [] [] []]; reflexivity. Qed.

(** X13.  [sanitizeText] amounts to one pass that writes each of the
    characters [<], [>], the double quote, ['] and [/] as its entity:
    the text it returns holds none of the five, and it is left as it is
    when sanitized again ([&] is not escaped). *)
Theorem sanitizeText_leaves_no_markup (input : option string) :
  SecurityUtils.sanitizeText input = default "" (escaped <$> input)
  /\ Forall (fun c => includes c (SecurityUtils.sanitizeText input) = false) markup
  /\ SecurityUtils.sanitizeText (Some (SecurityUtils.sanitizeText input))
     = SecurityUtils.sanitizeText input.
Proof.
  destruct input as [s|]; [|by repeat constructor].
  rewrite !sanitizeText_escaped. split; [done|]. split.
  - induction s as [|d s IH]; [by repeat constructor|].
    cbn [escaped]. apply Forall_forall. intros c Hc. rewrite includes_app.
    pose proof (escapeChar_clean d) as Hd.
    rewrite Forall_forall in Hd, IH. by rewrite (Hd c Hc), (IH c Hc).
  - induction s as [|d s IH]; [done|].
    cbn [escaped]. by rewrite escaped_app, escapeChar_fixed, IH.
Qed.

Example sanitizeText_script :
  SecurityUtils.sanitizeText (Some "<b onclick='x()'>Ann</b>")
  = "&lt;b onclick=&#x27;x()&#x27;&gt;Ann&lt;&#x2F;b&gt;"
  /\ SecurityUtils.sanitizeText (Some (String "034" "Ann & Bob")) = "&quot;Ann & Bob".
Proof. by_evaluation. Qed.

Lemma removeAngles_clean s :
  includes "<" (SecurityUtils.removeAngles s) = false
  /\ includes ">" (SecurityUtils.removeAngles s) = false
  /\ String.length (SecurityUtils.removeAngles s) <= String.length s
  /\ (includes "<" s = false -> includes ">" s = false ->
      SecurityUtils.removeAngles s = s).
Proof.
  induction s as [|d s (IH1 & IH2 & IH3 & IH4)]; [done|].
  cbn [SecurityUtils.removeAngles includes String.length].
  rewrite (Ascii.eqb_sym "<" d), (Ascii.eqb_sym ">" d).
  destruct (Ascii.eqb d "<") eqn:E1; [|destruct (Ascii.eqb d ">") eqn:E2];
    cbn [orb].
  - repeat split; try done. lia.
  - repeat split; try done. lia.
  - cbn [includes String.length].
    rewrite (Ascii.eqb_sym "<" d), (Ascii.eqb_sym ">" d), E1, E2. cbn [orb].
    repeat split; try done; [lia|]. intros H1 H2. by rewrite IH4.
Qed.

Lemma trimStart_length s : String.length (trimStart s) <= String.length s.
Proof.
  induction s as [|c s IH]; [done|]. cbn [trimStart].
  destruct (isWhiteSpace c); simpl; lia.
Qed.

Lemma trimEnd_length s : String.length (trimEnd s) <= String.length s.
Proof.
  induction s as [|c s IH]; [done|]. cbn [trimEnd].
  destruct (trimEnd s); [destruct (isWhiteSpace c)|]; simpl in *; lia.
Qed.

Lemma includes_trimStart c s :
  includes c s = false -> includes c (trimStart s) = false.
Proof.
  induction s as [|d s IH]; [done|]. cbn [trimStart includes].
  destruct (isWhiteSpace d); [|done].
  intros [_ H]%orb_false_elim. by apply IH.
Qed.

Lemma includes_trimEnd c s :
  includes c s = false -> includes c (trimEnd s) = false.
Proof.
  induction s as [|d s IH]; [done|]. cbn [trimEnd includes].
  intros [Hd H]%orb_false_elim. specialize (IH H).
  destruct (trimEnd s) as [|e kept].
  - destruct (isWhiteSpace d); [done|]. cbn [includes]. by rewrite Hd.
  - cbn [includes] in *. by rewrite Hd, IH.
Qed.

(** X14.  [sanitizeFormInput] returns a text without [<] and [>] that
    is never longer than the input; an input without the two characters
    is only trimmed. *)
Theorem sanitizeFormInput_removes_angle_brackets (input : option string) :
  includes "<" (SecurityUtils.sanitizeFormInput input) = false
  /\ includes ">" (SecurityUtils.sanitizeFormInput input) = false
  /\ String.length (SecurityUtils.sanitizeFormInput input)
     <= String.length (default "" input)
  /\ forall s, input = Some s ->
       includes "<" s = false -> includes ">" s = false ->
       SecurityUtils.sanitizeFormInput input = trim s.
Proof.
  destruct input as [s|]; [|done]. unfold SecurityUtils.sanitizeFormInput.
  destruct (removeAngles_clean (trim s)) as (H1 & H2 & H3 & H4).
  repeat split; try done.
  - simpl. unfold trim in *.
    pose proof (trimEnd_length (trimStart s)). pose proof (trimStart_length s). lia.
  - intros s' [= <-] Hl Hg.
    apply H4; unfold trim; by apply includes_trimEnd, includes_trimStart.
Qed.

Example sanitizeFormInput_tag :
  SecurityUtils.sanitizeFormInput (Some "  <b>Ann</b> ") = "bAnn/b"
  /\ SecurityUtils.sanitizeFormInput (Some "< Ann") = " Ann".
Proof. by_evaluation. Qed.

(** ** Line styles in saved states *)

Lemma or_str_Some s d : s <> "" -> JS.or_str (Some s) d = s.
Proof. intros H. unfold JS.or_str. by destruct (String.eqb_spec s ""). Qed.

Lemma or_num_Some z d : z <> 0%Z -> JS.or_num (Some z) d = z.
Proof. intros H. unfold JS.or_num. by destruct (Z.eqb_spec z 0). Qed.

(** X15.  Line style settings without a falsy value survive the way
    through a saved state: restoring what [addLineStyleToState] wrote
    sets every one of the twelve settings of the target renderer to the
    value of the source renderer, and nothing else of the target.  A
    state without [lineStyleSettings] leaves the renderer as it is, and
    without a renderer the state is returned as it is. *)
Theorem line_styles_round_trip {S : Type} (state : StateObject S)
    (source target : Renderer) :
  allSet (settings source) ->
  restoreLineStyleFromState (addLineStyleToState state (Some source)) (Some target)
  = Some (with_settings (settings source) target)
  /\ so_rest (addLineStyleToState state (Some source)) = so_rest state
  /\ restoreLineStyleFromState
       {| so_rest := so_rest state; lineStyleSettings := None |} (Some target)
     = Some target
  /\ addLineStyleToState state None = state.
Proof.
  intros (H1 & H2 & H3 & H4 & H5 & H6 & H7 & H8 & H9 & H10 & H11).
  repeat split; try done.
  unfold restoreLineStyleFromState, addLineStyleToState.
  cbn [lineStyleSettings lss_familyLineStyle lss_familyLineThickness
         lss_familyLineColor lss_spouseLineStyle lss_spouseLineThickness
         lss_spouseLineColor lss_lineOnlyStyle lss_lineOnlyThickness
         lss_lineOnlyColor lss_showNodeOutline lss_outlineColor
         lss_outlineThickness default id].
  rewrite !or_str_Some, !or_num_Some, orb_false_r by done.
  by destruct (settings source).
Qed.

Lemma line_styles_round_trip_witness :
  restoreLineStyleFromState
    (addLineStyleToState plainState (Some (renderer familyOfFive)))
    (Some dottedRenderer)
  = Some (with_settings (settings (renderer familyOfFive)) dottedRenderer)
  /\ so_rest (addLineStyleToState plainState (Some (renderer familyOfFive)))
     = so_rest plainState
  /\ restoreLineStyleFromState
       {| so_rest := so_rest plainState; lineStyleSettings := None |}
       (Some dottedRenderer)
     = Some dottedRenderer
  /\ addLineStyleToState plainState None = plainState.
Proof.
  apply (line_styles_round_trip plainState (renderer familyOfFive) dottedRenderer).
  unfold allSet. by_evaluation.
Defined.

(** A thickness of zero is not kept: the state carries the default. *)
Example line_style_zero_thickness :
  lss_familyLineThickness
  <$> lineStyleSettings (addLineStyleToState plainState (Some unsetRenderer))
  = Some (Some 2%Z).
Proof. reflexivity. Qed.

(** ** Placing a new node *)

Lemma or_num_zero z : JS.or_num (Some z) 0 = z.
Proof. unfold JS.or_num. by destruct (Z.eqb_spec z 0). Qed.

Lemma fold_widen_bounds (existingNodes : list Node) :
  existingNodes <> [] ->
  exists left right lowest,
    left ∈ existingNodes /\ right ∈ existingNodes /\ lowest ∈ existingNodes
    /\ fold_left widen existingNodes {| minX := None; maxX := None; maxY := None |}
       = {| minX := Some (node_x left); maxX := Some (node_x right);
            maxY := Some (node_y lowest) |}
    /\ Forall (fun node => (node_x left <= node_x node <= node_x right)%Z
                           /\ (node_y node <= node_y lowest)%Z) existingNodes.
Proof.
  induction existingNodes as [|node rest IH] using rev_ind; [done|]. intros _.
  rewrite fold_left_app. cbn [fold_left].
  destruct rest as [|first rest'].
  - exists node, node, node. cbn [fold_left app]. unfold widen.
    cbn [minX maxX maxY Math_min Math_max]. rewrite !or_num_zero.
    repeat split; try apply list_elem_of_here.
    repeat constructor; lia.
  - destruct IH as (l & r & b & Hl & Hr & Hb & -> & Hall); [done|].
    unfold widen. cbn [minX maxX maxY Math_min Math_max]. rewrite !or_num_zero.
    exists (if (node_x node <? node_x l)%Z then node else l),
           (if (node_x r <? node_x node)%Z then node else r),
           (if (node_y b <? node_y node)%Z then node else b).
    assert (forall (c : bool) (x : Node),
              x ∈ first :: rest' ->
              (if c then node else x) ∈ (first :: rest') ++ [node]) as Hin.
    { intros c x Hx. apply elem_of_app. destruct c; [right|by left].
      apply list_elem_of_here. }
    split; [by apply Hin|]. split; [by apply Hin|]. split; [by apply Hin|].
    split.
    + unfold Math_min, Math_max. f_equal; f_equal.
      * destruct (Z.ltb_spec (node_x node) (node_x l)); lia.
      * destruct (Z.ltb_spec (node_x r) (node_x node)); lia.
      * destruct (Z.ltb_spec (node_y b) (node_y node)); lia.
    + apply Forall_app. split.
      * eapply Forall_impl; [exact Hall|]. intros n (? & ?).
        destruct (Z.ltb_spec (node_x node) (node_x l)),
                 (Z.ltb_spec (node_x r) (node_x node)),
                 (Z.ltb_spec (node_y b) (node_y node)); lia.
      * repeat constructor;
        destruct (Z.ltb_spec (node_x node) (node_x l)),
                 (Z.ltb_spec (node_x r) (node_x node)),
                 (Z.ltb_spec (node_y b) (node_y node)); try lia.
        all: rewrite Forall_forall in Hall.
        all: pose proof (Hall l Hl); pose proof (Hall r Hr); pose proof (Hall b Hb).
        all: lia.
Qed.

(** X16.  The position proposed for a new node lies 150 below the
    lowest existing node, so below every node by at least that much,
    and half-way between the leftmost and the rightmost node. *)
Theorem new_node_below_and_between (existingNodes : list Node) :
  existingNodes <> [] ->
  exists left right lowest,
    left ∈ existingNodes /\ right ∈ existingNodes /\ lowest ∈ existingNodes
    /\ Forall (fun node => (node_x left <= node_x node <= node_x right)%Z
                           /\ (node_y node + 150
                               <= (calculateNewNodePosition existingNodes).2)%Z)
         existingNodes
    /\ (calculateNewNodePosition existingNodes).2 = (node_y lowest + 150)%Z
    /\ (calculateNewNodePosition existingNodes).1
       = QArith_base.Qmake (node_x left + node_x right) 2.
Proof.
  intros Hne.
  destruct (fold_widen_bounds existingNodes Hne)
    as (l & r & b & Hl & Hr & Hb & Hfold & Hall).
  exists l, r, b. unfold calculateNewNodePosition.
  destruct existingNodes as [|first rest]; [done|]. rewrite Hfold. cbn.
  repeat split; try done.
  eapply Forall_impl; [exact Hall|]. intros n (? & ?). cbn in *. lia.
Qed.

Lemma new_node_below_and_between_witness :
  exists left right lowest,
    left ∈ (nodes (renderer fivePersons)).*2
    /\ right ∈ (nodes (renderer fivePersons)).*2
    /\ lowest ∈ (nodes (renderer fivePersons)).*2
    /\ Forall (fun node =>
                 (node_x left <= node_x node <= node_x right)%Z
                 /\ (node_y node + 150
                     <= (calculateNewNodePosition
                           (nodes (renderer fivePersons)).*2).2)%Z)
         (nodes (renderer fivePersons)).*2
    /\ (calculateNewNodePosition (nodes (renderer fivePersons)).*2).2
       = (node_y lowest + 150)%Z
    /\ (calculateNewNodePosition (nodes (renderer fivePersons)).*2).1
       = QArith_base.Qmake (node_x left + node_x right) 2.
Proof.
  apply (new_node_below_and_between (nodes (renderer fivePersons)).*2).
  by vm_compute.
Defined.

Example new_node_after_five :
  calculateNewNodePosition (nodes (renderer fivePersons)).*2
  = (QArith_base.Qmake 480 2, 650%Z)
  /\ calculateNewNodePosition [] = (QArith_base.inject_Z 400, 300%Z).
Proof. by_evaluation. Qed.

(** ** Repairing the connections *)

Lemma restoreBackup_keys backup t :
  NoDup backup.*1 -> JS.Map_keys (personData (restoreBackup backup t)) = backup.*1.
Proof.
  unfold restoreBackup.
  assert (forall t', NoDup (JS.Map_keys (personData t') ++ backup.*1) ->
            JS.Map_keys
              (personData
                 (fold_left
                    (fun t (entry : string * PersonRecord) =>
                       let l := fresh (dom (heap t)) in
                       with_personData (JS.Map_set (personData t) entry.1 l)
                         (with_heap (<[l := entry.2]> (heap t)) t)) backup t'))
            = JS.Map_keys (personData t') ++ backup.*1) as H.
  { induction backup as [|[k r] rest IH]; intros t' Hnd.
    - simpl. by rewrite app_nil_r.
    - cbn [fold_left fst snd]. rewrite fmap_cons in Hnd. cbn [fst] in Hnd.
      rewrite IH; cbn [personData with_personData with_heap].
      + rewrite Map_set_fresh.
        * unfold JS.Map_keys. rewrite fmap_app, fmap_cons. cbn [fst fmap list_fmap].
          by rewrite <- app_assoc.
        * apply NoDup_app in Hnd as (_ & Hdisj & _). intros Hk.
          apply (Hdisj k Hk). apply list_elem_of_here.
      + rewrite Map_set_fresh.
        * unfold JS.Map_keys. rewrite fmap_app, <- app_assoc. exact Hnd.
        * apply NoDup_app in Hnd as (_ & Hdisj & _). intros Hk.
          apply (Hdisj k Hk). apply list_elem_of_here. }
  intros Hnd. by apply (H (with_personData [] t)).
Qed.

Lemma sameSurface_saveToCache (blobSize : Stored -> N) now t :
  sameSurface t (saveToCache blobSize now t).2.
Proof. by repeat split. Qed.

(** X17.  [forceRegenerateConnections] never touches the nodes, the
    camera, the settings or the suppression sets.  When the derivation
    draws at least one edge it is the derivation followed by a save.
    When it draws none and the cache holds a full state, the store is
    replaced by the records of that cached state. *)
Theorem forced_regeneration_keeps_surface (blobSize : Stored -> N) (now : N)
    (t : TreeCore) :
  sameSurface t (forceRegenerateConnections blobSize now t)
  /\ (connections (renderer (regenerateConnections t)) <> [] ->
      forceRegenerateConnections blobSize now t
      = (saveToCache blobSize now (regenerateConnections t)).2)
  /\ (forall state,
        connections (renderer (regenerateConnections t)) = [] ->
        getItem CacheKey (localStorage t) = Some (EnhancedJSON state) ->
        NoDup (st_personDataBackup state).*1 ->
        JS.Map_keys (personData (forceRegenerateConnections blobSize now t))
        = (st_personDataBackup state).*1).
Proof.
  unfold forceRegenerateConnections.
  destruct (regenerateConnections_frame t) as (_ & _ & _ & _ & _ & _ & Hs).
  split; [|split].
  - eapply sameSurface_trans; [|apply sameSurface_saveToCache].
    case_bool_decide.
    + destruct (getItem CacheKey _) as [[s|c|d| | |]|];
        try apply sameSurface_regenerateConnections; cbn [JSON_parse].
      * eapply sameSurface_trans; [apply sameSurface_regenerateConnections|].
        eapply sameSurface_trans; [apply sameSurface_restoreBackup|].
        apply sameSurface_regenerateConnections.
      * destruct (ld_personDataBackup d) as [backup|];
          [|apply sameSurface_regenerateConnections].
        eapply sameSurface_trans; [apply sameSurface_regenerateConnections|].
        eapply sameSurface_trans; [apply sameSurface_restoreBackup|].
        apply sameSurface_regenerateConnections.
    + apply sameSurface_regenerateConnections.
  - intros Hne. rewrite bool_decide_eq_false_2; [done|].
    by intros ?%nil_length_inv.
  - intros state Hnil Hcache Hnd. rewrite Hnil. cbn [length].
    rewrite bool_decide_eq_true_2 by done. rewrite Hs, Hcache.
    cbn [JSON_parse loadedOfState ld_personDataBackup].
    cbn [saveToCache snd personData with_localStorage].
    destruct (regenerateConnections_frame
                (restoreBackup (st_personDataBackup state) (regenerateConnections t)))
      as (-> & _).
    by apply restoreBackup_keys.
Qed.

(** ** Saving a person from the modal *)

Lemma fold_selfSpouseFix_parents entries h l :
  motherId (deref (fold_left selfSpouseFix entries h) l) = motherId (deref h l)
  /\ fatherId (deref (fold_left selfSpouseFix entries h) l) = fatherId (deref h l).
Proof.
  revert h. induction entries as [|entry rest IH]; intros h; [done|].
  simpl. destruct (IH (selfSpouseFix h entry)) as [-> ->].
  apply selfSpouseFix_parents.
Qed.

Lemma elem_of_Map_set {V} (m : list (string * V)) k v : (k, v) ∈ JS.Map_set m k v.
Proof.
  induction m as [|[k' v'] m IH]; simpl; [apply list_elem_of_here|].
  destruct (decide (k = k')); [apply list_elem_of_here|by apply list_elem_of_further].
Qed.

Lemma Map_has_Map_set {V} (m : list (string * V)) k v k' :
  JS.Map_has (JS.Map_set m k v) k' = bool_decide (k' = k) || JS.Map_has m k'.
Proof.
  unfold JS.Map_has. rewrite Map_get_Map_set.
  destruct (decide (k' = k)) as [->|Hne].
  - by rewrite bool_decide_eq_true_2.
  - by rewrite bool_decide_eq_false_2.
Qed.

(** What the last steps of a save leave of the state the node step
    hands over. *)
Lemma commitSave_fields (blobSize : Stored -> N) now t :
  connections (renderer (commitSave blobSize now t))
  = connections (renderer (regenerateConnections t))
  /\ nodes (renderer (commitSave blobSize now t)) = nodes (renderer t)
  /\ personData (commitSave blobSize now t) = personData t
  /\ heap (commitSave blobSize now t) = heap (regenerateConnections t)
  /\ hiddenConnections (commitSave blobSize now t) = hiddenConnections t
  /\ lineOnlyConnections (commitSave blobSize now t) = lineOnlyConnections t.
Proof.
  destruct (regenerateConnections_frame t) as (Hp & Hh & Hl & Hn & _).
  unfold commitSave. cbn. by rewrite Hp, Hh, Hl, Hn.
Qed.

Lemma updateOrCreateNode_fields isEdit personId formData t t' :
  updateOrCreateNode isEdit personId formData t = Some t' ->
  personData t' = personData t /\ heap t' = heap t
  /\ hiddenConnections t' = hiddenConnections t
  /\ lineOnlyConnections t' = lineOnlyConnections t
  /\ exists node,
       nodes (renderer t') = JS.Map_set (nodes (renderer t)) personId node
       /\ forall old, JS.Map_get (nodes (renderer t)) personId = Some old ->
                      isEdit = true ->
                      node_x node = node_x old /\ node_y node = node_y old
                      /\ node_color node = node_color old
                      /\ node_radius node = node_radius old.
Proof.
  unfold updateOrCreateNode.
  destruct isEdit.
  - destruct (JS.Map_get (nodes (renderer t)) personId) as [nodeData|] eqn:E.
    + intros [= <-]. repeat split. eexists. split; [reflexivity|].
      by intros old [= <-] _.
    + destruct (newNodePosition _) as [position|]; [|done].
      intros [= <-]. repeat split. eexists. split; [reflexivity|]. done.
  - destruct (newNodePosition _) as [position|]; [|done].
    intros [= <-]. repeat split. eexists. split; [reflexivity|]. done.
Qed.

Lemma storeRecord_fields personId record t :
  personData (storeRecord personId record t)
  = JS.Map_set (personData t) personId (fresh (dom (heap t)))
  /\ heap (storeRecord personId record t)
     = <[fresh (dom (heap t)) := record]> (heap t)
  /\ renderer (storeRecord personId record t) = renderer t
  /\ hiddenConnections (storeRecord personId record t) = hiddenConnections t
  /\ lineOnlyConnections (storeRecord personId record t) = lineOnlyConnections t.
Proof. by repeat split. Qed.

(** X18.  A person form is turned down exactly when the name is blank
    or the gender is missing; the tree, the history and the storage are
    then left as they are and the user is told that the save failed. *)
Theorem person_form_rejected_iff_incomplete (blobSize : Stored -> N)
    (generated : string) (now : N) (formData : FormData) (t : TreeCore) :
  (exists message,
     handleSavePersonFromModal blobSize generated now formData t
     = Some {| so_notified := error "Save Failed" message; so_after := t |})
  <-> filled (fd_name formData) && JS.truthy (fd_gender formData) = false.
Proof.
  unfold handleSavePersonFromModal.
  destruct (filled (fd_name formData)); cbn [negb andb].
  - destruct (JS.truthy (fd_gender formData)); cbn [negb].
    + split; [|done]. intros (message & H).
      destruct (updateOrCreateNode _ _ _ _); simpl in H; [|done].
      by injection H.
    + split; [done|]. intros _. by eexists.
  - split; [done|]. intros _. by eexists.
Qed.

Lemma Map_set_keys {V} (m : list (string * V)) k v :
  is_Some (JS.Map_get m k) -> JS.Map_keys (JS.Map_set m k v) = JS.Map_keys m.
Proof.
  unfold JS.Map_keys. induction m as [|[k' v'] m IH]; [by intros [? ?]|]. simpl.
  destruct (decide (k = k')) as [->|Hne]; [done|].
  intros H. rewrite fmap_cons. simpl. by rewrite IH.
Qed.

Lemma recordOf_commitSave_parents (blobSize : Stored -> N) now t id l :
  JS.Map_get (personData t) id = Some l ->
  motherId (recordOf (commitSave blobSize now t) id) = motherId (deref (heap t) l)
  /\ fatherId (recordOf (commitSave blobSize now t) id) = fatherId (deref (heap t) l).
Proof.
  intros Hl. destruct (commitSave_fields blobSize now t) as (_ & _ & Cp & Ch & _).
  unfold recordOf. rewrite Cp, Hl, Ch, regenerateConnections_heap.
  apply fold_selfSpouseFix_parents.
Qed.

(** X19.  A new person saved with the id of an existing person as
    mother or father gets a node at the proposed position and a record,
    and the parent edge from the new person to that parent is drawn,
    unless the pair is hidden. *)
Theorem added_person_is_drawn_with_its_parent (blobSize : Stored -> N)
    (generated : string) (now : N) (formData : FormData) (t : TreeCore)
    (position : Z * Z) (M : string) :
  newNodePosition (nodes (renderer t)).*2 = Some position ->
  filled (fd_name formData) = true ->
  JS.truthy (fd_gender formData) = true ->
  filled (fd_editingId formData) = false ->
  fd_motherId formData = Some M \/ fd_fatherId formData = Some M ->
  M <> "" ->
  JS.Map_has (nodes (renderer t)) M = true ->
  JS.Set_has (hiddenConnections t) (getConnectionKey generated M) = false ->
  exists out,
    handleSavePersonFromModal blobSize generated now formData t = Some out
    /\ edge generated M parent ∈ connections (renderer (so_after out))
    /\ (exists node,
          JS.Map_get (nodes (renderer (so_after out))) generated = Some node
          /\ (node_x node, node_y node) = position)
    /\ motherId (recordOf (so_after out) generated)
       = Some (JS.or_str (fd_motherId formData) "")
    /\ fatherId (recordOf (so_after out) generated)
       = Some (JS.or_str (fd_fatherId formData) "").
Proof.
  intros Hpos Hname Hgender Hedit HM Hne HnM Hvis.
  unfold handleSavePersonFromModal.
  rewrite Hname, Hgender, Hedit. cbn [negb].
  set (record := formRecord generated formData).
  set (t1 := storeRecord generated record t).
  destruct (storeRecord_fields generated record t) as (Sp & Sh & Sr & Shid & Slo).
  fold t1 in Sp, Sh, Sr, Shid, Slo.
  assert (exists t2, updateOrCreateNode false generated formData t1 = Some t2
                     /\ exists node,
                          JS.Map_get (nodes (renderer t2)) generated = Some node
                          /\ (node_x node, node_y node) = position)
    as (t2 & E2 & node' & Hnode' & Hxy).
  { unfold updateOrCreateNode. rewrite Sr, Hpos. cbn [fmap option_fmap option_map].
    eexists. split; [reflexivity|]. cbn [nodes renderer with_renderer setNode with_nodes].
    rewrite Map_get_Map_set. destruct (decide (generated = generated)); [|done].
    eexists. split; [reflexivity|]. by destruct position. }
  rewrite E2. cbn [fmap option_fmap option_map]. eexists. split; [reflexivity|].
  cbn [so_after].
  destruct (updateOrCreateNode_fields _ _ _ _ _ E2)
    as (Up & Uh & Uhid & Ulo & node & Un & _).
  rewrite Sp in Up. rewrite Sh in Uh. rewrite Shid in Uhid. rewrite Sr in Un.
  destruct (commitSave_fields blobSize now t2) as (Cc & Cn & Cp & Ch & _).
  set (l := fresh (dom (heap t))) in *.
  assert (deref (heap t2) l = record) as Hrec.
  { rewrite Uh, deref_insert. by destruct (decide (l = l)). }
  assert (JS.Map_get (personData t2) generated = Some l) as Hl.
  { rewrite Up, Map_get_Map_set. by destruct (decide (generated = generated)). }
  destruct (recordOf_commitSave_parents blobSize now t2 generated l Hl) as [-> ->].
  rewrite Hrec. split; [|split; [|done]].
  - rewrite Cc. apply parent_edge_drawn_iff. split; [|split; [done|split; [|split]]].
    + exists l. split; [rewrite Up; apply elem_of_Map_set|]. rewrite Hrec.
      unfold record, formRecord. cbn [motherId fatherId].
      destruct HM as [-> | ->]; [left|right]; by rewrite or_str_Some.
    + by rewrite Uhid.
    + rewrite Un, Map_has_Map_set. by rewrite bool_decide_eq_true_2.
    + rewrite Un, Map_has_Map_set, HnM. apply orb_true_r.
  - exists node'. by rewrite Cn.
Qed.

Lemma added_person_is_drawn_with_its_parent_witness :
  exists out,
    handleSavePersonFromModal sizeModel "1720000000000abc" 60 daughterForm fivePersons
    = Some out
    /\ edge "1720000000000abc" "p1" parent ∈ connections (renderer (so_after out))
    /\ (exists node,
          JS.Map_get (nodes (renderer (so_after out))) "1720000000000abc" = Some node
          /\ (node_x node, node_y node) = (240, 650)%Z)
    /\ motherId (recordOf (so_after out) "1720000000000abc")
       = Some (JS.or_str (fd_motherId daughterForm) "")
    /\ fatherId (recordOf (so_after out) "1720000000000abc")
       = Some (JS.or_str (fd_fatherId daughterForm) "").
Proof.
  apply (added_person_is_drawn_with_its_parent sizeModel "1720000000000abc" 60
           daughterForm fivePersons (240, 650)%Z "p1"); try by vm_compute.
  by left.
Defined.

Example saved_daughter :
  (fun out => (so_notified out, positions (so_after out),
               connections (renderer (so_after out))))
  <$> handleSavePersonFromModal sizeModel "1720000000000abc" 60 daughterForm
        fivePersons
  = Some (success "Person Added" "Fay Doe has been added successfully",
          [("p1", (400, 300)%Z); ("p2", (600, 300)%Z); ("p3", (500, 500)%Z);
           ("p4", (0, 0)%Z); ("p5", (-120, 40)%Z);
           ("1720000000000abc", (240, 650)%Z)],
          [edge "1720000000000abc" "p1" parent]).
Proof. by vm_compute. Qed.

(** X20.  Editing a person who has a node always succeeds for a
    complete form: the node keeps its place in the collection, its
    position, colour and radius and takes the names of the form, no node
    is added, and the record is written anew from the form, so that a
    parent the form leaves out is cleared. *)
Theorem edited_person_keeps_its_node (blobSize : Stored -> N)
    (generated : string) (now : N) (formData : FormData) (t : TreeCore)
    (id : string) (old : Node) :
  filled (fd_name formData) = true ->
  JS.truthy (fd_gender formData) = true ->
  filled (fd_editingId formData) = true ->
  fd_editingId formData = Some id ->
  JS.Map_get (nodes (renderer t)) id = Some old ->
  exists out,
    handleSavePersonFromModal blobSize generated now formData t = Some out
    /\ JS.Map_keys (nodes (renderer (so_after out))) = JS.Map_keys (nodes (renderer t))
    /\ JS.Map_get (nodes (renderer (so_after out))) id
       = Some (formNode formData (node_x old) (node_y old) (node_color old)
                 (node_radius old))
    /\ (forall other, other <> id ->
          JS.Map_get (nodes (renderer (so_after out))) other
          = JS.Map_get (nodes (renderer t)) other)
    /\ motherId (recordOf (so_after out) id)
       = Some (JS.or_str (fd_motherId formData) "")
    /\ fatherId (recordOf (so_after out) id)
       = Some (JS.or_str (fd_fatherId formData) "").
Proof.
  intros Hname Hgender Hedit Hid Hold.
  unfold handleSavePersonFromModal.
  rewrite Hname, Hgender, Hedit, Hid. cbn [negb].
  change (default "" (Some id)) with id.
  set (record := formRecord id formData).
  set (t1 := storeRecord id record t).
  destruct (storeRecord_fields id record t) as (Sp & Sh & Sr & _).
  fold t1 in Sp, Sh, Sr.
  unfold updateOrCreateNode. rewrite Sr, Hold. cbn [fmap option_fmap option_map].
  eexists. split; [reflexivity|]. cbn [so_after].
  set (t2 := with_renderer _ t1).
  destruct (commitSave_fields blobSize now t2) as (_ & Cn & _).
  assert (JS.Map_get (personData t2) id = Some (fresh (dom (heap t)))) as Hl.
  { cbn. rewrite Map_get_Map_set. by destruct (decide (id = id)). }
  destruct (recordOf_commitSave_parents blobSize now t2 id _ Hl) as [-> ->].
  assert (nodes (renderer t2)
          = JS.Map_set (nodes (renderer t)) id
              (formNode formData (node_x old) (node_y old) (node_color old)
                 (node_radius old))) as Hn2 by reflexivity.
  rewrite Cn, Hn2. split; [|split; [|split; [|split]]].
  - apply Map_set_keys. by rewrite Hold.
  - rewrite Map_get_Map_set. by destruct (decide (id = id)).
  - intros other Hother. rewrite Map_get_Map_set.
    by destruct (decide (other = id)).
  - cbn. rewrite deref_insert. by destruct (decide (_ = _)).
  - cbn. rewrite deref_insert. by destruct (decide (_ = _)).
Qed.

Lemma edited_person_keeps_its_node_witness :
  exists out,
    handleSavePersonFromModal sizeModel "1720000000000abc" 60 renameForm familyOfFive
    = Some out
    /\ JS.Map_keys (nodes (renderer (so_after out)))
       = JS.Map_keys (nodes (renderer familyOfFive))
    /\ JS.Map_get (nodes (renderer (so_after out))) "p3"
       = Some (formNode renameForm (node_x (newNode "Cid" "male" 500 500))
                 (node_y (newNode "Cid" "male" 500 500))
                 (node_color (newNode "Cid" "male" 500 500))
                 (node_radius (newNode "Cid" "male" 500 500)))
    /\ (forall other, other <> "p3" ->
          JS.Map_get (nodes (renderer (so_after out))) other
          = JS.Map_get (nodes (renderer familyOfFive)) other)
    /\ motherId (recordOf (so_after out) "p3")
       = Some (JS.or_str (fd_motherId renameForm) "")
    /\ fatherId (recordOf (so_after out) "p3")
       = Some (JS.or_str (fd_fatherId renameForm) "").
Proof.
  apply (edited_person_keeps_its_node sizeModel "1720000000000abc" 60 renameForm
           familyOfFive "p3" (newNode "Cid" "male" 500 500)); by vm_compute.
Defined.

(** The edit of [p3] with a form that names no mother clears the mother
    [p3] had, and the parent edge goes with it. *)
Example saved_rename :
  (fun out => (so_notified out, relations (so_after out),
               connections (renderer (so_after out))))
  <$> handleSavePersonFromModal sizeModel "1720000000000abc" 60 renameForm
        familyOfFive
  = Some (success "Person Updated" "Cedric has been updated successfully",
          [("p1", (Some "", Some "", Some "p2"));
           ("p2", (Some "", Some "", Some "p1"));
           ("p3", (Some "", Some "", Some ""));
           ("p4", (Some "", Some "", Some ""));
           ("p5", (Some "", Some "", Some ""))],
          [edge "p1" "p2" spouse]).
Proof. by vm_compute. Qed.

(** ** Restoring a saved tree *)

Lemma beforePersons_compressed now t t0 :
  let t1 := beforePersons (loadedOfCompressed (getCompressedState now t)) t0 in
  nodes (renderer t1) = []
  /\ camera (renderer t1) = camera (renderer t0)
  /\ settings (renderer t1) = settings (renderer t0)
  /\ hiddenConnections t1 = JS.Set_from (hiddenConnections t)
  /\ lineOnlyConnections t1 = JS.Set_from (lineOnlyConnections t)
  /\ displayPreferences t1 = displayPreferences t0.
Proof.
  intros t1. subst t1.
  unfold beforePersons, loadedOfCompressed, getCompressedState.
  cbn -[JS.Set_from].
  destruct (nextId t =? 0)%Z; repeat split; reflexivity.
Qed.

Lemma processLoadedData_compressed (blobSize : Stored -> N) (now later : N)
    (t t0 : TreeCore) :
  NoDup (JS.Map_keys (nodes (renderer t))) ->
  NoDup (hiddenConnections t) ->
  NoDup (lineOnlyConnections t) ->
  Forall (fun entry : string * Node =>
            default entry.1 (pd_id (recordOf t entry.1)) = entry.1)
    (nodes (renderer t)) ->
  (processLoadedData blobSize later
     (loadedOfCompressed (getCompressedState now t)) t0).1 = true
  /\ positions
       (processLoadedData blobSize later
          (loadedOfCompressed (getCompressedState now t)) t0).2
     = positions t
  /\ hiddenConnections
       (processLoadedData blobSize later
          (loadedOfCompressed (getCompressedState now t)) t0).2
     = hiddenConnections t
  /\ lineOnlyConnections
       (processLoadedData blobSize later
          (loadedOfCompressed (getCompressedState now t)) t0).2
     = lineOnlyConnections t
  /\ camera (renderer
       (processLoadedData blobSize later
          (loadedOfCompressed (getCompressedState now t)) t0).2)
     = camera (renderer t0)
  /\ settings (renderer
       (processLoadedData blobSize later
          (loadedOfCompressed (getCompressedState now t)) t0).2)
     = settings (renderer t0)
  /\ displayPreferences
       (processLoadedData blobSize later
          (loadedOfCompressed (getCompressedState now t)) t0).2
     = displayPreferences t0.
Proof.
  intros Hnodes Hhid Hlo Hids. rewrite processLoadedData_halves.
  set (data := loadedOfCompressed (getCompressedState now t)).
  assert (ld_people data = None) as -> by reflexivity.
  rewrite (bool_decide_eq_false_2 (is_Some None)) by (by intros [? ?]).
  cbn [andb fst snd]. split; [done|].
  destruct (sameSurface_loaded blobSize later data (loadPersons data t0))
    as (En & -> & -> & -> & -> & -> & _).
  unfold positions. rewrite En. clear En. unfold loadPersons.
  set (acc := {| ll_state := beforePersons data t0; ll_maxId := 0;
                 ll_relationshipsFound := 0 |}).
  destruct (beforePersons_compressed now t t0) as (Bn & Bc & Bs & Bh & Bl & Bd).
  fold data in Bn, Bc, Bs, Bh, Bl, Bd.
  assert (default [] (ld_persons data)
          = map loadedPersonOfCompressed (getPersonsArray t))
    as -> by reflexivity.
  assert (map lp_id (map loadedPersonOfCompressed (getPersonsArray t))
          = JS.Map_keys (nodes (renderer t))) as Hkeys.
  { unfold getPersonsArray. rewrite !map_map. cbn [lp_id loadedPersonOfCompressed cp_id].
    unfold JS.Map_keys. apply map_ext_Forall. exact Hids. }
  destruct (fold_loadPerson_surface
              (map loadedPersonOfCompressed (getPersonsArray t)) acc)
    as (-> & -> & -> & -> & -> & _ & -> & _).
  - change (NoDup (map lp_id (map loadedPersonOfCompressed (getPersonsArray t)))).
    by rewrite Hkeys.
  - intros p _. simpl. rewrite Bn. apply not_elem_of_nil.
  - simpl. rewrite Bn, Bc, Bs, Bh, Bl, Bd.
    rewrite !Set_from_NoDup by done. repeat split; try done.
    simpl. unfold getPersonsArray. rewrite !map_map.
    apply map_ext_Forall. eapply Forall_impl; [exact Hids|].
    intros [id node] Hid. cbn in *. rewrite !or_num_orZ_Some. by rewrite Hid.
Qed.

(** X21.  The compressed state carries the graph and nothing of the
    view: loading it puts every node back at its position and restores
    both suppression sets, while the camera, the line settings and the
    display preferences stay those of the state loaded into. *)
Theorem compressed_state_restores_graph_only (blobSize : Stored -> N)
    (now later : N) (t t0 : TreeCore) :
  NoDup (JS.Map_keys (nodes (renderer t))) ->
  NoDup (hiddenConnections t) ->
  NoDup (lineOnlyConnections t) ->
  Forall (fun entry : string * Node =>
            default entry.1 (pd_id (recordOf t entry.1)) = entry.1)
    (nodes (renderer t)) ->
  (processLoadedData blobSize later
     (loadedOfCompressed (getCompressedState now t)) t0).1 = true
  /\ positions
       (processLoadedData blobSize later
          (loadedOfCompressed (getCompressedState now t)) t0).2
     = positions t
  /\ hiddenConnections
       (processLoadedData blobSize later
          (loadedOfCompressed (getCompressedState now t)) t0).2
     = hiddenConnections t
  /\ lineOnlyConnections
       (processLoadedData blobSize later
          (loadedOfCompressed (getCompressedState now t)) t0).2
     = lineOnlyConnections t
  /\ camera (renderer
       (processLoadedData blobSize later
          (loadedOfCompressed (getCompressedState now t)) t0).2)
     = camera (renderer t0)
  /\ settings (renderer
       (processLoadedData blobSize later
          (loadedOfCompressed (getCompressedState now t)) t0).2)
     = settings (renderer t0)
  /\ displayPreferences
       (processLoadedData blobSize later
          (loadedOfCompressed (getCompressedState now t)) t0).2
     = displayPreferences t0.
Proof. apply processLoadedData_compressed. Qed.

Lemma compressed_state_restores_graph_only_witness :
  (processLoadedData sizeModel 70
     (loadedOfCompressed (getCompressedState 60 familyOfFive)) selfSpouse).1 = true
  /\ positions
       (processLoadedData sizeModel 70
          (loadedOfCompressed (getCompressedState 60 familyOfFive)) selfSpouse).2
     = positions familyOfFive
  /\ hiddenConnections
       (processLoadedData sizeModel 70
          (loadedOfCompressed (getCompressedState 60 familyOfFive)) selfSpouse).2
     = hiddenConnections familyOfFive
  /\ lineOnlyConnections
       (processLoadedData sizeModel 70
          (loadedOfCompressed (getCompressedState 60 familyOfFive)) selfSpouse).2
     = lineOnlyConnections familyOfFive
  /\ camera (renderer
       (processLoadedData sizeModel 70
          (loadedOfCompressed (getCompressedState 60 familyOfFive)) selfSpouse).2)
     = camera (renderer selfSpouse)
  /\ settings (renderer
       (processLoadedData sizeModel 70
          (loadedOfCompressed (getCompressedState 60 familyOfFive)) selfSpouse).2)
     = settings (renderer selfSpouse)
  /\ displayPreferences
       (processLoadedData sizeModel 70
          (loadedOfCompressed (getCompressedState 60 familyOfFive)) selfSpouse).2
     = displayPreferences selfSpouse.
Proof.
  apply (compressed_state_restores_graph_only sizeModel 60 70 familyOfFive selfSpouse).
  - apply (bool_decide_unpack (NoDup (JS.Map_keys (nodes (renderer familyOfFive))))).
    by vm_compute.
  - apply (bool_decide_unpack (NoDup (hiddenConnections familyOfFive))).
    by vm_compute.
  - apply (bool_decide_unpack (NoDup (lineOnlyConnections familyOfFive))).
    by vm_compute.
  - repeat constructor.
Defined.




(** ** The properties on small inputs *)

(** With a record shared between two ids the derivation is not
    idempotent: the first run draws the spouse edge and resets the
    record when it is visited as [p2], the second run draws nothing. *)
Example derivation_over_shared_record :
  connections (renderer (regenerateConnections sharedRecord))
  = [edge "p1" "p2" spouse]
  /\ connections (renderer (regenerateConnections (regenerateConnections sharedRecord)))
     = [].
Proof. by_evaluation. Qed.

(** A tree that draws no edge takes its records from the cache. *)
Example forced_regeneration_from_cache :
  connections (renderer (regenerateConnections relationsInCache)) = []
  /\ relations (forceRegenerateConnections sizeModel 70 relationsInCache)
     = relations familyOfFive
  /\ connections (renderer (forceRegenerateConnections sizeModel 70 relationsInCache))
     = connections (renderer familyOfFive).
Proof. by_evaluation. Qed.
